(** * The training-loop controller of MDCUN's [train.py]

    A shallow embedding of [main] (src/train.py): the step-indexed loop that
    saves periodic checkpoints, draws batches from a restarting loader, takes
    one optimizer step, decays the learning rate, flushes windowed metrics and
    runs the validation and test sub-loops with their best-score checkpoints.

    The network, the loss, the optimizer, the scheduler and the metric engine
    are collaborators: they enter through the class [Collaborators].  Scalars
    (losses, PSNR, SSIM) are rationals; rounding of floating-point numbers is
    outside this development. *)

From Stdlib Require Import String.
From Stdlib Require Import ZArith QArith List Sorted Bool Arith Lia.
Import ListNotations.

Set Implicit Arguments.
Open Scope Z_scope.

(** ** Python exceptions and results *)

Inductive Exn : Type :=
| StopIteration
| ZeroDivisionError
| AttributeError
| IndexError.

Inductive result (A : Type) : Type :=
| Ok (a : A)
| Raise (e : Exn).

Arguments Ok {A} a.
Arguments Raise {A} e.

Definition bind {A B : Type} (m : result A) (k : A -> result B) : result B :=
  match m with
  | Ok a => k a
  | Raise e => Raise e
  end.

Notation "'let?' x ':=' m 'in' k" := (bind m (fun x => k))
  (at level 10, x name, m at level 100, k at level 200).
Notation "'let?' ' p ':=' m 'in' k" := (bind m (fun p => k))
  (at level 10, p pattern, m at level 100, k at level 200).

(** ** Python integers *)

(** [a % b]: the sign of the result follows the divisor, as [Z.modulo] does;
    a zero divisor raises. *)
Definition py_mod (a b : Z) : result Z :=
  if b =? 0 then Raise ZeroDivisionError else Ok (a mod b).

(** [x in l] on a list of integers. *)
Definition py_in (x : Z) (l : list Z) : bool := existsb (Z.eqb x) l.

(** [range(n)] *)
Definition range (n : Z) : list Z := map Z.of_nat (seq 0 (Z.to_nat n)).

(** ** Accumulated scalars

    [tr_report_loss], [val_report_loss] and [test_report_loss] start as the
    Python integer [0], become tensors once a loss tensor is added to them,
    and are read with [.item()], which only a tensor has. *)

Inductive Scalar : Type :=
| PyInt (z : Z)
| PyFloat (q : Q)
| Tensor (q : Q).

Definition scalar_value (a : Scalar) : Q :=
  match a with
  | PyInt z => inject_Z z
  | PyFloat q => q
  | Tensor q => q
  end.

(** [acc += loss] with [loss] a tensor *)
Definition add_tensor (a : Scalar) (loss : Q) : Scalar :=
  Tensor (scalar_value a + loss).

(** [acc / n] with [n] a Python integer.  A tensor divided by zero does not
    raise in torch and the model gives the value of [Qdiv] there; in a run of
    [main] it does not happen: an accumulator is a tensor only after a batch
    was drawn from the loader whose length divides it, and [report_interval]
    has gone through [py_mod] before it divides. *)
Definition true_div (a : Scalar) (n : Z) : result Scalar :=
  match a with
  | Tensor q => Ok (Tensor (q / inject_Z n))
  | PyInt _ | PyFloat _ =>
      if n =? 0 then Raise ZeroDivisionError
      else Ok (PyFloat (scalar_value a / inject_Z n))
  end.

(** [acc.item()] *)
Definition item (a : Scalar) : result Q :=
  match a with
  | Tensor q => Ok q
  | PyInt _ | PyFloat _ => Raise AttributeError
  end.

(** [a > b] on scalars *)
Definition Qgtb (a b : Q) : bool := negb (Qle_bool a b).

(** [l[-1]] *)
Definition py_last {A : Type} (l : list A) : result A :=
  match rev l with
  | [] => Raise IndexError
  | x :: _ => Ok x
  end.

(** ** Loaders and the restarting feeder *)

Section Feeder.

Variable Batch : Type.

(** A [DataLoader]: [len(loader)] batches per pass; [loader_pass k] is the
    pass that the [k]-th call of [iter(loader)] iterates (a shuffling loader
    orders each pass anew). *)
Record Loader : Type := {
  loader_len : nat;
  loader_pass : nat -> list Batch;
  loader_pass_length : forall k, length (loader_pass k) = loader_len
}.

(** A live iterator with the number of [iter] calls made on its loader. *)
Record Feeder : Type := {
  feeder_iter : list Batch;
  feeder_epoch : nat
}.

(** [iter(loader)]: whatever was left of the previous pass is dropped. *)
Definition py_iter (ld : Loader) (f : Feeder) : Feeder :=
  {| feeder_iter := loader_pass ld (feeder_epoch f);
     feeder_epoch := S (feeder_epoch f) |}.

(** [next(it)] *)
Definition py_next (f : Feeder) : result (Batch * Feeder) :=
  match feeder_iter f with
  | [] => Raise StopIteration
  | b :: rest =>
      Ok (b, {| feeder_iter := rest; feeder_epoch := feeder_epoch f |})
  end.

(** train.py 102-108 and 161-167:
<<
    try:
        pan, mslr, mshr = next(it)
    except StopIteration:
        it = iter(loader)
        pan, mslr, mshr = next(it)
>>
    The boolean tells whether the handler ran. *)
Definition feeder_next (ld : Loader) (f : Feeder)
  : result (Batch * Feeder * bool) :=
  match py_next f with
  | Ok (b, f') => Ok (b, f', false)
  | Raise StopIteration =>
      let? '(b, f') := py_next (py_iter ld f) in
      Ok (b, f', true)
  | Raise e => Raise e
  end.

(** [n] successive requests: the batches in order, the feeder left behind and
    the number of restarts. *)
Fixpoint feeder_draw (ld : Loader) (n : nat) (f : Feeder)
  : result (list Batch * Feeder * nat) :=
  match n with
  | O => Ok ([], f, O)
  | S n' =>
      let? '(b, f1, r) := feeder_next ld f in
      let? '(bs, f2, k) := feeder_draw ld n' f1 in
      Ok (b :: bs, f2, ((if r then 1 else 0) + k)%nat)
  end.

(** The batches of passes [k], [k+1], ..., [k+n-1] laid end to end. *)
Definition passes_from (ld : Loader) (k n : nat) : list Batch :=
  concat (map (loader_pass ld) (seq k n)).

End Feeder.

Arguments loader_len {Batch} l.
Arguments loader_pass {Batch} l k.
Arguments Build_Feeder {Batch} feeder_iter feeder_epoch.

(** ** Collaborators

    What the controller calls and never looks into. *)

Class Collaborators : Type := {
  Batch : Type;    (** a triple [(pan, mslr, mshr)] *)
  Pred : Type;     (** [mssr], the output of the network *)
  Model : Type;    (** [model.state_dict()] *)
  Optim : Type;    (** [optimizer.state_dict()], learning rate included *)
  Metric : Type;   (** the running state of a [MetricCollection] *)
  (** [model(pan, mslr)]; the flag is [true] in training mode, [false] after
      [model.eval()] *)
  forward : bool -> Model -> Batch -> Pred;
  (** [criterion(mssr, mshr)] *)
  criterion : Pred -> Batch -> Q;
  (** [optimizer.zero_grad(); tr_loss.backward(); optimizer.step()] *)
  backward_step : Model -> Optim -> Batch -> Model * Optim;
  (** [scheduler.step()] *)
  scheduler_step : Optim -> Optim;
  (** [collection.forward(mssr, mshr)]; the per-batch values it returns only
      feed the progress bar *)
  metric_forward : Metric -> Pred -> Batch -> Metric;
  (** [collection.compute()]: the pair [(psnr, ssim)] *)
  metric_compute : Metric -> Q * Q;
  (** [collection.reset()] *)
  metric_reset : Metric -> Metric
}.

(** ** Data model *)

(** [{'loss': _, 'psnr': _, 'ssim': _}] *)
Record Snapshot : Type := {
  loss : Q;
  psnr : Q;
  ssim : Q
}.

Inductive Phase : Type := Train | Validation | Test.

(** The label given to [save_checkpoint]: [current_daytime],
    [current_daytime + '_best_eval'], [current_daytime + '_best_test']. *)
Inductive Cause : Type := Periodic | BestEval | BestTest.

(** The constants of [main], lines 71-86; [val_steps_init] is line 79. *)
Record Config : Type := {
  steps : Z;
  save_interval : Z;
  report_interval : Z;
  test_intervals : list Z;
  evaluation_interval : list Z;
  val_steps_init : Z;
  lr_decay_intervals : Z
}.

Definition source_config : Config :=
  {| steps := 600000;
     save_interval := 1000;
     report_interval := 50;
     test_intervals := [100000; 200000; 300000; 400000; 500000; 600000];
     evaluation_interval := [100000; 200000; 300000; 400000; 500000; 600000];
     val_steps_init := 100;
     lr_decay_intervals := 150000 |}.

Section Controller.

Context {C : Collaborators}.

(** The values of a checkpoint dictionary. *)
Inductive Value : Type :=
| VInt (z : Z)
| VStateDict (m : Model)
| VOptimizer (o : Optim)
| VMetrics (h : list Snapshot).

(** A checkpoint: a Python dictionary with string keys, in insertion order. *)
Definition Bundle : Type := list (string * Value).

Fixpoint lookup (k : string) (d : Bundle) : option Value :=
  match d with
  | [] => None
  | (k', v) :: d' => if String.eqb k k' then Some v else lookup k d'
  end.

(** What the controller does to the outside, in order. *)
Inductive Event : Type :=
| EvSave (c : Cause) (b : Bundle)       (** [save_checkpoint(checkpoint, 'MDCUN', label)] *)
| EvRestart (p : Phase)                 (** [iter(loader)] in a [StopIteration] handler *)
| EvDraw (p : Phase) (b : Batch)        (** a batch taken from a loader *)
| EvOptimizerStep                       (** [optimizer.step()] *)
| EvDecay                               (** [scheduler.step()] *)
| EvFlush (p : Phase) (s : Snapshot).   (** [<phase>_metrics.append(...)] *)

(** The loaders and the collaborators' initial states (lines 24-60).
    [test_loader] does not shuffle and has batch size 1: every pass is the
    test set in order. *)
Record Data : Type := {
  train_loader : Loader Batch;
  validation_loader : Loader Batch;
  test_loader : list Batch;
  model_init : Model;
  optimizer_init : Optim;
  metric_init : Metric
}.

(** The variables of [main] that the loop reads and writes, and the log of
    what it has done so far. *)
Record State : Type := {
  model : Model;
  optimizer : Optim;
  metric_collection : Metric;
  val_metric_collection : Metric;
  test_metric_collection : Metric;
  tr_report_loss : Scalar;
  val_report_loss : Scalar;
  test_report_loss : Scalar;
  tr_metrics : list Snapshot;
  val_metrics : list Snapshot;
  test_metrics : list Snapshot;
  best_eval_psnr : Q;
  best_test_psnr : Q;
  val_steps : Z;
  train_iter : Feeder Batch;
  val_iter : Feeder Batch;
  log : list Event
}.

Definition set_model (v : Model) (s : State) : State :=
  Build_State v (optimizer s) (metric_collection s) (val_metric_collection s)
    (test_metric_collection s) (tr_report_loss s) (val_report_loss s)
    (test_report_loss s) (tr_metrics s) (val_metrics s) (test_metrics s)
    (best_eval_psnr s) (best_test_psnr s) (val_steps s) (train_iter s)
    (val_iter s) (log s).

Definition set_optimizer (v : Optim) (s : State) : State :=
  Build_State (model s) v (metric_collection s) (val_metric_collection s)
    (test_metric_collection s) (tr_report_loss s) (val_report_loss s)
    (test_report_loss s) (tr_metrics s) (val_metrics s) (test_metrics s)
    (best_eval_psnr s) (best_test_psnr s) (val_steps s) (train_iter s)
    (val_iter s) (log s).

Definition set_metric_collection (v : Metric) (s : State) : State :=
  Build_State (model s) (optimizer s) v (val_metric_collection s)
    (test_metric_collection s) (tr_report_loss s) (val_report_loss s)
    (test_report_loss s) (tr_metrics s) (val_metrics s) (test_metrics s)
    (best_eval_psnr s) (best_test_psnr s) (val_steps s) (train_iter s)
    (val_iter s) (log s).

Definition set_val_metric_collection (v : Metric) (s : State) : State :=
  Build_State (model s) (optimizer s) (metric_collection s) v
    (test_metric_collection s) (tr_report_loss s) (val_report_loss s)
    (test_report_loss s) (tr_metrics s) (val_metrics s) (test_metrics s)
    (best_eval_psnr s) (best_test_psnr s) (val_steps s) (train_iter s)
    (val_iter s) (log s).

Definition set_test_metric_collection (v : Metric) (s : State) : State :=
  Build_State (model s) (optimizer s) (metric_collection s)
    (val_metric_collection s) v (tr_report_loss s) (val_report_loss s)
    (test_report_loss s) (tr_metrics s) (val_metrics s) (test_metrics s)
    (best_eval_psnr s) (best_test_psnr s) (val_steps s) (train_iter s)
    (val_iter s) (log s).

Definition set_tr_report_loss (v : Scalar) (s : State) : State :=
  Build_State (model s) (optimizer s) (metric_collection s)
    (val_metric_collection s) (test_metric_collection s) v (val_report_loss s)
    (test_report_loss s) (tr_metrics s) (val_metrics s) (test_metrics s)
    (best_eval_psnr s) (best_test_psnr s) (val_steps s) (train_iter s)
    (val_iter s) (log s).

Definition set_val_report_loss (v : Scalar) (s : State) : State :=
  Build_State (model s) (optimizer s) (metric_collection s)
    (val_metric_collection s) (test_metric_collection s) (tr_report_loss s) v
    (test_report_loss s) (tr_metrics s) (val_metrics s) (test_metrics s)
    (best_eval_psnr s) (best_test_psnr s) (val_steps s) (train_iter s)
    (val_iter s) (log s).

Definition set_test_report_loss (v : Scalar) (s : State) : State :=
  Build_State (model s) (optimizer s) (metric_collection s)
    (val_metric_collection s) (test_metric_collection s) (tr_report_loss s)
    (val_report_loss s) v (tr_metrics s) (val_metrics s) (test_metrics s)
    (best_eval_psnr s) (best_test_psnr s) (val_steps s) (train_iter s)
    (val_iter s) (log s).

Definition set_tr_metrics (v : list Snapshot) (s : State) : State :=
  Build_State (model s) (optimizer s) (metric_collection s)
    (val_metric_collection s) (test_metric_collection s) (tr_report_loss s)
    (val_report_loss s) (test_report_loss s) v (val_metrics s) (test_metrics s)
    (best_eval_psnr s) (best_test_psnr s) (val_steps s) (train_iter s)
    (val_iter s) (log s).

Definition set_val_metrics (v : list Snapshot) (s : State) : State :=
  Build_State (model s) (optimizer s) (metric_collection s)
    (val_metric_collection s) (test_metric_collection s) (tr_report_loss s)
    (val_report_loss s) (test_report_loss s) (tr_metrics s) v (test_metrics s)
    (best_eval_psnr s) (best_test_psnr s) (val_steps s) (train_iter s)
    (val_iter s) (log s).

Definition set_test_metrics (v : list Snapshot) (s : State) : State :=
  Build_State (model s) (optimizer s) (metric_collection s)
    (val_metric_collection s) (test_metric_collection s) (tr_report_loss s)
    (val_report_loss s) (test_report_loss s) (tr_metrics s) (val_metrics s) v
    (best_eval_psnr s) (best_test_psnr s) (val_steps s) (train_iter s)
    (val_iter s) (log s).

Definition set_best_eval_psnr (v : Q) (s : State) : State :=
  Build_State (model s) (optimizer s) (metric_collection s)
    (val_metric_collection s) (test_metric_collection s) (tr_report_loss s)
    (val_report_loss s) (test_report_loss s) (tr_metrics s) (val_metrics s)
    (test_metrics s) v (best_test_psnr s) (val_steps s) (train_iter s)
    (val_iter s) (log s).

Definition set_best_test_psnr (v : Q) (s : State) : State :=
  Build_State (model s) (optimizer s) (metric_collection s)
    (val_metric_collection s) (test_metric_collection s) (tr_report_loss s)
    (val_report_loss s) (test_report_loss s) (tr_metrics s) (val_metrics s)
    (test_metrics s) (best_eval_psnr s) v (val_steps s) (train_iter s)
    (val_iter s) (log s).

Definition set_val_steps (v : Z) (s : State) : State :=
  Build_State (model s) (optimizer s) (metric_collection s)
    (val_metric_collection s) (test_metric_collection s) (tr_report_loss s)
    (val_report_loss s) (test_report_loss s) (tr_metrics s) (val_metrics s)
    (test_metrics s) (best_eval_psnr s) (best_test_psnr s) v (train_iter s)
    (val_iter s) (log s).

Definition set_train_iter (v : Feeder Batch) (s : State) : State :=
  Build_State (model s) (optimizer s) (metric_collection s)
    (val_metric_collection s) (test_metric_collection s) (tr_report_loss s)
    (val_report_loss s) (test_report_loss s) (tr_metrics s) (val_metrics s)
    (test_metrics s) (best_eval_psnr s) (best_test_psnr s) (val_steps s) v
    (val_iter s) (log s).

Definition set_val_iter (v : Feeder Batch) (s : State) : State :=
  Build_State (model s) (optimizer s) (metric_collection s)
    (val_metric_collection s) (test_metric_collection s) (tr_report_loss s)
    (val_report_loss s) (test_report_loss s) (tr_metrics s) (val_metrics s)
    (test_metrics s) (best_eval_psnr s) (best_test_psnr s) (val_steps s)
    (train_iter s) v (log s).

(** Appends one event to the log. *)
Definition emit (e : Event) (s : State) : State :=
  Build_State (model s) (optimizer s) (metric_collection s)
    (val_metric_collection s) (test_metric_collection s) (tr_report_loss s)
    (val_report_loss s) (test_report_loss s) (tr_metrics s) (val_metrics s)
    (test_metrics s) (best_eval_psnr s) (best_test_psnr s) (val_steps s)
    (train_iter s) (val_iter s) (log s ++ [e]).

Variable cfg : Config.
Variable data : Data.

(** Modelled from the spec: [save_checkpoint] lives in [utils], which is not
    among the sources; by section 4.5 it writes the bundle, as it stands at
    the call, under its label and returns nothing.  The log keeps what was
    written. *)
Definition save_checkpoint (checkpoint : Bundle) (label : Cause) (s : State)
  : State :=
  emit (EvSave label checkpoint) s.

(** Lines 62-69, 79 and 89: the variables before the loop.  [val_iter] is
    unbound until the first evaluation. *)
Definition initial_state : State :=
  {| model := model_init data;
     optimizer := optimizer_init data;
     metric_collection := metric_init data;
     val_metric_collection := metric_init data;
     test_metric_collection := metric_init data;
     tr_report_loss := PyInt 0;
     val_report_loss := PyInt 0;
     test_report_loss := PyInt 0;
     tr_metrics := [];
     val_metrics := [];
     test_metrics := [];
     best_eval_psnr := 0%Q;
     best_test_psnr := 0%Q;
     val_steps := val_steps_init cfg;
     train_iter := py_iter (train_loader data) (Build_Feeder [] 0);
     val_iter := Build_Feeder [] 0;
     log := [] |}.

(** Lines 93-100 *)
Definition periodic_checkpoint (step : Z) (s : State) : result State :=
  let? r := py_mod step (save_interval cfg) in
  if (r =? 0) && negb (step =? 0) then
    let checkpoint :=
      [("step", VInt step);
       ("state_dict", VStateDict (model s));
       ("optimizer", VOptimizer (optimizer s));
       ("tr_metrics", VMetrics (tr_metrics s));
       ("val_metrics", VMetrics (val_metrics s));
       ("test_metrics", VMetrics (test_metrics s))]%string in
    Ok (save_checkpoint checkpoint Periodic s)
  else Ok s.

(** Lines 102-108 *)
Definition next_train_batch (s : State) : result (Batch * State) :=
  let? '(b, f, restarted) := feeder_next (train_loader data) (train_iter s) in
  let s := if restarted : bool then emit (EvRestart Train) s else s in
  Ok (b, emit (EvDraw Train b) (set_train_iter f s)).

(** Lines 110-128: forward, accumulation, backward and optimizer step *)
Definition gradient_step (b : Batch) (s : State) : State :=
  let mssr := forward true (model s) b in
  let tr_loss := criterion mssr b in
  let s := set_tr_report_loss (add_tensor (tr_report_loss s) tr_loss) s in
  let s :=
    set_metric_collection (metric_forward (metric_collection s) mssr b) s in
  let '(m, o) := backward_step (model s) (optimizer s) b in
  emit EvOptimizerStep (set_optimizer o (set_model m s)).

(** Lines 131-132 *)
Definition lr_decay (step : Z) (s : State) : result State :=
  let? r := py_mod step (lr_decay_intervals cfg) in
  if (r =? 0) && negb (step =? 0) then
    Ok (emit EvDecay (set_optimizer (scheduler_step (optimizer s)) s))
  else Ok s.

(** Lines 136-148 *)
Definition report (step : Z) (s : State) : result State :=
  let? r := py_mod (step + 1) (report_interval cfg) in
  if (r =? 0) && negb (step =? 0) then
    let? avg := true_div (tr_report_loss s) (report_interval cfg) in
    let s := set_tr_report_loss avg s in
    let tr_metric := metric_compute (metric_collection s) in
    let? l := item (tr_report_loss s) in
    let snap := {| loss := l; psnr := fst tr_metric; ssim := snd tr_metric |} in
    let s := emit (EvFlush Train snap) (set_tr_metrics (tr_metrics s ++ [snap]) s) in
    let s := set_tr_report_loss (PyInt 0) s in
    Ok (set_metric_collection (metric_reset (metric_collection s)) s)
  else Ok s.

(** Lines 161-178: one round of the validation sub-loop *)
Definition validation_step (s : State) : result State :=
  let? '(b, f, restarted) :=
    feeder_next (validation_loader data) (val_iter s) in
  let s := if restarted : bool then emit (EvRestart Validation) s else s in
  let s := emit (EvDraw Validation b) (set_val_iter f s) in
  let mssr := forward false (model s) b in
  let val_loss := criterion mssr b in
  let s :=
    set_val_metric_collection
      (metric_forward (val_metric_collection s) mssr b) s in
  Ok (set_val_report_loss (add_tensor (val_report_loss s) val_loss) s).

(** [for eval_step in range(val_steps)] *)
Fixpoint validation_loop (n : nat) (s : State) : result State :=
  match n with
  | O => Ok s
  | S n' => let? s := validation_step s in validation_loop n' s
  end.

(** Lines 153-196 *)
Definition evaluate (s : State) : result State :=
  let s :=
    set_val_steps
      (if val_steps s =? 0
       then Z.of_nat (loader_len (validation_loader data))
       else val_steps s) s in
  let s := set_val_iter (py_iter (validation_loader data) (val_iter s)) s in
  let? s := validation_loop (Z.to_nat (val_steps s)) s in
  let? avg :=
    true_div (val_report_loss s)
             (Z.of_nat (loader_len (validation_loader data))) in
  let s := set_val_report_loss avg s in
  let val_metric := metric_compute (val_metric_collection s) in
  let? l := item (val_report_loss s) in
  let snap := {| loss := l; psnr := fst val_metric; ssim := snd val_metric |} in
  let s :=
    emit (EvFlush Validation snap) (set_val_metrics (val_metrics s ++ [snap]) s) in
  let s := set_val_report_loss (PyInt 0) s in
  Ok (set_val_metric_collection (metric_reset (val_metric_collection s)) s).

(** Lines 199-208 *)
Definition best_eval (step : Z) (s : State) : result State :=
  let? last_metrics := py_last (val_metrics s) in
  if Qgtb (psnr last_metrics) (best_eval_psnr s) then
    let s := set_best_eval_psnr (psnr last_metrics) s in
    let checkpoint :=
      [("step", VInt step);
       ("state_dict", VStateDict (model s));
       ("optimizer", VOptimizer (optimizer s));
       ("tr_metrics", VMetrics (tr_metrics s));
       ("val_metrics", VMetrics (val_metrics s));
       ("test_metrics", VMetrics (test_metrics s))]%string in
    Ok (save_checkpoint checkpoint BestEval s)
  else Ok s.

(** Lines 151-208 *)
Definition evaluation (step : Z) (s : State) : result State :=
  if py_in (step + 1) (evaluation_interval cfg) && negb (step =? 0) then
    let? s := evaluate s in
    best_eval step s
  else Ok s.

(** Lines 218-229: the body of the test sub-loop *)
Definition test_step (s : State) (b : Batch) : State :=
  let s := emit (EvDraw Test b) s in
  let mssr := forward false (model s) b in
  let test_loss := criterion mssr b in
  let s :=
    set_test_metric_collection
      (metric_forward (test_metric_collection s) mssr b) s in
  set_test_report_loss (add_tensor (test_report_loss s) test_loss) s.

(** Lines 213-247 *)
Definition run_test (s : State) : result State :=
  let s := fold_left test_step (test_loader data) s in
  let? avg :=
    true_div (test_report_loss s) (Z.of_nat (length (test_loader data))) in
  let s := set_test_report_loss avg s in
  let test_metric := metric_compute (test_metric_collection s) in
  let? l := item (test_report_loss s) in
  let snap := {| loss := l; psnr := fst test_metric; ssim := snd test_metric |} in
  let s :=
    emit (EvFlush Test snap) (set_test_metrics (test_metrics s ++ [snap]) s) in
  let s := set_test_report_loss (PyInt 0) s in
  Ok (set_test_metric_collection (metric_reset (test_metric_collection s)) s).

(** Lines 250-259 *)
Definition best_test (step : Z) (s : State) : result State :=
  let? last_metrics := py_last (test_metrics s) in
  if Qgtb (psnr last_metrics) (best_test_psnr s) then
    let s := set_best_test_psnr (psnr last_metrics) s in
    let checkpoint :=
      [("step", VInt step);
       ("state_dict", VStateDict (model s));
       ("optimizer", VOptimizer (optimizer s));
       ("tr_metrics", VMetrics (tr_metrics s));
       ("test_metrics", VMetrics (test_metrics s))]%string in
    Ok (save_checkpoint checkpoint BestTest s)
  else Ok s.

(** Lines 211-259 *)
Definition test (step : Z) (s : State) : result State :=
  if py_in (step + 1) (test_intervals cfg) && negb (step =? 0) then
    let? s := run_test s in
    best_test step s
  else Ok s.

(** Lines 92-259: the body of the loop *)
Definition iteration (step : Z) (s : State) : result State :=
  let? s := periodic_checkpoint step s in
  let? '(b, s) := next_train_batch s in
  let s := gradient_step b s in
  let? s := lr_decay step s in
  let? s := report step s in
  let? s := evaluation step s in
  test step s.

(** [for step in ...] over a list of step numbers *)
Fixpoint loop (l : list Z) (s : State) : result State :=
  match l with
  | [] => Ok s
  | step :: l' => let? s := iteration step s in loop l' s
  end.

(** The state after the first [n] iterations of the run. *)
Definition run_upto (n : nat) : result State :=
  loop (firstn n (range (steps cfg))) initial_state.

Definition main : result State :=
  loop (range (steps cfg)) initial_state.

End Controller.

(** ** Vocabulary of the specification *)

(** The interval actions of section 4.3, with the gradient step between them. *)
Inductive Action : Type :=
| Checkpoint
| GradientStep
| Decay
| Report
| Evaluate
| TestModel.

(** The place of an action in the order of section 4.3. *)
Definition rank (a : Action) : nat :=
  match a with
  | Checkpoint => 0
  | GradientStep => 1
  | Decay => 2
  | Report => 3
  | Evaluate => 4
  | TestModel => 5
  end.

Section Vocabulary.

Context {C : Collaborators}.

(** The action an event is part of: a sub-loop's draws, its flush and its
    best-score checkpoint belong to the evaluation or the test that runs it. *)
Definition action_of (e : Event) : Action :=
  match e with
  | EvSave Periodic _ => Checkpoint
  | EvSave BestEval _ => Evaluate
  | EvSave BestTest _ => TestModel
  | EvRestart Train | EvDraw Train _ | EvOptimizerStep => GradientStep
  | EvRestart Validation | EvDraw Validation _ => Evaluate
  | EvRestart Test | EvDraw Test _ => TestModel
  | EvDecay => Decay
  | EvFlush Train _ => Report
  | EvFlush Validation _ => Evaluate
  | EvFlush Test _ => TestModel
  end.

(** An action fires in a stretch of the log when one of its events is there. *)
Definition fires (a : Action) (evs : list Event) : Prop :=
  exists e, In e evs /\ action_of e = a.

(** A stretch of the log that belongs to one action. *)
Definition block (a : Action) (evs : list Event) : Prop :=
  Forall (fun e => action_of e = a) evs.

(** The bundle of section 3: step counter, trainable state, optimizer state
    and the three histories. *)
Definition full_bundle (step : Z) (s : State) : Bundle :=
  [("step", VInt step);
   ("state_dict", VStateDict (model s));
   ("optimizer", VOptimizer (optimizer s));
   ("tr_metrics", VMetrics (tr_metrics s));
   ("val_metrics", VMetrics (val_metrics s));
   ("test_metrics", VMetrics (test_metrics s))]%string.

(** The bundle of lines 252-257, where the validation history is commented
    out. *)
Definition bundle_without_val_metrics (step : Z) (s : State) : Bundle :=
  [("step", VInt step);
   ("state_dict", VStateDict (model s));
   ("optimizer", VOptimizer (optimizer s));
   ("tr_metrics", VMetrics (tr_metrics s));
   ("test_metrics", VMetrics (test_metrics s))]%string.

(** The batches a stretch of the log draws in a phase, in order. *)
Fixpoint drawn (p : Phase) (evs : list Event) : list Batch :=
  match evs with
  | [] => []
  | EvDraw Train b :: evs' =>
      match p with Train => b :: drawn p evs' | _ => drawn p evs' end
  | EvDraw Validation b :: evs' =>
      match p with Validation => b :: drawn p evs' | _ => drawn p evs' end
  | EvDraw Test b :: evs' =>
      match p with Test => b :: drawn p evs' | _ => drawn p evs' end
  | _ :: evs' => drawn p evs'
  end.

(** The number of restarts of a phase's loader in a stretch of the log. *)
Fixpoint restarts (p : Phase) (evs : list Event) : nat :=
  match evs with
  | [] => 0
  | EvRestart Train :: evs' =>
      match p with Train => S (restarts p evs') | _ => restarts p evs' end
  | EvRestart Validation :: evs' =>
      match p with Validation => S (restarts p evs') | _ => restarts p evs' end
  | EvRestart Test :: evs' =>
      match p with Test => S (restarts p evs') | _ => restarts p evs' end
  | _ :: evs' => restarts p evs'
  end.

(** The checkpoints a stretch of the log saves under a label. *)
Fixpoint saved (c : Cause) (evs : list Event) : list Bundle :=
  match evs with
  | [] => []
  | EvSave Periodic b :: evs' =>
      match c with Periodic => b :: saved c evs' | _ => saved c evs' end
  | EvSave BestEval b :: evs' =>
      match c with BestEval => b :: saved c evs' | _ => saved c evs' end
  | EvSave BestTest b :: evs' =>
      match c with BestTest => b :: saved c evs' | _ => saved c evs' end
  | _ :: evs' => saved c evs'
  end.

(** The loss of a batch under a model in evaluation mode. *)
Definition eval_loss (m : Model) (b : Batch) : Q :=
  criterion (forward false m b) b.

(** [m] is the greatest element of [l]. *)
Definition is_max (m : Q) (l : list Q) : Prop :=
  In m l /\ Forall (fun x => (x <= m)%Q) l.

(** What most operations leave alone: the validation and test histories, the
    best scores, [val_steps] and the test accumulator. *)
Definition keeps (s s' : State) : Prop :=
  val_metrics s' = val_metrics s /\
  test_metrics s' = test_metrics s /\
  best_eval_psnr s' = best_eval_psnr s /\
  best_test_psnr s' = best_test_psnr s /\
  val_steps s' = val_steps s /\
  test_report_loss s' = test_report_loss s.

(** The value of [val_steps] after line 156. *)
Definition rounds (data : Data) (s : State) : Z :=
  if val_steps s =? 0
  then Z.of_nat (loader_len (validation_loader data))
  else val_steps s.

(** [offer] of section 4.4: the stored best after a score is offered. *)
Definition offer (best score : Q) : Q :=
  if Qgtb score best then score else best.

(** A history and its best score after one operation: untouched, or one
    snapshot longer with the snapshot's PSNR offered. *)
Definition tracked (best : Q) (h : list Snapshot) (best' : Q)
           (h' : list Snapshot) : Prop :=
  (h' = h /\ best' = best) \/
  (exists snap, h' = h ++ [snap] /\ best' = offer best (psnr snap)).

(** [h'] is [h] with at most [n] snapshots appended. *)
Definition extends_by (n : nat) (h h' : list Snapshot) : Prop :=
  exists t, h' = h ++ t /\ (length t <= n)%nat.

(** Each best score is the maximum of 0 and the PSNRs of its history. *)
Definition best_scores_hold (s : State) : Prop :=
  is_max (best_eval_psnr s) (0%Q :: map psnr (val_metrics s)) /\
  is_max (best_test_psnr s) (0%Q :: map psnr (test_metrics s)).

(** The order of the log: no event comes before an event of an earlier
    action. *)
Definition in_order (e1 e2 : Event) : Prop :=
  (rank (action_of e1) <= rank (action_of e2))%nat.

(** What an iteration needs to run to its end. *)
Definition well_formed (cfg : Config) (data : Data) (s : State) : Prop :=
  save_interval cfg <> 0 /\
  report_interval cfg <> 0 /\
  lr_decay_intervals cfg <> 0 /\
  (0 < loader_len (train_loader data))%nat /\
  (0 < loader_len (validation_loader data))%nat /\
  test_loader data <> [] /\
  0 <= val_steps s.

End Vocabulary.

(** ** A small instance

    Batches are numbers; the network returns its batch, the loss is the
    prediction, a metric collection keeps the predictions it was fed and
    reports the latest as PSNR. *)

Module Demo.

#[export] Instance collaborators : Collaborators := {|
  Batch := Q;
  Pred := Q;
  Model := nat;
  Optim := nat;
  Metric := list Q;
  forward := fun _ _ b => b;
  criterion := fun p _ => p;
  backward_step := fun m o _ => (S m, o);
  scheduler_step := fun o => S o;
  metric_forward := fun mc p _ => p :: mc;
  metric_compute := fun mc => (hd 0%Q mc, 0%Q);
  metric_reset := fun _ => []
|}.

Definition constant_loader (items : list Q) : Loader Q :=
  {| loader_len := length items;
     loader_pass := fun _ => items;
     loader_pass_length := fun _ => eq_refl |}.

(** The scenario of section 8 of the specification, with a test at steps 3
    and 5 and three validation rounds. *)
Definition config : Config :=
  {| steps := 5;
     save_interval := 2;
     report_interval := 2;
     test_intervals := [3; 5];
     evaluation_interval := [3];
     val_steps_init := 3;
     lr_decay_intervals := 10 |}.

Definition data : Data :=
  {| train_loader := constant_loader [1#1; 2#1; 3#1]%Q;
     validation_loader := constant_loader [30#1; 31#1]%Q;
     test_loader := [29#1; 30#1]%Q;
     model_init := O;
     optimizer_init := O;
     metric_init := [] |}.

(** A loader whose passes are empty: a training set smaller than one batch
    under [drop_last=True]. *)
Definition empty_data : Data :=
  {| train_loader := constant_loader [];
     validation_loader := constant_loader [30#1; 31#1]%Q;
     test_loader := [29#1; 30#1]%Q;
     model_init := O;
     optimizer_init := O;
     metric_init := [] |}.

(** Loaders and an exhausted iterator to try the feeder on. *)
Definition two_batches : Loader Q := constant_loader [30#1; 31#1]%Q.

Definition three_batches : Loader Q := constant_loader [1#1; 2#1; 3#1]%Q.

Definition exhausted : Feeder Q := Build_Feeder [] 1.

(** The snapshot that the evaluation and the test of step 2 flush, up to
    its loss. *)
Definition flushed (l : Q) : Snapshot :=
  {| loss := l; psnr := 30#1; ssim := 0 |}.

(** The state a result holds, or the initial state when it raised. *)
Definition state_of (r : result State) : State :=
  match r with
  | Ok s => s
  | Raise _ => initial_state config data
  end.

(** The states between the iterations of the run. *)
Definition after (n : nat) : State := state_of (run_upto config data n).

(** One evaluation with the shipped [val_steps = 100] over the two
    validation batches. *)
Definition evaluated : State :=
  state_of (evaluate data (initial_state source_config data)).

End Demo.

(** ** Vocabulary of whole runs *)

Definition cause_eqb (c c' : Cause) : bool :=
  match c, c' with
  | Periodic, Periodic | BestEval, BestEval | BestTest, BestTest => true
  | _, _ => false
  end.

(** The action that saves under a label. *)
Definition cause_action (c : Cause) : Action :=
  match c with
  | Periodic => Checkpoint
  | BestEval => Evaluate
  | BestTest => TestModel
  end.

Section RunVocabulary.

Context {C : Collaborators}.

(** The number of [optimizer.step()] calls in a stretch of the log. *)
Fixpoint optimizer_steps (evs : list Event) : nat :=
  match evs with
  | [] => 0
  | EvOptimizerStep :: evs' => S (optimizer_steps evs')
  | _ :: evs' => optimizer_steps evs'
  end.

(** The report windows of a stretch of the log: the number of optimizer
    steps that each training flush closes, and the number of steps left
    pending after the last flush; [pending] steps are pending at the start. *)
Fixpoint windows (pending : nat) (evs : list Event) : list nat * nat :=
  match evs with
  | [] => ([], pending)
  | EvOptimizerStep :: evs' => windows (S pending) evs'
  | EvFlush Train _ :: evs' =>
      let (ws, p) := windows 0 evs' in (pending :: ws, p)
  | _ :: evs' => windows pending evs'
  end.

(** The checkpoints saved under a label, each with the number of optimizer
    steps taken before it; [done] steps were taken before the stretch. *)
Fixpoint save_points (c : Cause) (done : nat) (evs : list Event)
  : list (nat * Bundle) :=
  match evs with
  | [] => []
  | EvOptimizerStep :: evs' => save_points c (S done) evs'
  | EvSave c' b :: evs' =>
      if cause_eqb c c' then (done, b) :: save_points c done evs'
      else save_points c done evs'
  | _ :: evs' => save_points c done evs'
  end.

(** [checkpoint['step']] *)
Definition step_of (b : Bundle) : option Z :=
  match lookup "step" b with
  | Some (VInt k) => Some k
  | _ => None
  end.

(** [checkpoint[key][-1]['psnr']] *)
Definition last_psnr (key : string) (b : Bundle) : option Q :=
  match lookup key b with
  | Some (VMetrics h) =>
      match rev h with
      | snap :: _ => Some (psnr snap)
      | [] => None
      end
  | _ => None
  end.

(** Whether the periodic checkpoint and the report are due at a step
    (lines 93 and 136). *)
Definition checkpoint_due (cfg : Config) (step : Z) : bool :=
  (step mod save_interval cfg =? 0) && negb (step =? 0).

Definition report_due (cfg : Config) (step : Z) : bool :=
  ((step + 1) mod report_interval cfg =? 0) && negb (step =? 0).

(** Whether the evaluation and the test are due at a step (lines 151 and
    211). *)
Definition evaluation_due (cfg : Config) (step : Z) : bool :=
  py_in (step + 1) (evaluation_interval cfg) && negb (step =? 0).

Definition test_due (cfg : Config) (step : Z) : bool :=
  py_in (step + 1) (test_intervals cfg) && negb (step =? 0).

(** The steps the first [n] iterations of a run go through. *)
Definition steps_done (cfg : Config) (n : nat) : list Z :=
  firstn n (range (steps cfg)).

End RunVocabulary.

(** ** More small inputs *)

Module Cases.

(** [val_steps = 0]: the evaluation falls back on the loader's length. *)
Definition fallback_config : Config :=
  {| steps := 5;
     save_interval := 2;
     report_interval := 2;
     test_intervals := [3; 5];
     evaluation_interval := [3];
     val_steps_init := 0;
     lr_decay_intervals := 10 |}.

(** [save_interval = 0] *)
Definition zero_save_config : Config :=
  {| steps := 5;
     save_interval := 0;
     report_interval := 2;
     test_intervals := [3; 5];
     evaluation_interval := [3];
     val_steps_init := 3;
     lr_decay_intervals := 10 |}.

(** [report_interval = 1] *)
Definition every_step_config : Config :=
  {| steps := 5;
     save_interval := 2;
     report_interval := 1;
     test_intervals := [3; 5];
     evaluation_interval := [3];
     val_steps_init := 3;
     lr_decay_intervals := 10 |}.

(** An empty test set. *)
Definition no_test_data : @Data Demo.collaborators :=
  @Build_Data Demo.collaborators
              Demo.three_batches Demo.two_batches [] O O [].

(** The end of the run that reports at every step. *)
Definition after_every_step : @State Demo.collaborators :=
  Demo.state_of (run_upto every_step_config Demo.data 5).

(** [val_steps = -1] *)
Definition negative_val_steps_config : Config :=
  {| steps := 5;
     save_interval := 2;
     report_interval := 2;
     test_intervals := [3; 5];
     evaluation_interval := [3];
     val_steps_init := -1;
     lr_decay_intervals := 10 |}.

(** Validation and test sets on which the metric reports a PSNR of -5. *)
Definition negative_data : @Data Demo.collaborators :=
  @Build_Data Demo.collaborators
              Demo.three_batches
              (Demo.constant_loader [(-5)#1]%Q) [(-5)#1]%Q O O [].

(** The end of the small run over them. *)
Definition after_negative : @State Demo.collaborators :=
  Demo.state_of (main Demo.config negative_data).

End Cases.

(** * Properties *)

(** ** Results *)

Lemma bind_Ok (A B : Type) (m : result A) (k : A -> result B) (b : B) :
  bind m k = Ok b -> exists a, m = Ok a /\ k a = Ok b.
Proof.
  destruct m as [a | e]; simpl; intros H.
  - exists a; split; [reflexivity | exact H].
  - discriminate H.
Qed.

Ltac inv_bind H :=
  let a := fresh "x" in
  let E := fresh "E" in
  apply bind_Ok in H; destruct H as (a & E & H).

Lemma py_mod_Ok (a b r : Z) :
  py_mod a b = Ok r -> b <> 0 /\ r = a mod b.
Proof.
  unfold py_mod. destruct (Z.eqb_spec b 0); intros H; inversion H; auto.
Qed.

Lemma py_mod_nonzero (a b : Z) : b <> 0 -> py_mod a b = Ok (a mod b).
Proof.
  intros H. unfold py_mod. destruct (Z.eqb_spec b 0); [contradiction | reflexivity].
Qed.

Lemma py_last_snoc (A : Type) (l : list A) (x : A) : py_last (l ++ [x]) = Ok x.
Proof.
  unfold py_last. rewrite rev_app_distr. reflexivity.
Qed.

Lemma py_in_spec (x : Z) (l : list Z) : py_in x l = true <-> In x l.
Proof.
  unfold py_in. rewrite existsb_exists. split.
  - intros (y & Hy & E). apply Z.eqb_eq in E. subst. exact Hy.
  - intros H. exists x. split; [exact H | apply Z.eqb_refl].
Qed.

(** ** The restarting feeder *)

Section FeederFacts.

Variable Batch : Type.
Variable ld : Loader Batch.

Lemma passes_from_S (k n : nat) :
  passes_from ld k (S n) = loader_pass ld k ++ passes_from ld (S k) n.
Proof. reflexivity. Qed.

Lemma feeder_next_live (b : Batch) (rest : list Batch) (k : nat) :
  feeder_next ld (Build_Feeder (b :: rest) k)
  = Ok (b, Build_Feeder rest k, false).
Proof. reflexivity. Qed.

Lemma feeder_next_exhausted (k : nat) :
  (0 < loader_len ld)%nat ->
  exists b rest,
    loader_pass ld k = b :: rest /\
    length rest = (loader_len ld - 1)%nat /\
    feeder_next ld (Build_Feeder [] k) = Ok (b, Build_Feeder rest (S k), true).
Proof.
  intros HL. pose proof (loader_pass_length ld k) as Hlen.
  unfold feeder_next, py_next, py_iter; simpl.
  destruct (loader_pass ld k) as [| b rest]; simpl in *; [lia |].
  exists b, rest. repeat split. lia.
Qed.

Lemma feeder_next_empty_loader (k : nat) :
  loader_len ld = 0%nat ->
  feeder_next ld (Build_Feeder [] k) = Raise StopIteration.
Proof.
  intros HL. pose proof (loader_pass_length ld k) as Hlen.
  unfold feeder_next, py_next, py_iter; simpl.
  destruct (loader_pass ld k); simpl in *; [reflexivity | lia].
Qed.

Lemma restart_count_step (n L : nat) :
  (0 < L)%nat ->
  ((S n - 0 + L - 1) / L = 1 + (n - (L - 1) + L - 1) / L)%nat.
Proof.
  intros HL.
  replace (S n - 0 + L - 1)%nat with (n + 1 * L)%nat by lia.
  rewrite Nat.div_add by lia.
  destruct (Nat.le_gt_cases (L - 1) n) as [Hge | Hlt].
  - replace (n - (L - 1) + L - 1)%nat with n by lia. lia.
  - replace (n - (L - 1) + L - 1)%nat with (L - 1)%nat by lia.
    rewrite (Nat.div_small n L) by lia.
    rewrite (Nat.div_small (L - 1) L) by lia. reflexivity.
Qed.

(** [n] requests deliver what is left of the current pass and then whole
    passes in order, and restart once for every pass they open. *)
Lemma feeder_draw_spec (n : nat) :
  (0 < loader_len ld)%nat ->
  forall (f : Feeder Batch) (m : nat),
    (n <= m)%nat ->
    exists f',
      feeder_draw ld n f
      = Ok (firstn n (feeder_iter f ++ passes_from ld (feeder_epoch f) m),
            f',
            ((n - length (feeder_iter f) + loader_len ld - 1)
             / loader_len ld)%nat).
Proof.
  intros HL. induction n as [| n IH]; intros [it k] m Hm; simpl.
  - exists (Build_Feeder it k). rewrite Nat.div_small by lia. reflexivity.
  - destruct it as [| b rest].
    + destruct (feeder_next_exhausted k HL) as (b & rest & Hp & Hr & Hn).
      rewrite Hn; simpl.
      destruct m as [| m]; [lia |].
      destruct (IH (Build_Feeder rest (S k)) m ltac:(lia)) as (f' & Hd).
      rewrite Hd; simpl. exists f'.
      rewrite passes_from_S, Hp; simpl. rewrite Hr.
      pose proof (restart_count_step n HL) as Hc.
      simpl in Hc. rewrite Hc. reflexivity.
    + rewrite feeder_next_live; simpl.
      destruct (IH (Build_Feeder rest k) m ltac:(lia)) as (f' & Hd).
      rewrite Hd; simpl. exists f'. reflexivity.
Qed.

End FeederFacts.


(** ** The operations of one iteration *)

Section ControllerFacts.

Context {C : Collaborators}.
Variable cfg : Config.
Variable data : Data.

Lemma keeps_refl (s : State) : keeps s s.
Proof. repeat split. Qed.

Lemma keeps_trans (s1 s2 s3 : State) : keeps s1 s2 -> keeps s2 s3 -> keeps s1 s3.
Proof.
  unfold keeps. intros (a1 & a2 & a3 & a4 & a5 & a6) (b1 & b2 & b3 & b4 & b5 & b6).
  repeat split; congruence.
Qed.

Lemma periodic_checkpoint_inv (step : Z) (s s' : State) :
  periodic_checkpoint cfg step s = Ok s' ->
  save_interval cfg <> 0 /\
  s' = if (step mod save_interval cfg =? 0) && negb (step =? 0)
       then save_checkpoint (full_bundle step s) Periodic s
       else s.
Proof.
  unfold periodic_checkpoint. intros H. inv_bind H.
  apply py_mod_Ok in E. destruct E as [Hnz ->]. split; [exact Hnz |].
  destruct ((step mod save_interval cfg =? 0) && negb (step =? 0));
    inversion H; reflexivity.
Qed.

Lemma next_train_batch_inv (s s' : State) (b : Batch) :
  next_train_batch data s = Ok (b, s') ->
  exists f r,
    feeder_next (train_loader data) (train_iter s) = Ok (b, f, r) /\
    s' = emit (EvDraw Train b)
           (set_train_iter f (if r then emit (EvRestart Train) s else s)).
Proof.
  unfold next_train_batch. intros H. inv_bind H.
  destruct x as [[b0 f] r]. inversion H; subst. exists f, r. split; auto.
Qed.

Lemma gradient_step_effect (b : Batch) (s : State) :
  keeps s (gradient_step b s) /\
  tr_metrics (gradient_step b s) = tr_metrics s /\
  log (gradient_step b s) = log s ++ [EvOptimizerStep] /\
  exists l, tr_report_loss (gradient_step b s) = Tensor l.
Proof.
  unfold gradient_step, keeps; cbn.
  destruct (backward_step (model s) (optimizer s) b) as [m o]; cbn.
  repeat split. eexists; reflexivity.
Qed.

Lemma lr_decay_inv (step : Z) (s s' : State) :
  lr_decay cfg step s = Ok s' ->
  lr_decay_intervals cfg <> 0 /\
  s' = if (step mod lr_decay_intervals cfg =? 0) && negb (step =? 0)
       then emit EvDecay (set_optimizer (scheduler_step (optimizer s)) s)
       else s.
Proof.
  unfold lr_decay. intros H. inv_bind H.
  apply py_mod_Ok in E. destruct E as [Hnz ->]. split; [exact Hnz |].
  destruct ((step mod lr_decay_intervals cfg =? 0) && negb (step =? 0));
    inversion H; reflexivity.
Qed.

(** *** The validation sub-loop *)

Lemma validation_step_inv (s s' : State) :
  validation_step data s = Ok s' ->
  exists b f r,
    feeder_next (validation_loader data) (val_iter s) = Ok (b, f, r) /\
    keeps s s' /\
    tr_metrics s' = tr_metrics s /\
    model s' = model s /\
    val_iter s' = f /\
    val_report_loss s'
    = Tensor (scalar_value (val_report_loss s) + eval_loss (model s) b) /\
    log s'
    = log s ++ (if r then [EvRestart Validation] else [])
            ++ [EvDraw Validation b].
Proof.
  unfold validation_step. intros H. inv_bind H.
  destruct x as [[b f] r]. inversion H; subst; clear H.
  exists b, f, r. split; [exact E |].
  destruct r; cbn; rewrite <- ?app_assoc; repeat split.
Qed.

Lemma drawn_app (p : Phase) (l1 l2 : list Event) :
  drawn p (l1 ++ l2) = drawn p l1 ++ drawn p l2.
Proof.
  induction l1 as [| e l1 IH]; [reflexivity |].
  destruct e as [c b | q | q b | | | q sn]; simpl; try exact IH;
    destruct q, p; simpl; rewrite ?IH; reflexivity.
Qed.

Lemma restarts_app (p : Phase) (l1 l2 : list Event) :
  restarts p (l1 ++ l2) = (restarts p l1 + restarts p l2)%nat.
Proof.
  induction l1 as [| e l1 IH]; [reflexivity |].
  destruct e as [c b | q | q b | | | q sn]; simpl; try exact IH;
    destruct q, p; simpl; rewrite ?IH; reflexivity.
Qed.

Lemma saved_app (c : Cause) (l1 l2 : list Event) :
  saved c (l1 ++ l2) = saved c l1 ++ saved c l2.
Proof.
  induction l1 as [| e l1 IH]; [reflexivity |].
  destruct e as [c' b | q | q b | | | q sn]; simpl; try exact IH;
    destruct c', c; simpl; rewrite ?IH; reflexivity.
Qed.

Lemma block_app (a : Action) (l1 l2 : list Event) :
  block a l1 -> block a l2 -> block a (l1 ++ l2).
Proof. unfold block. intros H1 H2. apply Forall_app; split; assumption. Qed.

Lemma validation_loop_tensor (n : nat) :
  forall s s' : State,
    validation_loop data n s = Ok s' ->
    (exists q, val_report_loss s = Tensor q) ->
    exists q, val_report_loss s' = Tensor q.
Proof.
  induction n as [| n IH]; intros s s' H Hq; simpl in H.
  - inversion H; subst. exact Hq.
  - inv_bind H. apply (IH _ _ H).
    apply validation_step_inv in E.
    destruct E as (b & f & r & _ & _ & _ & _ & _ & Hacc & _).
    eexists; exact Hacc.
Qed.

(** The rounds of the validation sub-loop draw from the feeder, add the
    losses of what they draw to [val_report_loss], and touch nothing else
    that outlives the evaluation. *)
Lemma validation_loop_effect (n : nat) :
  forall s s' : State,
    validation_loop data n s = Ok s' ->
    keeps s s' /\
    tr_metrics s' = tr_metrics s /\
    model s' = model s /\
    exists evs,
      log s' = log s ++ evs /\
      block Evaluate evs /\
      saved BestEval evs = [] /\
      feeder_draw (validation_loader data) n (val_iter s)
      = Ok (drawn Validation evs, val_iter s', restarts Validation evs) /\
      scalar_value (val_report_loss s')
      = fold_left Qplus (map (eval_loss (model s)) (drawn Validation evs))
                  (scalar_value (val_report_loss s)) /\
      ((0 < n)%nat -> exists q, val_report_loss s' = Tensor q).
Proof.
  induction n as [| n IH]; intros s s' H; simpl in H.
  - inversion H; subst; clear H. split; [apply keeps_refl |].
    do 2 (split; [reflexivity |]). exists []. rewrite app_nil_r.
    repeat split; try constructor. intros Hn; inversion Hn.
  - inv_bind H. rename x into s1.
    pose proof (validation_loop_tensor _ _ H) as Hten.
    apply validation_step_inv in E.
    destruct E as (b & f & r & Hf & Hk & Htr & Hm & Hit & Hacc & Hlog).
    apply IH in H.
    destruct H as (Hk' & Htr' & Hm' & evs & Hlog' & Hb & Hsv & Hd & Hsum & _).
    split; [eapply keeps_trans; eassumption |].
    split; [congruence |]. split; [congruence |].
    exists ((if r then [EvRestart Validation] else [])
              ++ [EvDraw Validation b] ++ evs).
    split; [rewrite Hlog', Hlog, <- !app_assoc; reflexivity |].
    split.
    { apply block_app; [destruct r; repeat constructor |].
      apply block_app; [repeat constructor | exact Hb]. }
    split; [destruct r; simpl; exact Hsv |].
    split.
    { cbn [feeder_draw]. rewrite Hf; simpl. rewrite <- Hit, Hd; simpl.
      rewrite drawn_app, restarts_app. destruct r; reflexivity. }
    split.
    { rewrite Hsum, Hacc, Hm. rewrite drawn_app.
      destruct r; reflexivity. }
    intros _. apply Hten. eexists; exact Hacc.
Qed.

Lemma averaged_item (a avg : Scalar) (n : Z) (l : Q) :
  true_div a n = Ok avg ->
  item avg = Ok l ->
  l = (scalar_value a / inject_Z n)%Q /\ exists q, a = Tensor q.
Proof.
  destruct a as [z | q | q]; simpl; intros H1 H2.
  - destruct (n =? 0); inversion H1; subst; discriminate H2.
  - destruct (n =? 0); inversion H1; subst; discriminate H2.
  - inversion H1; subst. simpl in H2. inversion H2; subst.
    split; [reflexivity | eexists; reflexivity].
Qed.

Lemma evaluate_effect (s s' : State) :
  evaluate data s = Ok s' ->
  tr_metrics s' = tr_metrics s /\
  test_metrics s' = test_metrics s /\
  best_eval_psnr s' = best_eval_psnr s /\
  best_test_psnr s' = best_test_psnr s /\
  val_steps s' = rounds data s /\
  model s' = model s /\
  test_report_loss s' = test_report_loss s /\
  val_report_loss s' = PyInt 0 /\
  exists snap evs f',
    val_metrics s' = val_metrics s ++ [snap] /\
    log s' = log s ++ evs ++ [EvFlush Validation snap] /\
    block Evaluate evs /\
    saved BestEval evs = [] /\
    feeder_draw (validation_loader data) (Z.to_nat (rounds data s))
                (py_iter (validation_loader data) (val_iter s))
    = Ok (drawn Validation evs, f', restarts Validation evs) /\
    loss snap
    = (fold_left Qplus (map (eval_loss (model s)) (drawn Validation evs))
                 (scalar_value (val_report_loss s))
       / inject_Z (Z.of_nat (loader_len (validation_loader data))))%Q.
Proof.
  unfold evaluate. intros H. inv_bind H. rename x into s1.
  apply validation_loop_effect in E. cbn in E.
  destruct E as ((k1 & k2 & k3 & k4 & k5 & k6) & Htr & Hm & evs & Hlog & Hb
                 & Hsv & Hd & Hsum & _).
  inv_bind H. rename x into avg. cbn in H. inv_bind H. rename x into l.
  destruct (averaged_item _ _ E E0) as [Hl _].
  inversion H; subst s'; clear H. cbn.
  repeat (split; [assumption || reflexivity |]).
  eexists; exists evs, (val_iter s1).
  split; [rewrite k1; reflexivity |].
  split; [rewrite Hlog, <- app_assoc; reflexivity |].
  split; [exact Hb |]. split; [exact Hsv |]. split; [exact Hd |].
  cbn. rewrite Hl, Hsum. reflexivity.
Qed.

Lemma best_eval_inv (step : Z) (s s' : State) :
  best_eval step s = Ok s' ->
  exists last_metrics,
    py_last (val_metrics s) = Ok last_metrics /\
    s' = if Qgtb (psnr last_metrics) (best_eval_psnr s)
         then save_checkpoint
                (full_bundle step (set_best_eval_psnr (psnr last_metrics) s))
                BestEval (set_best_eval_psnr (psnr last_metrics) s)
         else s.
Proof.
  unfold best_eval. intros H. inv_bind H. exists x. split; [exact E |].
  destruct (Qgtb (psnr x) (best_eval_psnr s)); inversion H; reflexivity.
Qed.

Lemma evaluation_inv (step : Z) (s s' : State) :
  evaluation cfg data step s = Ok s' ->
  if py_in (step + 1) (evaluation_interval cfg) && negb (step =? 0)
  then exists s1, evaluate data s = Ok s1 /\ best_eval step s1 = Ok s'
  else s' = s.
Proof.
  unfold evaluation. intros H.
  destruct (py_in (step + 1) (evaluation_interval cfg) && negb (step =? 0)).
  - inv_bind H. exists x. split; assumption.
  - inversion H; reflexivity.
Qed.

(** *** The test sub-loop *)

Lemma test_loop_effect (l : list Batch) :
  forall s : State,
    tr_metrics (fold_left test_step l s) = tr_metrics s /\
    val_metrics (fold_left test_step l s) = val_metrics s /\
    test_metrics (fold_left test_step l s) = test_metrics s /\
    best_eval_psnr (fold_left test_step l s) = best_eval_psnr s /\
    best_test_psnr (fold_left test_step l s) = best_test_psnr s /\
    val_steps (fold_left test_step l s) = val_steps s /\
    model (fold_left test_step l s) = model s /\
    log (fold_left test_step l s) = log s ++ map (EvDraw Test) l /\
    scalar_value (test_report_loss (fold_left test_step l s))
    = fold_left Qplus (map (eval_loss (model s)) l)
                (scalar_value (test_report_loss s)) /\
    (l <> [] ->
     exists q, test_report_loss (fold_left test_step l s) = Tensor q).
Proof.
  induction l as [| b l IH]; intros s; simpl.
  - rewrite app_nil_r. repeat split. intros H; contradiction.
  - destruct (IH (test_step s b))
      as (k0 & k1 & k2 & k3 & k4 & k5 & Hm & Hlog & Hsum & Hten).
    rewrite k0, k1, k2, k3, k4, k5, Hm, Hlog, Hsum.
    repeat (split; [reflexivity |]).
    split; [cbn; rewrite <- app_assoc; reflexivity |].
    split; [reflexivity |].
    intros _. destruct l as [| b' l'].
    + simpl. eexists; reflexivity.
    + apply Hten. discriminate.
Qed.

Lemma run_test_effect (s s' : State) :
  run_test data s = Ok s' ->
  tr_metrics s' = tr_metrics s /\
  val_metrics s' = val_metrics s /\
  best_eval_psnr s' = best_eval_psnr s /\
  best_test_psnr s' = best_test_psnr s /\
  val_steps s' = val_steps s /\
  model s' = model s /\
  test_report_loss s' = PyInt 0 /\
  exists snap,
    test_metrics s' = test_metrics s ++ [snap] /\
    log s' = log s ++ map (EvDraw Test) (test_loader data)
                   ++ [EvFlush Test snap] /\
    loss snap
    = (fold_left Qplus (map (eval_loss (model s)) (test_loader data))
                 (scalar_value (test_report_loss s))
       / inject_Z (Z.of_nat (length (test_loader data))))%Q.
Proof.
  unfold run_test. intros H.
  destruct (test_loop_effect (test_loader data) s)
    as (k0 & k1 & k2 & k3 & k4 & k5 & Hm & Hlog & Hsum & _).
  inv_bind H. rename x into avg. cbn in H. inv_bind H. rename x into l.
  destruct (averaged_item _ _ E E0) as [Hl _].
  inversion H; subst s'; clear H. cbn.
  repeat (split; [assumption || reflexivity |]).
  eexists. split; [rewrite k2; reflexivity |].
  split; [rewrite Hlog, <- app_assoc; reflexivity |].
  cbn. rewrite Hl, Hsum. reflexivity.
Qed.

Lemma best_test_inv (step : Z) (s s' : State) :
  best_test step s = Ok s' ->
  exists last_metrics,
    py_last (test_metrics s) = Ok last_metrics /\
    s' = if Qgtb (psnr last_metrics) (best_test_psnr s)
         then save_checkpoint
                (bundle_without_val_metrics
                   step (set_best_test_psnr (psnr last_metrics) s))
                BestTest (set_best_test_psnr (psnr last_metrics) s)
         else s.
Proof.
  unfold best_test. intros H. inv_bind H. exists x. split; [exact E |].
  destruct (Qgtb (psnr x) (best_test_psnr s)); inversion H; reflexivity.
Qed.

Lemma test_inv (step : Z) (s s' : State) :
  test cfg data step s = Ok s' ->
  if py_in (step + 1) (test_intervals cfg) && negb (step =? 0)
  then exists s1, run_test data s = Ok s1 /\ best_test step s1 = Ok s'
  else s' = s.
Proof.
  unfold test. intros H.
  destruct (py_in (step + 1) (test_intervals cfg) && negb (step =? 0)).
  - inv_bind H. exists x. split; assumption.
  - inversion H; reflexivity.
Qed.

(** *** One iteration, operation by operation *)

Lemma iteration_inv (step : Z) (s s' : State) :
  iteration cfg data step s = Ok s' ->
  exists s1 b s2 s4 s5 s6,
    periodic_checkpoint cfg step s = Ok s1 /\
    next_train_batch data s1 = Ok (b, s2) /\
    lr_decay cfg step (gradient_step b s2) = Ok s4 /\
    report cfg step s4 = Ok s5 /\
    evaluation cfg data step s5 = Ok s6 /\
    test cfg data step s6 = Ok s'.
Proof.
  unfold iteration. intros H.
  inv_bind H. rename x into s1, E into E1.
  inv_bind H. destruct x as [b s2]. rename E into E2.
  inv_bind H. rename x into s4, E into E4.
  inv_bind H. rename x into s5, E into E5.
  inv_bind H. rename x into s6, E into E6.
  exists s1, b, s2, s4, s5, s6. repeat split; assumption.
Qed.

(** *** The events of each operation *)

Lemma modulus_due (x n step : Z) :
  (x mod n =? 0) && negb (step =? 0) = true <-> x mod n = 0 /\ step <> 0.
Proof.
  rewrite andb_true_iff, negb_true_iff, Z.eqb_eq, Z.eqb_neq. reflexivity.
Qed.

Lemma membership_due (x step : Z) (l : list Z) :
  py_in x l && negb (step =? 0) = true <-> In x l /\ step <> 0.
Proof.
  rewrite andb_true_iff, negb_true_iff, py_in_spec, Z.eqb_neq. reflexivity.
Qed.

Lemma fired_iff (A : Type) (x : A) (l : list A) (b : bool) (P : Prop) :
  (b = true <-> P) -> b = true -> (x :: l <> [] <-> P).
Proof. intros [H1 _] Hb. split; [auto | discriminate]. Qed.

Lemma idle_iff (A : Type) (b : bool) (P : Prop) :
  (b = true <-> P) -> b = false -> (@nil A <> [] <-> P).
Proof.
  intros [_ H2] Hb. split; [contradiction |].
  intros HP. apply H2 in HP. congruence.
Qed.

Lemma periodic_checkpoint_events (step : Z) (s s' : State) :
  periodic_checkpoint cfg step s = Ok s' ->
  keeps s s' /\
  tr_metrics s' = tr_metrics s /\
  exists evs,
    log s' = log s ++ evs /\
    block Checkpoint evs /\
    (evs <> [] <-> step mod save_interval cfg = 0 /\ step <> 0) /\
    (forall b, In (EvSave Periodic b) evs -> b = full_bundle step s).
Proof.
  intros H. apply periodic_checkpoint_inv in H. destruct H as [_ ->].
  destruct ((step mod save_interval cfg =? 0) && negb (step =? 0)) eqn:Hc.
  - split; [repeat split |]. split; [reflexivity |].
    exists [EvSave Periodic (full_bundle step s)].
    split; [reflexivity |]. split; [repeat constructor |].
    split; [exact (fired_iff _ _ (modulus_due _ _ _) Hc) |].
    intros b [Hb | []]. inversion Hb; reflexivity.
  - split; [apply keeps_refl |]. split; [reflexivity |].
    exists []. rewrite app_nil_r. split; [reflexivity |].
    split; [constructor |].
    split; [exact (idle_iff _ (modulus_due _ _ _) Hc) |].
    intros b [].
Qed.

Lemma next_train_batch_events (s s' : State) (b : Batch) :
  next_train_batch data s = Ok (b, s') ->
  keeps s s' /\
  tr_metrics s' = tr_metrics s /\
  model s' = model s /\
  exists evs,
    log s' = log s ++ evs ++ [EvDraw Train b] /\ block GradientStep evs.
Proof.
  intros H. apply next_train_batch_inv in H.
  destruct H as (f & r & _ & ->).
  destruct r; cbn.
  - repeat split. exists [EvRestart Train].
    rewrite <- app_assoc. split; [reflexivity | repeat constructor].
  - repeat split. exists []. split; [reflexivity | constructor].
Qed.

Lemma lr_decay_events (step : Z) (s s' : State) :
  lr_decay cfg step s = Ok s' ->
  keeps s s' /\
  tr_metrics s' = tr_metrics s /\
  model s' = model s /\
  tr_report_loss s' = tr_report_loss s /\
  exists evs,
    log s' = log s ++ evs /\
    block Decay evs /\
    (evs <> [] <-> step mod lr_decay_intervals cfg = 0 /\ step <> 0).
Proof.
  intros H. apply lr_decay_inv in H. destruct H as [_ ->].
  destruct ((step mod lr_decay_intervals cfg =? 0) && negb (step =? 0)) eqn:Hc.
  - repeat split. exists [EvDecay].
    split; [reflexivity |]. split; [repeat constructor |].
    exact (fired_iff _ _ (modulus_due _ _ _) Hc).
  - repeat split. exists []. rewrite app_nil_r. split; [reflexivity |].
    split; [constructor |]. exact (idle_iff _ (modulus_due _ _ _) Hc).
Qed.

Lemma report_events (step : Z) (s s' : State) :
  report cfg step s = Ok s' ->
  keeps s s' /\
  model s' = model s /\
  exists evs t,
    log s' = log s ++ evs /\
    block Report evs /\
    (evs <> [] <-> (step + 1) mod report_interval cfg = 0 /\ step <> 0) /\
    tr_metrics s' = tr_metrics s ++ t /\
    (length t <= 1)%nat.
Proof.
  unfold report. intros H. inv_bind H.
  apply py_mod_Ok in E. destruct E as [Hnz ->].
  destruct (((step + 1) mod report_interval cfg =? 0) && negb (step =? 0))
    eqn:Hc.
  - inv_bind H. cbn in H. inv_bind H. inversion H; subst; clear H. cbn.
    repeat split. eexists [_], [_].
    split; [reflexivity |]. split; [repeat constructor |].
    split; [exact (fired_iff _ _ (modulus_due _ _ _) Hc) |].
    split; [reflexivity | simpl; lia].
  - inversion H; subst. repeat split. exists [], [].
    rewrite !app_nil_r. split; [reflexivity |]. split; [constructor |].
    split; [exact (idle_iff _ (modulus_due _ _ _) Hc) |].
    split; [reflexivity | simpl; lia].
Qed.

Lemma best_eval_events (step : Z) (s s' : State) :
  best_eval step s = Ok s' ->
  tr_metrics s' = tr_metrics s /\
  val_metrics s' = val_metrics s /\
  test_metrics s' = test_metrics s /\
  best_test_psnr s' = best_test_psnr s /\
  val_steps s' = val_steps s /\
  model s' = model s /\
  test_report_loss s' = test_report_loss s /\
  exists evs, log s' = log s ++ evs /\ block Evaluate evs.
Proof.
  intros H. apply best_eval_inv in H. destruct H as (lm & _ & ->).
  destruct (Qgtb (psnr lm) (best_eval_psnr s)).
  - repeat split. eexists [_]. split; [reflexivity | repeat constructor].
  - repeat split. exists []. rewrite app_nil_r.
    split; [reflexivity | constructor].
Qed.

Lemma best_test_events (step : Z) (s s' : State) :
  best_test step s = Ok s' ->
  tr_metrics s' = tr_metrics s /\
  val_metrics s' = val_metrics s /\
  test_metrics s' = test_metrics s /\
  best_eval_psnr s' = best_eval_psnr s /\
  val_steps s' = val_steps s /\
  model s' = model s /\
  test_report_loss s' = test_report_loss s /\
  exists evs,
    log s' = log s ++ evs /\ block TestModel evs /\
    drawn Test evs = [] /\ restarts Test evs = 0%nat.
Proof.
  intros H. apply best_test_inv in H. destruct H as (lm & _ & ->).
  destruct (Qgtb (psnr lm) (best_test_psnr s)).
  - repeat split. eexists [_].
    split; [reflexivity |]. split; [repeat constructor |]. split; reflexivity.
  - repeat split. exists []. rewrite app_nil_r.
    split; [reflexivity |]. split; [constructor |]. split; reflexivity.
Qed.

Lemma evaluation_events (step : Z) (s s' : State) :
  evaluation cfg data step s = Ok s' ->
  tr_metrics s' = tr_metrics s /\
  test_metrics s' = test_metrics s /\
  best_test_psnr s' = best_test_psnr s /\
  model s' = model s /\
  test_report_loss s' = test_report_loss s /\
  (0 <= val_steps s -> 0 <= val_steps s') /\
  exists evs t,
    log s' = log s ++ evs /\
    block Evaluate evs /\
    (evs <> [] <-> In (step + 1) (evaluation_interval cfg) /\ step <> 0) /\
    val_metrics s' = val_metrics s ++ t /\
    (length t <= 1)%nat.
Proof.
  intros H. apply evaluation_inv in H.
  destruct (py_in (step + 1) (evaluation_interval cfg) && negb (step =? 0))
    eqn:Hc.
  - destruct H as (s1 & H1 & H2).
    apply evaluate_effect in H1. apply best_eval_events in H2.
    destruct H1 as (a1 & a2 & a3 & a4 & a5 & a6 & a7 & a8 & snap & evs & f'
                    & Hv & Hlog & Hb & _).
    destruct H2 as (b1 & b2 & b3 & b4 & b5 & b6 & b7 & evs' & Hlog' & Hb').
    repeat (split; [congruence |]).
    split.
    { intros Hvs. rewrite b5, a5. unfold rounds.
      destruct (val_steps s =? 0); lia. }
    exists (evs ++ [EvFlush Validation snap] ++ evs'), [snap].
    split; [rewrite Hlog', Hlog, <- !app_assoc; reflexivity |].
    split.
    { apply block_app; [exact Hb |].
      apply block_app; [repeat constructor | exact Hb']. }
    split.
    { split; [intros _; apply membership_due; exact Hc |]. intros _ Hnil.
      apply app_eq_nil in Hnil. destruct Hnil as [_ Hnil]. discriminate Hnil. }
    split; [congruence | simpl; lia].
  - subst s'. repeat (split; [reflexivity |]). split; [auto |].
    exists [], []. rewrite !app_nil_r. split; [reflexivity |].
    split; [constructor |].
    split; [exact (idle_iff _ (membership_due _ _ _) Hc) |].
    split; [reflexivity | simpl; lia].
Qed.

Lemma test_events (step : Z) (s s' : State) :
  test cfg data step s = Ok s' ->
  tr_metrics s' = tr_metrics s /\
  val_metrics s' = val_metrics s /\
  best_eval_psnr s' = best_eval_psnr s /\
  val_steps s' = val_steps s /\
  model s' = model s /\
  exists evs t,
    log s' = log s ++ evs /\
    block TestModel evs /\
    (evs <> [] <-> In (step + 1) (test_intervals cfg) /\ step <> 0) /\
    test_metrics s' = test_metrics s ++ t /\
    (length t <= 1)%nat.
Proof.
  intros H. apply test_inv in H.
  destruct (py_in (step + 1) (test_intervals cfg) && negb (step =? 0)) eqn:Hc.
  - destruct H as (s1 & H1 & H2).
    apply run_test_effect in H1. apply best_test_events in H2.
    destruct H1 as (a1 & a2 & a3 & a4 & a5 & a6 & a7 & snap & Hv & Hlog & _).
    destruct H2 as (b1 & b2 & b3 & b4 & b5 & b6 & b7 & evs' & Hlog' & Hb' & _).
    repeat (split; [congruence |]).
    exists (map (EvDraw Test) (test_loader data)
              ++ [EvFlush Test snap] ++ evs'), [snap].
    split; [rewrite Hlog', Hlog, <- !app_assoc; reflexivity |].
    split.
    { apply block_app; [apply Forall_map, Forall_forall; reflexivity |].
      apply block_app; [repeat constructor | exact Hb']. }
    split.
    { split; [intros _; apply membership_due; exact Hc |]. intros _ Hnil.
      apply app_eq_nil in Hnil. destruct Hnil as [_ Hnil]. discriminate Hnil. }
    split; [congruence | simpl; lia].
  - subst s'. repeat (split; [reflexivity |]).
    exists [], []. rewrite !app_nil_r. split; [reflexivity |].
    split; [constructor |].
    split; [exact (idle_iff _ (membership_due _ _ _) Hc) |].
    split; [reflexivity | simpl; lia].
Qed.

(** *** The events and the histories of one iteration *)

Lemma iteration_before_test (step : Z) (s s' : State) :
  iteration cfg data step s = Ok s' ->
  exists s6 ck gs dc rp ev,
    test cfg data step s6 = Ok s' /\
    log s6 = log s ++ ck ++ gs ++ dc ++ rp ++ ev /\
    (block Checkpoint ck /\ block GradientStep gs /\ block Decay dc /\
     block Report rp /\ block Evaluate ev) /\
    (ck <> [] <-> step mod save_interval cfg = 0 /\ step <> 0) /\
    (dc <> [] <-> step mod lr_decay_intervals cfg = 0 /\ step <> 0) /\
    (rp <> [] <-> (step + 1) mod report_interval cfg = 0 /\ step <> 0) /\
    (ev <> [] <-> In (step + 1) (evaluation_interval cfg) /\ step <> 0) /\
    In EvOptimizerStep gs /\
    (forall b, In (EvSave Periodic b) ck -> b = full_bundle step s) /\
    test_metrics s6 = test_metrics s /\
    best_test_psnr s6 = best_test_psnr s /\
    test_report_loss s6 = test_report_loss s.
Proof.
  intros H. apply iteration_inv in H.
  destruct H as (s1 & b & s2 & s4 & s5 & s6 & H1 & H2 & H4 & H5 & H6 & H7).
  apply periodic_checkpoint_events in H1.
  destruct H1 as ((_ & a2 & _ & a4 & _ & a6) & _ & ck & L1 & B1 & D1 & P1).
  apply next_train_batch_events in H2.
  destruct H2 as ((_ & b2 & _ & b4 & _ & b6) & _ & _ & gs & L2 & B2).
  destruct (gradient_step_effect b s2)
    as ((_ & c2 & _ & c4 & _ & c6) & _ & L3 & _).
  apply lr_decay_events in H4.
  destruct H4 as ((_ & d2 & _ & d4 & _ & d6) & _ & _ & _ & dc & L4 & B4 & D4).
  apply report_events in H5.
  destruct H5 as ((_ & e2 & _ & e4 & _ & e6) & _ & rp & t5 & L5 & B5 & D5 & _).
  apply evaluation_events in H6.
  destruct H6 as (_ & f2 & f4 & _ & f6 & _ & ev & t6 & L6 & B6 & D6 & _).
  exists s6, ck, (gs ++ [EvDraw Train b; EvOptimizerStep]), dc, rp, ev.
  split; [exact H7 |].
  split.
  { rewrite L6, L5, L4, L3, L2, L1. rewrite <- !app_assoc. reflexivity. }
  split.
  { repeat split; try assumption.
    apply block_app; [exact B2 | repeat constructor]. }
  repeat (split; [assumption |]).
  split; [apply in_or_app; right; right; left; reflexivity |].
  split; [exact P1 |].
  repeat split; congruence.
Qed.

Lemma iteration_events (step : Z) (s s' : State) :
  iteration cfg data step s = Ok s' ->
  exists ck gs dc rp ev ts,
    log s' = log s ++ ck ++ gs ++ dc ++ rp ++ ev ++ ts /\
    (block Checkpoint ck /\ block GradientStep gs /\ block Decay dc /\
     block Report rp /\ block Evaluate ev /\ block TestModel ts) /\
    (ck <> [] <-> step mod save_interval cfg = 0 /\ step <> 0) /\
    (dc <> [] <-> step mod lr_decay_intervals cfg = 0 /\ step <> 0) /\
    (rp <> [] <-> (step + 1) mod report_interval cfg = 0 /\ step <> 0) /\
    (ev <> [] <-> In (step + 1) (evaluation_interval cfg) /\ step <> 0) /\
    (ts <> [] <-> In (step + 1) (test_intervals cfg) /\ step <> 0) /\
    In EvOptimizerStep gs /\
    (forall b, In (EvSave Periodic b) ck -> b = full_bundle step s).
Proof.
  intros H. apply iteration_before_test in H.
  destruct H as (s6 & ck & gs & dc & rp & ev & H7 & L6
                 & (B1 & B2 & B3 & B4 & B5) & D1 & D3 & D4 & D5 & Hg & P1 & _).
  apply test_events in H7.
  destruct H7 as (_ & _ & _ & _ & _ & ts & t7 & L7 & B7 & D7 & _).
  exists ck, gs, dc, rp, ev, ts.
  split; [rewrite L7, L6, <- !app_assoc; reflexivity |].
  split; [repeat split; assumption |].
  repeat (split; [assumption |]). exact P1.
Qed.

Lemma iteration_histories (step : Z) (s s' : State) :
  iteration cfg data step s = Ok s' ->
  (exists t, tr_metrics s' = tr_metrics s ++ t /\ (length t <= 1)%nat) /\
  (exists t, val_metrics s' = val_metrics s ++ t /\ (length t <= 1)%nat) /\
  (exists t, test_metrics s' = test_metrics s ++ t /\ (length t <= 1)%nat) /\
  (0 <= val_steps s -> 0 <= val_steps s').
Proof.
  intros H. apply iteration_inv in H.
  destruct H as (s1 & b & s2 & s4 & s5 & s6 & H1 & H2 & H4 & H5 & H6 & H7).
  apply periodic_checkpoint_events in H1.
  destruct H1 as ((a1 & a2 & _ & _ & a5 & _) & a0 & _).
  apply next_train_batch_events in H2.
  destruct H2 as ((b1 & b2 & _ & _ & b5 & _) & b0 & _).
  destruct (gradient_step_effect b s2) as ((c1 & c2 & _ & _ & c5 & _) & c0 & _).
  apply lr_decay_events in H4.
  destruct H4 as ((d1 & d2 & _ & _ & d5 & _) & d0 & _).
  apply report_events in H5.
  destruct H5 as ((e1 & e2 & _ & _ & e5 & _) & _ & rp & t5 & _ & _ & _ & T5 & N5).
  apply evaluation_events in H6.
  destruct H6 as (f0 & f2 & _ & _ & _ & f5 & ev & t6 & _ & _ & _ & T6 & N6).
  apply test_events in H7.
  destruct H7 as (g0 & g1 & _ & g5 & _ & ts & t7 & _ & _ & _ & T7 & N7).
  split; [exists t5; split; [congruence | exact N5] |].
  split; [exists t6; split; [congruence | exact N6] |].
  split; [exists t7; split; [congruence | exact N7] |].
  intros Hv. rewrite g5. apply f5. congruence.
Qed.

(** *** Running to the end *)

Lemma feeder_next_total (ld : Loader Batch) (f : Feeder Batch) :
  (0 < loader_len ld)%nat ->
  exists b f' r, feeder_next ld f = Ok (b, f', r).
Proof.
  intros HL. destruct f as [[| b rest] k].
  - destruct (feeder_next_exhausted ld k HL) as (b & rest & _ & _ & Hn).
    rewrite Hn. eauto.
  - rewrite feeder_next_live. eauto.
Qed.

Lemma validation_loop_total (n : nat) :
  (0 < loader_len (validation_loader data))%nat ->
  forall s, exists s', validation_loop data n s = Ok s'.
Proof.
  intros HL. induction n as [| n IH]; intros s; simpl.
  - eauto.
  - unfold validation_step at 1.
    destruct (feeder_next_total (validation_loader data) (val_iter s) HL)
      as (b & f & r & Hn).
    rewrite Hn; simpl. apply IH.
Qed.

Lemma evaluate_total (s : State) :
  (0 < loader_len (validation_loader data))%nat ->
  0 <= val_steps s ->
  exists s', evaluate data s = Ok s'.
Proof.
  intros HL Hv. unfold evaluate.
  set (s0 := set_val_iter _ _).
  destruct (validation_loop_total (Z.to_nat (val_steps s0)) HL s0) as (s1 & H1).
  rewrite H1; simpl.
  apply validation_loop_effect in H1.
  destruct H1 as (_ & _ & _ & evs & _ & _ & _ & _ & _ & Hten).
  destruct Hten as (q & Hq).
  { subst s0; cbn. destruct (Z.eqb_spec (val_steps s) 0); lia. }
  rewrite Hq; simpl. eauto.
Qed.

Lemma evaluation_total (step : Z) (s : State) :
  (0 < loader_len (validation_loader data))%nat ->
  0 <= val_steps s ->
  exists s', evaluation cfg data step s = Ok s'.
Proof.
  intros HL Hv. unfold evaluation.
  destruct (py_in (step + 1) (evaluation_interval cfg) && negb (step =? 0));
    [| eauto].
  destruct (evaluate_total s HL Hv) as (s1 & H1). rewrite H1; simpl.
  apply evaluate_effect in H1.
  destruct H1 as (_ & _ & _ & _ & _ & _ & _ & _ & snap & evs & f' & Hvm & _).
  unfold best_eval. rewrite Hvm, py_last_snoc; simpl.
  destruct (Qgtb (psnr snap) (best_eval_psnr s1)); eauto.
Qed.

Lemma run_test_total (s : State) :
  test_loader data <> [] -> exists s', run_test data s = Ok s'.
Proof.
  intros HL. unfold run_test.
  destruct (test_loop_effect (test_loader data) s)
    as (_ & _ & _ & _ & _ & _ & _ & _ & _ & Hten).
  destruct (Hten HL) as (q & Hq). rewrite Hq; simpl. eauto.
Qed.

Lemma test_total (step : Z) (s : State) :
  test_loader data <> [] -> exists s', test cfg data step s = Ok s'.
Proof.
  intros HL. unfold test.
  destruct (py_in (step + 1) (test_intervals cfg) && negb (step =? 0));
    [| eauto].
  destruct (run_test_total s HL) as (s1 & H1). rewrite H1; simpl.
  apply run_test_effect in H1.
  destruct H1 as (_ & _ & _ & _ & _ & _ & _ & snap & Hvm & _).
  unfold best_test. rewrite Hvm, py_last_snoc; simpl.
  destruct (Qgtb (psnr snap) (best_test_psnr s1)); eauto.
Qed.

Lemma periodic_checkpoint_total (step : Z) (s : State) :
  save_interval cfg <> 0 -> exists s', periodic_checkpoint cfg step s = Ok s'.
Proof.
  intros Hs. unfold periodic_checkpoint. rewrite (py_mod_nonzero _ Hs); simpl.
  destruct (_ && _); eauto.
Qed.

Lemma next_train_batch_total (s : State) :
  (0 < loader_len (train_loader data))%nat ->
  exists b s', next_train_batch data s = Ok (b, s').
Proof.
  intros Ht. unfold next_train_batch.
  destruct (feeder_next_total (train_loader data) (train_iter s) Ht)
    as (b & f & r & Hn).
  rewrite Hn; simpl. eauto.
Qed.

Lemma lr_decay_total (step : Z) (s : State) :
  lr_decay_intervals cfg <> 0 -> exists s', lr_decay cfg step s = Ok s'.
Proof.
  intros Hd. unfold lr_decay. rewrite (py_mod_nonzero _ Hd); simpl.
  destruct (_ && _); eauto.
Qed.

Lemma report_total (step : Z) (s : State) :
  report_interval cfg <> 0 ->
  (exists q, tr_report_loss s = Tensor q) ->
  exists s', report cfg step s = Ok s'.
Proof.
  intros Hr (q & Hq). unfold report. rewrite (py_mod_nonzero _ Hr); simpl.
  destruct (_ && _); [| eauto]. rewrite Hq; simpl. eauto.
Qed.

Lemma iteration_total (step : Z) (s : State) :
  well_formed cfg data s -> exists s', iteration cfg data step s = Ok s'.
Proof.
  intros (Hs & Hr & Hd & Ht & Hv & Hte & Hvs). unfold iteration.
  destruct (periodic_checkpoint_total step s Hs) as (s1 & H1).
  rewrite H1; simpl. apply periodic_checkpoint_events in H1.
  destruct H1 as ((_ & _ & _ & _ & K1 & _) & _).
  destruct (next_train_batch_total s1 Ht) as (b & s2 & H2).
  rewrite H2; simpl. apply next_train_batch_events in H2.
  destruct H2 as ((_ & _ & _ & _ & K2 & _) & _).
  destruct (gradient_step_effect b s2)
    as ((_ & _ & _ & _ & K3 & _) & _ & _ & q & Hq).
  destruct (lr_decay_total step (gradient_step b s2) Hd) as (s4 & H4).
  rewrite H4; simpl. apply lr_decay_events in H4.
  destruct H4 as ((_ & _ & _ & _ & K4 & _) & _ & _ & Hq4 & _).
  destruct (report_total step s4 Hr) as (s5 & H5).
  { exists q. congruence. }
  rewrite H5; simpl. apply report_events in H5.
  destruct H5 as ((_ & _ & _ & _ & K5 & _) & _).
  assert (Hvs5 : 0 <= val_steps s5) by congruence.
  destruct (evaluation_total step s5 Hv Hvs5) as (s6 & H6).
  rewrite H6; simpl. apply test_total. exact Hte.
Qed.

Lemma loop_total (l : list Z) :
  forall s : State,
    well_formed cfg data s -> exists s', loop cfg data l s = Ok s'.
Proof.
  induction l as [| step l IH]; intros s Hwf; simpl; [eauto |].
  destruct (iteration_total step Hwf) as (s1 & H1). rewrite H1; simpl.
  apply IH. apply iteration_histories in H1.
  destruct H1 as (_ & _ & _ & Hv).
  destruct Hwf as (w1 & w2 & w3 & w4 & w5 & w6 & w7).
  repeat split; auto.
Qed.

(** A well-formed run reaches every point between its iterations. *)
Lemma run_total (n : nat) :
  well_formed cfg data (initial_state cfg data) ->
  exists s, run_upto cfg data n = Ok s.
Proof. intros Hwf. apply loop_total. exact Hwf. Qed.

(** *** What the best-test checkpoint holds *)

Lemma best_test_saves_without_validation_history (step : Z) (s s' : State) :
  best_test step s = Ok s' ->
  exists bs,
    saved BestTest (log s') = saved BestTest (log s) ++ bs /\
    Forall (fun b => lookup "val_metrics" b = None) bs.
Proof.
  intros H. apply best_test_inv in H. destruct H as (lm & _ & ->).
  destruct (Qgtb (psnr lm) (best_test_psnr s)).
  - eexists [_]. cbn. rewrite saved_app. split; [reflexivity |].
    repeat constructor.
  - exists []. rewrite app_nil_r. split; [reflexivity | constructor].
Qed.

End ControllerFacts.

(** * The claims *)

Section Claims.

Context {C : Collaborators}.
Variable cfg : Config.
Variable data : Data.

Ltac in_disjunct Hx :=
  first [ solve [split; [reflexivity | exact Hx]]
        | solve [left; split; [reflexivity | exact Hx]]
        | right; in_disjunct Hx ].

Ltac pick_block Hf :=
  let Hx := fresh "Hx" in
  let Hy := fresh "Hy" in
  split;
  [ intros Hx; apply Hf in Hx;
    destruct Hx as [[Hy Hx] | [[Hy Hx] | [[Hy Hx] | [[Hy Hx]
                    | [[Hy Hx] | [Hy Hx]]]]]];
    solve [exact Hx | discriminate Hy]
  | intros Hx; apply Hf; in_disjunct Hx ].

Lemma fires_app (a : Action) (l1 l2 : list Event) :
  fires a (l1 ++ l2) <-> fires a l1 \/ fires a l2.
Proof.
  unfold fires. split.
  - intros (e & He & Ha). apply in_app_or in He.
    destruct He; [left | right]; exists e; auto.
  - intros [(e & He & Ha) | (e & He & Ha)]; exists e; split; auto;
      apply in_or_app; auto.
Qed.

Lemma fires_block (a a' : Action) (l : list Event) :
  block a l -> (fires a' l <-> a' = a /\ l <> []).
Proof.
  unfold block, fires. intros Hb. rewrite Forall_forall in Hb. split.
  - intros (e & He & Ha). split; [rewrite <- Ha; auto |].
    intros ->. contradiction.
  - intros [-> Hl]. destruct l as [| e l]; [contradiction |].
    exists e. split; [left; reflexivity | apply Hb; left; reflexivity].
Qed.

Lemma sorted_block_app (a : Action) (l rest : list Event) :
  block a l ->
  StronglySorted in_order rest ->
  Forall (fun e => (rank a <= rank (action_of e))%nat) rest ->
  StronglySorted in_order (l ++ rest) /\
  forall lo, (lo <= rank a)%nat ->
             Forall (fun e => (lo <= rank (action_of e))%nat) (l ++ rest).
Proof.
  intros Hb Hs Hr. induction Hb as [| e l He Hb [IH1 IH2]]; simpl.
  - split; [exact Hs |]. intros lo Hlo.
    eapply Forall_impl; [| exact Hr]. simpl; intros; lia.
  - split.
    + constructor; [exact IH1 |]. unfold in_order. rewrite He.
      apply IH2. lia.
    + intros lo Hlo. constructor; [rewrite He; exact Hlo | apply IH2; exact Hlo].
Qed.

(** C1: at every step the five interval actions fire exactly as the table
    of section 4.3 says: the checkpoint and the decay on [step % interval ==
    0], the report on [(step + 1) % interval == 0], the evaluation and the
    test on [step + 1] being a listed step, each only when [step != 0]; so
    step 0 fires none of them, whatever the intervals.  An iteration that
    raises instead is one of an ill-formed run (a zero interval, an empty
    loader, a negative [val_steps]). *)
Theorem interval_actions_due (step : Z) (s : State) :
  match iteration cfg data step s with
  | Ok s' =>
      exists evs,
        log s' = log s ++ evs /\
        (fires Checkpoint evs <->
         step mod save_interval cfg = 0 /\ step <> 0) /\
        (fires Report evs <->
         (step + 1) mod report_interval cfg = 0 /\ step <> 0) /\
        (fires Evaluate evs <->
         In (step + 1) (evaluation_interval cfg) /\ step <> 0) /\
        (fires TestModel evs <->
         In (step + 1) (test_intervals cfg) /\ step <> 0) /\
        (fires Decay evs <->
         step mod lr_decay_intervals cfg = 0 /\ step <> 0) /\
        (step = 0 -> forall e, In e evs -> action_of e = GradientStep)
  | Raise _ => ~ well_formed cfg data s
  end.
Proof.
  destruct (iteration cfg data step s) as [s' | e] eqn:H.
  - apply iteration_events in H.
    destruct H as (ck & gs & dc & rp & ev & ts & Hlog
                   & (B1 & B2 & B3 & B4 & B5 & B6)
                   & D1 & D3 & D4 & D5 & D6 & _).
    exists (ck ++ gs ++ dc ++ rp ++ ev ++ ts). split; [exact Hlog |].
    assert (Hf : forall a,
               fires a (ck ++ gs ++ dc ++ rp ++ ev ++ ts) <->
               (a = Checkpoint /\ ck <> []) \/ (a = GradientStep /\ gs <> [])
               \/ (a = Decay /\ dc <> []) \/ (a = Report /\ rp <> [])
               \/ (a = Evaluate /\ ev <> []) \/ (a = TestModel /\ ts <> [])).
    { intros a. rewrite !fires_app.
      rewrite (fires_block a B1), (fires_block a B2), (fires_block a B3),
        (fires_block a B4), (fires_block a B5), (fires_block a B6).
      reflexivity. }
    assert (F1 : fires Checkpoint (ck ++ gs ++ dc ++ rp ++ ev ++ ts)
                 <-> ck <> []) by pick_block Hf.
    assert (F3 : fires Decay (ck ++ gs ++ dc ++ rp ++ ev ++ ts)
                 <-> dc <> []) by pick_block Hf.
    assert (F4 : fires Report (ck ++ gs ++ dc ++ rp ++ ev ++ ts)
                 <-> rp <> []) by pick_block Hf.
    assert (F5 : fires Evaluate (ck ++ gs ++ dc ++ rp ++ ev ++ ts)
                 <-> ev <> []) by pick_block Hf.
    assert (F6 : fires TestModel (ck ++ gs ++ dc ++ rp ++ ev ++ ts)
                 <-> ts <> []) by pick_block Hf.
    split; [exact (iff_trans F1 D1) |].
    split; [exact (iff_trans F4 D4) |].
    split; [exact (iff_trans F5 D5) |].
    split; [exact (iff_trans F6 D6) |].
    split; [exact (iff_trans F3 D3) |].
    intros H0 e He.
    assert (Hx : fires (action_of e) (ck ++ gs ++ dc ++ rp ++ ev ++ ts))
      by (exists e; split; [exact He | reflexivity]).
    destruct (action_of e); try reflexivity; exfalso.
    + apply F1, D1 in Hx. destruct Hx as [_ Hx]. exact (Hx H0).
    + apply F3, D3 in Hx. destruct Hx as [_ Hx]. exact (Hx H0).
    + apply F4, D4 in Hx. destruct Hx as [_ Hx]. exact (Hx H0).
    + apply F5, D5 in Hx. destruct Hx as [_ Hx]. exact (Hx H0).
    + apply F6, D6 in Hx. destruct Hx as [_ Hx]. exact (Hx H0).
  - intros Hwf. destruct (iteration_total step Hwf) as (s' & Hs').
    rewrite Hs' in H. discriminate H.
Qed.

(** C2: the events of one iteration come in the fixed order periodic
    checkpoint, batch and gradient step, decay, report, evaluation, test;
    the periodic checkpoint is built from the state the iteration starts
    with, before the batch is drawn and the model updated. *)
Theorem actions_in_fixed_order (step : Z) (s s' : State) :
  iteration cfg data step s = Ok s' ->
  exists evs,
    log s' = log s ++ evs /\
    StronglySorted in_order evs /\
    In EvOptimizerStep evs /\
    (forall b, In (EvSave Periodic b) evs -> b = full_bundle step s).
Proof.
  intros H. apply iteration_events in H.
  destruct H as (ck & gs & dc & rp & ev & ts & Hlog
                 & (B1 & B2 & B3 & B4 & B5 & B6) & _ & _ & _ & _ & _ & Hg & P1).
  exists (ck ++ gs ++ dc ++ rp ++ ev ++ ts). split; [exact Hlog |].
  split.
  - destruct (@sorted_block_app TestModel ts [] B6) as [S6 F6];
      [constructor | constructor |]. rewrite app_nil_r in S6, F6.
    assert (R5 : (rank Evaluate <= rank TestModel)%nat) by (simpl; lia).
    assert (R4 : (rank Report <= rank Evaluate)%nat) by (simpl; lia).
    assert (R3 : (rank Decay <= rank Report)%nat) by (simpl; lia).
    assert (R2 : (rank GradientStep <= rank Decay)%nat) by (simpl; lia).
    assert (R1 : (rank Checkpoint <= rank GradientStep)%nat) by (simpl; lia).
    destruct (sorted_block_app B5 S6 (F6 _ R5)) as [S5 F5].
    destruct (sorted_block_app B4 S5 (F5 _ R4)) as [S4 F4].
    destruct (sorted_block_app B3 S4 (F4 _ R3)) as [S3 F3].
    destruct (sorted_block_app B2 S3 (F3 _ R2)) as [S2 F2].
    destruct (sorted_block_app B1 S2 (F2 _ R1)) as [S1 _].
    exact S1.
  - split; [apply in_or_app; right; apply in_or_app; left; exact Hg |].
    intros b Hb. apply in_app_or in Hb. destruct Hb as [Hb | Hb]; [auto |].
    exfalso.
    assert (Hx : fires Checkpoint (gs ++ dc ++ rp ++ ev ++ ts))
      by (exists (EvSave Periodic b); split; [exact Hb | reflexivity]).
    rewrite !fires_app in Hx.
    rewrite (fires_block _ B2), (fires_block _ B3), (fires_block _ B4),
      (fires_block _ B5), (fires_block _ B6) in Hx.
    destruct Hx as [[Hx _] | [[Hx _] | [[Hx _] | [[Hx _] | [Hx _]]]]];
      discriminate Hx.
Qed.

(** *** Best scores *)

Lemma Qgtb_true (x y : Q) : Qgtb x y = true <-> (y < x)%Q.
Proof.
  unfold Qgtb. rewrite negb_true_iff. split.
  - intros H. apply Qnot_le_lt. intros Hle.
    apply Qle_bool_iff in Hle. congruence.
  - intros H. destruct (Qle_bool x y) eqn:E; [| reflexivity].
    apply Qle_bool_iff in E. exfalso. exact (Qlt_not_le _ _ H E).
Qed.

Lemma Qgtb_false (x y : Q) : Qgtb x y = false <-> (x <= y)%Q.
Proof.
  unfold Qgtb. rewrite negb_false_iff. apply Qle_bool_iff.
Qed.

Lemma offer_increases (best x : Q) : (best <= offer best x)%Q.
Proof.
  unfold offer. destruct (Qgtb x best) eqn:E.
  - apply Qlt_le_weak, Qgtb_true, E.
  - apply Qle_refl.
Qed.

Lemma offer_is_max (best : Q) (h : list Snapshot) (snap : Snapshot) :
  is_max best (0%Q :: map psnr h) ->
  is_max (offer best (psnr snap)) (0%Q :: map psnr (h ++ [snap])).
Proof.
  intros [Hin Hall]. pose proof (offer_increases best (psnr snap)) as Hinc.
  rewrite map_app. simpl map. split.
  - unfold offer. destruct (Qgtb (psnr snap) best).
    + right. apply in_or_app. right. left. reflexivity.
    + destruct Hin as [Hin | Hin]; [left; exact Hin |].
      right. apply in_or_app. left. exact Hin.
  - change (0%Q :: map psnr h ++ [psnr snap])
      with ((0%Q :: map psnr h) ++ [psnr snap]).
    apply Forall_app. split.
    + eapply Forall_impl; [| exact Hall]. simpl. intros a Ha.
      eapply Qle_trans; [exact Ha | exact Hinc].
    + constructor; [| constructor]. unfold offer.
      destruct (Qgtb (psnr snap) best) eqn:E.
      * apply Qle_refl.
      * apply Qgtb_false, E.
Qed.

Lemma tracked_is_max (best best' : Q) (h h' : list Snapshot) :
  tracked best h best' h' ->
  (is_max best (0%Q :: map psnr h) -> is_max best' (0%Q :: map psnr h')) /\
  (best <= best')%Q.
Proof.
  intros [[-> ->] | (snap & -> & ->)].
  - split; [auto | apply Qle_refl].
  - split; [apply offer_is_max | apply offer_increases].
Qed.

Lemma evaluation_tracks (step : Z) (s s' : State) :
  evaluation cfg data step s = Ok s' ->
  tracked (best_eval_psnr s) (val_metrics s)
          (best_eval_psnr s') (val_metrics s').
Proof.
  intros H. apply evaluation_inv in H.
  destruct (py_in (step + 1) (evaluation_interval cfg) && negb (step =? 0)).
  - destruct H as (s1 & H1 & H2).
    apply evaluate_effect in H1.
    destruct H1 as (_ & _ & a3 & _ & _ & _ & _ & _ & snap & evs & f' & Hv & _).
    apply best_eval_inv in H2. destruct H2 as (lm & Hl & ->).
    rewrite Hv, py_last_snoc in Hl. inversion Hl; subst lm; clear Hl.
    right. exists snap. unfold offer. rewrite <- a3.
    destruct (Qgtb (psnr snap) (best_eval_psnr s1)); split; auto.
  - subst s'. left. split; reflexivity.
Qed.

Lemma test_tracks (step : Z) (s s' : State) :
  test cfg data step s = Ok s' ->
  tracked (best_test_psnr s) (test_metrics s)
          (best_test_psnr s') (test_metrics s').
Proof.
  intros H. apply test_inv in H.
  destruct (py_in (step + 1) (test_intervals cfg) && negb (step =? 0)).
  - destruct H as (s1 & H1 & H2).
    apply run_test_effect in H1.
    destruct H1 as (_ & _ & _ & a4 & _ & _ & _ & snap & Hv & _).
    apply best_test_inv in H2. destruct H2 as (lm & Hl & ->).
    rewrite Hv, py_last_snoc in Hl. inversion Hl; subst lm; clear Hl.
    right. exists snap. unfold offer. rewrite <- a4.
    destruct (Qgtb (psnr snap) (best_test_psnr s1)); split; auto.
  - subst s'. left. split; reflexivity.
Qed.

Lemma iteration_tracks (step : Z) (s s' : State) :
  iteration cfg data step s = Ok s' ->
  tracked (best_eval_psnr s) (val_metrics s)
          (best_eval_psnr s') (val_metrics s') /\
  tracked (best_test_psnr s) (test_metrics s)
          (best_test_psnr s') (test_metrics s').
Proof.
  intros H. apply iteration_inv in H.
  destruct H as (s1 & b & s2 & s4 & s5 & s6 & H1 & H2 & H4 & H5 & H6 & H7).
  apply periodic_checkpoint_events in H1.
  destruct H1 as ((a1 & a2 & a3 & a4 & _) & _).
  apply next_train_batch_events in H2.
  destruct H2 as ((b1 & b2 & b3 & b4 & _) & _).
  destruct (gradient_step_effect b s2) as ((c1 & c2 & c3 & c4 & _) & _).
  apply lr_decay_events in H4. destruct H4 as ((d1 & d2 & d3 & d4 & _) & _).
  apply report_events in H5. destruct H5 as ((e1 & e2 & e3 & e4 & _) & _).
  pose proof (evaluation_tracks _ _ H6) as T6.
  apply evaluation_events in H6. destruct H6 as (_ & f2 & f4 & _).
  pose proof (test_tracks _ _ H7) as T7.
  apply test_events in H7. destruct H7 as (_ & g1 & g3 & _).
  assert (V5 : val_metrics s5 = val_metrics s) by congruence.
  assert (E5 : best_eval_psnr s5 = best_eval_psnr s) by congruence.
  assert (T6' : test_metrics s6 = test_metrics s) by congruence.
  assert (B6 : best_test_psnr s6 = best_test_psnr s) by congruence.
  rewrite V5, E5, <- g1, <- g3 in T6. rewrite T6', B6 in T7.
  split; assumption.
Qed.

Lemma loop_app (l1 l2 : list Z) (s : State) :
  loop cfg data (l1 ++ l2) s
  = bind (loop cfg data l1 s) (loop cfg data l2).
Proof.
  revert s. induction l1 as [| step l1 IH]; intros s; simpl; [reflexivity |].
  destruct (iteration cfg data step s) as [s1 | e]; simpl; [apply IH | reflexivity].
Qed.

Lemma loop_tracks (l : list Z) :
  forall s s' : State,
    loop cfg data l s = Ok s' ->
    (best_scores_hold s -> best_scores_hold s') /\
    (best_eval_psnr s <= best_eval_psnr s')%Q /\
    (best_test_psnr s <= best_test_psnr s')%Q.
Proof.
  induction l as [| step l IH]; intros s s' H; simpl in H.
  - inversion H; subst. split; [auto | split; apply Qle_refl].
  - inv_bind H. rename x into s1.
    apply iteration_tracks in E. destruct E as [Te Tt].
    apply tracked_is_max in Te, Tt.
    destruct Te as [Me Le], Tt as [Mt Lt].
    destruct (IH _ _ H) as (Hh & He & Ht).
    split; [| split; eapply Qle_trans; eassumption].
    intros [I1 I2]. apply Hh. split; auto.
Qed.

Lemma run_upto_split (m n : nat) (s : State) :
  (m <= n)%nat ->
  run_upto cfg data n = Ok s ->
  exists s0 l, run_upto cfg data m = Ok s0 /\ loop cfg data l s0 = Ok s.
Proof.
  unfold run_upto. intros Hmn H.
  rewrite <- (firstn_skipn m (firstn n (range (steps cfg)))) in H.
  rewrite firstn_firstn, Nat.min_l in H by exact Hmn.
  rewrite loop_app in H. inv_bind H. eauto.
Qed.

Lemma loop_histories (l : list Z) :
  forall s s' : State,
    loop cfg data l s = Ok s' ->
    extends_by (length l) (tr_metrics s) (tr_metrics s') /\
    extends_by (length l) (val_metrics s) (val_metrics s') /\
    extends_by (length l) (test_metrics s) (test_metrics s').
Proof.
  unfold extends_by.
  induction l as [| step l IH]; intros s s' H; simpl in H.
  - inversion H; subst.
    repeat split; exists []; rewrite app_nil_r; split; auto.
  - inv_bind H. rename x into s1.
    apply iteration_histories in E.
    destruct E as ((t1 & E1 & N1) & (t2 & E2 & N2) & (t3 & E3 & N3) & _).
    destruct (IH _ _ H) as ((u1 & F1 & M1) & (u2 & F2 & M2) & (u3 & F3 & M3)).
    repeat split.
    + exists (t1 ++ u1). rewrite F1, E1, <- app_assoc.
      split; [reflexivity | rewrite length_app; simpl; lia].
    + exists (t2 ++ u2). rewrite F2, E2, <- app_assoc.
      split; [reflexivity | rewrite length_app; simpl; lia].
    + exists (t3 ++ u3). rewrite F3, E3, <- app_assoc.
      split; [reflexivity | rewrite length_app; simpl; lia].
Qed.

(** A validation score offered to the tracker (lines 199-208) replaces the
    stored best and saves the best-eval checkpoint exactly when it is
    strictly greater; a score that is not greater, a tie included, changes
    nothing and saves nothing.  The test best is never touched, and the test
    history plays no part: it may be empty, as at the first evaluation. *)
Lemma best_eval_offer (step : Z) (s : State) (hv : list Snapshot)
      (sv : Snapshot) :
  val_metrics s = hv ++ [sv] ->
  exists s',
    best_eval step s = Ok s' /\
    best_test_psnr s' = best_test_psnr s /\
    ((best_eval_psnr s < psnr sv)%Q ->
     best_eval_psnr s' = psnr sv /\
     log s' = log s ++ [EvSave BestEval (full_bundle step s')]) /\
    ((psnr sv <= best_eval_psnr s)%Q -> s' = s).
Proof.
  intros Hv. unfold best_eval. rewrite Hv, py_last_snoc; simpl.
  destruct (Qgtb (psnr sv) (best_eval_psnr s)) eqn:E.
  - eexists. split; [reflexivity |]. split; [reflexivity |].
    split; [intros _; split; reflexivity |].
    intros Hle. apply Qgtb_true in E. exfalso. exact (Qlt_not_le _ _ E Hle).
  - exists s. split; [reflexivity |]. split; [reflexivity |].
    split; [| reflexivity].
    intros Hlt. apply Qgtb_false in E. exfalso. exact (Qlt_not_le _ _ Hlt E).
Qed.

(** The same for a test score (lines 250-259), whatever the validation
    history. *)
Lemma best_test_offer (step : Z) (s : State) (ht : list Snapshot)
      (st : Snapshot) :
  test_metrics s = ht ++ [st] ->
  exists s',
    best_test step s = Ok s' /\
    best_eval_psnr s' = best_eval_psnr s /\
    ((best_test_psnr s < psnr st)%Q ->
     best_test_psnr s' = psnr st /\
     log s' = log s
              ++ [EvSave BestTest (bundle_without_val_metrics step s')]) /\
    ((psnr st <= best_test_psnr s)%Q -> s' = s).
Proof.
  intros Ht. unfold best_test. rewrite Ht, py_last_snoc; simpl.
  destruct (Qgtb (psnr st) (best_test_psnr s)) eqn:E.
  - eexists. split; [reflexivity |]. split; [reflexivity |].
    split; [intros _; split; reflexivity |].
    intros Hle. apply Qgtb_true in E. exfalso. exact (Qlt_not_le _ _ E Hle).
  - exists s. split; [reflexivity |]. split; [reflexivity |].
    split; [| reflexivity].
    intros Hlt. apply Qgtb_false in E. exfalso. exact (Qlt_not_le _ _ Hlt E).
Qed.

(** C9: over any stretch of iterations each of the three histories only
    grows at its end, by at most one snapshot per iteration; what was
    appended stays as it was, so the history before is a prefix of the
    history after. *)
Theorem histories_append_only (l : list Z) (s s' : State) :
  loop cfg data l s = Ok s' ->
  extends_by (length l) (tr_metrics s) (tr_metrics s') /\
  extends_by (length l) (val_metrics s) (val_metrics s') /\
  extends_by (length l) (test_metrics s) (test_metrics s').
Proof. apply loop_histories. Qed.

(** C10: between the iterations of a run, each best score is the maximum of
    0 and the PSNRs recorded so far in its history, and neither best score
    ever decreases from one such point to a later one. *)
Theorem best_scores_are_maxima (n : nat) (s : State) :
  run_upto cfg data n = Ok s ->
  best_scores_hold s /\
  forall (m : nat) (s0 : State),
    (m <= n)%nat ->
    run_upto cfg data m = Ok s0 ->
    (best_eval_psnr s0 <= best_eval_psnr s)%Q /\
    (best_test_psnr s0 <= best_test_psnr s)%Q.
Proof.
  intros H. split.
  - apply loop_tracks in H. destruct H as [H _]. apply H.
    split; (split; [left; reflexivity | repeat constructor; apply Qle_refl]).
  - intros m s0 Hmn H0.
    destruct (run_upto_split Hmn H) as (s0' & l & H0' & Hl).
    rewrite H0 in H0'. inversion H0'; subst s0'; clear H0'.
    apply loop_tracks in Hl. tauto.
Qed.

(** The test accumulator is back at the integer 0 after every iteration. *)
Lemma iteration_resets_test_loss (step : Z) (s s' : State) :
  iteration cfg data step s = Ok s' ->
  test_report_loss s = PyInt 0 ->
  test_report_loss s' = PyInt 0.
Proof.
  intros H H0. apply iteration_before_test in H.
  destruct H as (s6 & ck & gs & dc & rp & ev & H7 & _ & _ & _ & _ & _ & _ & _
                 & _ & _ & _ & K).
  apply test_inv in H7.
  destruct (py_in (step + 1) (test_intervals cfg) && negb (step =? 0)).
  - destruct H7 as (s7 & H7 & H8).
    apply run_test_effect in H7. apply best_test_events in H8.
    destruct H7 as (_ & _ & _ & _ & _ & _ & R & _).
    destruct H8 as (_ & _ & _ & _ & _ & _ & K8 & _). congruence.
  - congruence.
Qed.

Lemma run_resets_test_loss (n : nat) (s : State) :
  run_upto cfg data n = Ok s -> test_report_loss s = PyInt 0.
Proof.
  unfold run_upto. generalize (firstn n (range (steps cfg))) as l.
  assert (G : forall l s0, test_report_loss s0 = PyInt 0 ->
                           loop cfg data l s0 = Ok s ->
                           test_report_loss s = PyInt 0).
  { induction l as [| step l IH]; intros s0 H0 H; simpl in H.
    - inversion H; subst; exact H0.
    - inv_bind H. eapply IH; [| exact H].
      eapply iteration_resets_test_loss; eassumption. }
  intros l. apply G. reflexivity.
Qed.

Lemma block_draws_no_test (a : Action) (evs : list Event) :
  block a evs -> a <> TestModel ->
  drawn Test evs = [] /\ restarts Test evs = 0%nat.
Proof.
  intros Hb Ha. induction Hb as [| e l He Hb IH]; [split; reflexivity |].
  destruct e as [c b | q | q b | | | q sn]; simpl; try exact IH;
    destruct q; simpl; try exact IH; simpl in He; congruence.
Qed.

(** C8: an iteration at which the test is due draws every batch of the test
    loader exactly once, in the loader's order and without a restart, and
    appends one snapshot whose loss is the sum of the batches' losses,
    under the model as the iteration leaves it, divided by the length of the
    test loader.  Between iterations the test accumulator is the integer 0
    ([run_resets_test_loss]). *)
Theorem test_event_covers_test_set (step : Z) (s s' : State) :
  test_report_loss s = PyInt 0 ->
  In (step + 1) (test_intervals cfg) ->
  step <> 0 ->
  iteration cfg data step s = Ok s' ->
  exists evs snap,
    log s' = log s ++ evs /\
    drawn Test evs = test_loader data /\
    restarts Test evs = 0%nat /\
    test_metrics s' = test_metrics s ++ [snap] /\
    loss snap
    = (fold_left Qplus (map (eval_loss (model s')) (test_loader data)) 0
       / inject_Z (Z.of_nat (length (test_loader data))))%Q.
Proof.
  intros H0 Hin Hnz H. apply iteration_before_test in H.
  destruct H as (s6 & ck & gs & dc & rp & ev & H7 & L6
                 & (B1 & B2 & B3 & B4 & B5) & _ & _ & _ & _ & _ & _
                 & T6 & _ & K6).
  apply test_inv in H7.
  rewrite (proj2 (membership_due _ _ _) (conj Hin Hnz)) in H7.
  destruct H7 as (s7 & H7 & H8).
  apply run_test_effect in H7. apply best_test_events in H8.
  destruct H7 as (_ & _ & _ & _ & _ & M7 & _ & snap & V7 & L7 & Hl).
  destruct H8 as (_ & _ & V8 & _ & _ & M8 & _ & evs' & L8 & _ & Dr & Rs).
  exists ((ck ++ gs ++ dc ++ rp ++ ev)
            ++ map (EvDraw Test) (test_loader data)
            ++ [EvFlush Test snap] ++ evs'), snap.
  destruct (block_draws_no_test B1 ltac:(discriminate)) as [d1 r1].
  destruct (block_draws_no_test B2 ltac:(discriminate)) as [d2 r2].
  destruct (block_draws_no_test B3 ltac:(discriminate)) as [d3 r3].
  destruct (block_draws_no_test B4 ltac:(discriminate)) as [d4 r4].
  destruct (block_draws_no_test B5 ltac:(discriminate)) as [d5 r5].
  assert (Dm : forall l, drawn Test (map (EvDraw Test) l) = l
                         /\ restarts Test (map (EvDraw Test) l) = 0%nat).
  { induction l as [| x l [IH1 IH2]]; simpl; [split; reflexivity |].
    rewrite IH1. split; [reflexivity | exact IH2]. }
  destruct (Dm (test_loader data)) as [dm rm].
  split; [rewrite L8, L7, L6, <- !app_assoc; reflexivity |].
  split.
  { rewrite !drawn_app, d1, d2, d3, d4, d5, dm, Dr. simpl.
    apply app_nil_r. }
  split.
  { rewrite !restarts_app, r1, r2, r3, r4, r5, rm, Rs. reflexivity. }
  split; [congruence |].
  rewrite Hl, K6, H0, M8, M7. reflexivity.
Qed.

End Claims.

Section FeederClaims.

Variable Batch : Type.
Variable ld : Loader Batch.

(** C6, amended: over a source that is not empty, every request returns a
    batch.  A live iterator hands out its next batch; an exhausted one is
    replaced by a fresh pass whose first batch is returned and whose rest
    stays in the iterator.  Any number of requests delivers what was left of
    the current pass followed by whole passes, batch by batch in order, and
    [iter] starts a pass from its beginning whatever the old iterator still
    held. *)
Theorem feeder_never_exhausts (f : Feeder Batch) :
  (0 < loader_len ld)%nat ->
  (exists b f' r,
      feeder_next ld f = Ok (b, f', r) /\
      (feeder_iter f <> [] ->
       feeder_iter f = b :: feeder_iter f' /\
       feeder_epoch f' = feeder_epoch f /\ r = false) /\
      (feeder_iter f = [] ->
       loader_pass ld (feeder_epoch f) = b :: feeder_iter f' /\
       feeder_epoch f' = S (feeder_epoch f) /\ r = true)) /\
  (forall n, exists f' k,
      feeder_draw ld n f
      = Ok (firstn n (feeder_iter f ++ passes_from ld (feeder_epoch f) n),
            f', k)) /\
  feeder_iter (py_iter ld f) = loader_pass ld (feeder_epoch f).
Proof.
  intros HL. split; [| split; [| reflexivity]].
  - destruct f as [[| b rest] k].
    + destruct (feeder_next_exhausted ld k HL) as (b & rest & Hp & _ & Hn).
      exists b, (Build_Feeder rest (S k)), true. split; [exact Hn |].
      split; [intros Hne; contradiction |].
      intros _. repeat split. exact Hp.
    + exists b, (Build_Feeder rest k), false.
      split; [apply feeder_next_live |].
      split; [intros _; repeat split | intros Hnil; discriminate Hnil].
  - intros n.
    destruct (feeder_draw_spec ld HL f (Nat.le_refl n)) as (f' & Hd).
    eauto.
Qed.

(** C7, amended: over a source of length [L >= 1], requesting [L + k]
    batches with [k >= 1] from a fresh iterator restarts the source
    [1 + (k - 1) / L] times (which is [k] when [k = 1] or [L = 1]), and the
    batches delivered are the passes laid end to end, none omitted. *)
Theorem restarts_of_overrun (k : nat) :
  (0 < loader_len ld)%nat ->
  (1 <= k)%nat ->
  exists f',
    feeder_draw ld (loader_len ld + k) (py_iter ld (Build_Feeder [] 0))
    = Ok (firstn (loader_len ld + k)
                 (passes_from ld 0 (S (loader_len ld + k))),
          f',
          (1 + (k - 1) / loader_len ld)%nat).
Proof.
  intros HL Hk.
  destruct (feeder_draw_spec ld HL (py_iter ld (Build_Feeder [] 0))
              (Nat.le_refl (loader_len ld + k))) as (f' & Hd).
  exists f'. rewrite Hd. simpl feeder_iter. simpl feeder_epoch.
  rewrite loader_pass_length, passes_from_S.
  do 2 f_equal.
  replace (loader_len ld + k - loader_len ld + loader_len ld - 1)%nat
    with ((k - 1) + 1 * loader_len ld)%nat by lia.
  rewrite Nat.div_add by lia. lia.
Qed.

End FeederClaims.

(** C6, witness: a two-batch loader and an exhausted iterator. *)
Lemma feeder_never_exhausts_witness :
  (0 < loader_len Demo.two_batches)%nat /\
  (exists b f' r,
      feeder_next Demo.two_batches Demo.exhausted = Ok (b, f', r) /\
      (feeder_iter Demo.exhausted <> [] ->
       feeder_iter Demo.exhausted = b :: feeder_iter f' /\
       feeder_epoch f' = feeder_epoch Demo.exhausted /\ r = false) /\
      (feeder_iter Demo.exhausted = [] ->
       loader_pass Demo.two_batches (feeder_epoch Demo.exhausted)
       = b :: feeder_iter f' /\
       feeder_epoch f' = S (feeder_epoch Demo.exhausted) /\ r = true)) /\
  (forall n, exists f' k,
      feeder_draw Demo.two_batches n Demo.exhausted
      = Ok (firstn n (feeder_iter Demo.exhausted
                        ++ passes_from Demo.two_batches
                                       (feeder_epoch Demo.exhausted) n),
            f', k)) /\
  feeder_iter (py_iter Demo.two_batches Demo.exhausted)
  = loader_pass Demo.two_batches (feeder_epoch Demo.exhausted).
Proof.
  assert (HL : (0 < loader_len Demo.two_batches)%nat) by (simpl; lia).
  split; [exact HL |].
  exact (feeder_never_exhausts Demo.two_batches Demo.exhausted HL).
Defined.

(** C6, counterexample: the claim as it stands, for every source, fails on
    a loader whose passes are empty: the handler restarts the loader and
    its own [next] raises [StopIteration], which nothing catches. *)
Lemma empty_source_surfaces_end_of_data :
  ~ (forall (ld : Loader Q) (f : Feeder Q),
        exists b f' r, feeder_next ld f = Ok (b, f', r)) /\
  main Demo.config Demo.empty_data = Raise StopIteration.
Proof.
  split; [| reflexivity].
  intros H.
  destruct (H (Demo.constant_loader []) (Build_Feeder [] 0))
    as (b & f' & r & Hn).
  rewrite (feeder_next_empty_loader (Demo.constant_loader []) 0 eq_refl) in Hn.
  discriminate Hn.
Qed.

(** C7, witness: three batches per pass, five more requested. *)
Lemma restarts_of_overrun_witness :
  (0 < loader_len Demo.three_batches)%nat /\ (1 <= 5)%nat /\
  exists f',
    feeder_draw Demo.three_batches (loader_len Demo.three_batches + 5)
                (py_iter Demo.three_batches (Build_Feeder [] 0))
    = Ok (firstn (loader_len Demo.three_batches + 5)
                 (passes_from Demo.three_batches 0
                              (S (loader_len Demo.three_batches + 5))),
          f',
          (1 + (5 - 1) / loader_len Demo.three_batches)%nat).
Proof.
  assert (HL : (0 < loader_len Demo.three_batches)%nat) by (simpl; lia).
  assert (Hk : (1 <= 5)%nat) by lia.
  split; [exact HL |]. split; [exact Hk |].
  exact (restarts_of_overrun Demo.three_batches HL Hk).
Defined.

(** C7, counterexample: a pass of three batches and five requests ([k = 2])
    restart the source once, not twice. *)
Lemma overrun_by_two_restarts_once :
  ~ (forall (ld : Loader Q) (k : nat),
        (1 <= k)%nat ->
        exists bs f',
          feeder_draw ld (loader_len ld + k) (py_iter ld (Build_Feeder [] 0))
          = Ok (bs, f', k)) /\
  feeder_draw Demo.three_batches (3 + 2)
              (py_iter Demo.three_batches (Build_Feeder [] 0))
  = Ok ([1#1; 2#1; 3#1; 1#1; 2#1]%Q, Build_Feeder [3#1]%Q 2, 1%nat).
Proof.
  split; [| reflexivity].
  intros H.
  destruct (H Demo.three_batches 2%nat ltac:(lia)) as (bs & f' & Hd).
  vm_compute in Hd. discriminate Hd.
Qed.

(** C2, witness: step 2 of the small run, where the checkpoint, the
    evaluation and the test fire together. *)
Lemma actions_in_fixed_order_witness :
  iteration Demo.config Demo.data 2 (Demo.after 2) = Ok (Demo.after 3) /\
  exists evs,
    log (Demo.after 3) = log (Demo.after 2) ++ evs /\
    StronglySorted in_order evs /\
    In EvOptimizerStep evs /\
    (forall b, In (EvSave Periodic b) evs -> b = full_bundle 2 (Demo.after 2)).
Proof.
  assert (H : iteration Demo.config Demo.data 2 (Demo.after 2)
              = Ok (Demo.after 3)) by (vm_compute; reflexivity).
  split; [exact H |].
  exact (actions_in_fixed_order Demo.config Demo.data 2 (Demo.after 2) H).
Defined.

(** C8, witness: step 2 of the small run, with a test at step + 1 = 3. *)
Lemma test_event_covers_test_set_witness :
  test_report_loss (Demo.after 2) = PyInt 0 /\
  In (2 + 1) (test_intervals Demo.config) /\
  2 <> 0 /\
  iteration Demo.config Demo.data 2 (Demo.after 2) = Ok (Demo.after 3) /\
  exists evs snap,
    log (Demo.after 3) = log (Demo.after 2) ++ evs /\
    drawn Test evs = test_loader Demo.data /\
    restarts Test evs = 0%nat /\
    test_metrics (Demo.after 3) = test_metrics (Demo.after 2) ++ [snap] /\
    loss snap
    = (fold_left Qplus
                 (map (eval_loss (model (Demo.after 3))) (test_loader Demo.data))
                 0
       / inject_Z (Z.of_nat (length (test_loader Demo.data))))%Q.
Proof.
  assert (H0 : test_report_loss (Demo.after 2) = PyInt 0)
    by (vm_compute; reflexivity).
  assert (Hin : In (2 + 1) (test_intervals Demo.config))
    by (simpl; left; reflexivity).
  assert (Hnz : 2 <> 0) by lia.
  assert (H : iteration Demo.config Demo.data 2 (Demo.after 2)
              = Ok (Demo.after 3)) by (vm_compute; reflexivity).
  repeat (split; [assumption |]).
  exact (test_event_covers_test_set Demo.config Demo.data (Demo.after 2)
           H0 Hin Hnz H).
Defined.

(** C9, witness: the five iterations of the small run. *)
Lemma histories_append_only_witness :
  loop Demo.config Demo.data (range 5) (initial_state Demo.config Demo.data)
  = Ok (Demo.after 5) /\
  extends_by (length (range 5))
             (tr_metrics (initial_state Demo.config Demo.data))
             (tr_metrics (Demo.after 5)) /\
  extends_by (length (range 5))
             (val_metrics (initial_state Demo.config Demo.data))
             (val_metrics (Demo.after 5)) /\
  extends_by (length (range 5))
             (test_metrics (initial_state Demo.config Demo.data))
             (test_metrics (Demo.after 5)).
Proof.
  assert (H : loop Demo.config Demo.data (range 5)
                   (initial_state Demo.config Demo.data)
              = Ok (Demo.after 5)) by (vm_compute; reflexivity).
  split; [exact H |].
  exact (histories_append_only Demo.config Demo.data (range 5)
           (initial_state Demo.config Demo.data) H).
Defined.

(** C10, witness: the end of the small run. *)
Lemma best_scores_are_maxima_witness :
  run_upto Demo.config Demo.data 5 = Ok (Demo.after 5) /\
  best_scores_hold (Demo.after 5) /\
  forall (m : nat) (s0 : State),
    (m <= 5)%nat ->
    run_upto Demo.config Demo.data m = Ok s0 ->
    (best_eval_psnr s0 <= best_eval_psnr (Demo.after 5))%Q /\
    (best_test_psnr s0 <= best_test_psnr (Demo.after 5))%Q.
Proof.
  assert (H : run_upto Demo.config Demo.data 5 = Ok (Demo.after 5))
    by (vm_compute; reflexivity).
  split; [exact H |].
  exact (best_scores_are_maxima Demo.config Demo.data 5 H).
Defined.

(** C3: in the small run, step 2 saves a best-test checkpoint; the bundle
    holds the step, the model, the optimizer, the training history and the
    test history and has no entry for the validation history, which is not
    empty at that moment.  The periodic and best-eval bundles of the same
    run all carry it. *)
Theorem best_test_checkpoint_lacks_validation_history :
  saved BestTest (log (Demo.after 3))
  = [bundle_without_val_metrics 2 (Demo.after 3)] /\
  lookup "val_metrics" (bundle_without_val_metrics 2 (Demo.after 3)) = None /\
  val_metrics (Demo.after 3) = [Demo.flushed (91#2)] /\
  Forall (fun b => lookup "val_metrics" b <> None)
         (saved Periodic (log (Demo.after 5))
            ++ saved BestEval (log (Demo.after 5))).
Proof.
  split; [vm_compute; reflexivity |].
  split; [reflexivity |].
  split; [vm_compute; reflexivity |].
  vm_compute. repeat constructor; discriminate.
Qed.

(** C4: one evaluation with [val_steps = 100] over a validation loader of
    two batches draws 100 batches and flushes the sum of their losses
    divided by 2, the length of the loader, which is not that sum divided
    by 100. *)
Theorem validation_loss_uses_loader_length :
  evaluate Demo.data (initial_state source_config Demo.data)
  = Ok Demo.evaluated /\
  length (drawn Validation (log Demo.evaluated)) = 100%nat /\
  fold_left Qplus
            (map (eval_loss (model Demo.evaluated))
                 (drawn Validation (log Demo.evaluated))) 0%Q
  = (3050#1)%Q /\
  map loss (val_metrics Demo.evaluated) = [(3050#2)%Q] /\
  ~ ((3050#2) == (3050#1) / inject_Z 100)%Q.
Proof.
  split; [vm_compute; reflexivity |].
  split; [vm_compute; reflexivity |].
  split; [vm_compute; reflexivity |].
  split; [vm_compute; reflexivity |].
  intros H. vm_compute in H. discriminate H.
Qed.

(** C5: a run whose evaluation and tests all measure a PSNR of -5 completes
    with both best scores still at their initial 0, above every score that
    was offered, and saves no best-eval and no best-test checkpoint, although
    one snapshot was flushed to the validation history and two to the test
    history.  The same run over sets that measure a PSNR of 30 ends with both
    best scores at 30 and one checkpoint saved under each label. *)
Theorem nonpositive_scores_save_no_best :
  main Demo.config Cases.negative_data = Ok Cases.after_negative /\
  map psnr (val_metrics Cases.after_negative) = [(-5)#1]%Q /\
  map psnr (test_metrics Cases.after_negative) = [(-5)#1; (-5)#1]%Q /\
  best_eval_psnr (initial_state Demo.config Cases.negative_data) = 0%Q /\
  best_test_psnr (initial_state Demo.config Cases.negative_data) = 0%Q /\
  best_eval_psnr Cases.after_negative = 0%Q /\
  best_test_psnr Cases.after_negative = 0%Q /\
  saved BestEval (log Cases.after_negative) = [] /\
  saved BestTest (log Cases.after_negative) = [] /\
  Forall (fun snap => (psnr snap < best_eval_psnr Cases.after_negative)%Q)
         (val_metrics Cases.after_negative) /\
  Forall (fun snap => (psnr snap < best_test_psnr Cases.after_negative)%Q)
         (test_metrics Cases.after_negative) /\
  main Demo.config Demo.data = Ok (Demo.after 5) /\
  best_eval_psnr (Demo.after 5) = (30#1)%Q /\
  best_test_psnr (Demo.after 5) = (30#1)%Q /\
  length (saved BestEval (log (Demo.after 5))) = 1%nat /\
  length (saved BestTest (log (Demo.after 5))) = 1%nat.
Proof.
  repeat (split; [vm_compute; reflexivity |]).
  split; [vm_compute; repeat constructor |].
  split; [vm_compute; repeat constructor |].
  repeat (split; [vm_compute; reflexivity |]).
  vm_compute; reflexivity.
Qed.

(** * Whole runs *)

Section RunFacts.

Context {C : Collaborators}.
Variable cfg : Config.
Variable data : Data.

(** ** Counting over the log *)

Lemma optimizer_steps_app (l1 l2 : list Event) :
  optimizer_steps (l1 ++ l2) = (optimizer_steps l1 + optimizer_steps l2)%nat.
Proof.
  induction l1 as [| e l1 IH]; [reflexivity |].
  destruct e; simpl; rewrite IH; reflexivity.
Qed.

Lemma windows_app (l1 l2 : list Event) :
  forall p,
    windows p (l1 ++ l2)
    = (fst (windows p l1) ++ fst (windows (snd (windows p l1)) l2),
       snd (windows (snd (windows p l1)) l2)).
Proof.
  induction l1 as [| e l1 IH]; intros p.
  - simpl. destruct (windows p l2); reflexivity.
  - destruct e as [c b | q | q b | | | q sn]; simpl; try apply IH.
    destruct q; simpl; try apply IH.
    rewrite (IH 0%nat). destruct (windows 0 l1) as [ws p1]; reflexivity.
Qed.

Lemma save_points_app (c : Cause) (l1 l2 : list Event) :
  forall d,
    save_points c d (l1 ++ l2)
    = save_points c d l1 ++ save_points c (d + optimizer_steps l1) l2.
Proof.
  induction l1 as [| e l1 IH]; intros d; simpl.
  - rewrite Nat.add_0_r. reflexivity.
  - destruct e as [c' b | q | q b | | | q sn]; simpl; try apply IH.
    + destruct (cause_eqb c c'); simpl; rewrite IH; reflexivity.
    + rewrite IH. do 2 f_equal. lia.
Qed.

(** A block of another action takes no optimizer step, draws no training
    batch and restarts no training pass. *)
Lemma block_no_training (a : Action) (evs : list Event) :
  block a evs -> a <> GradientStep ->
  optimizer_steps evs = 0%nat /\
  drawn Train evs = [] /\ restarts Train evs = 0%nat.
Proof.
  intros Hb Ha. induction Hb as [| e l He Hb IH]; [repeat split |].
  destruct e as [c b | q | q b | | | q sn]; simpl; try exact IH;
    try (destruct q; simpl; try exact IH); simpl in He; congruence.
Qed.

Lemma block_no_window (a : Action) (evs : list Event) :
  block a evs -> a <> GradientStep -> a <> Report ->
  forall p, windows p evs = ([], p).
Proof.
  intros Hb Ha Hr. induction Hb as [| e l He Hb IH]; intros p; [reflexivity |].
  destruct e as [c b | q | q b | | | q sn]; simpl; try apply IH;
    try (destruct q; simpl; try apply IH); simpl in He; congruence.
Qed.

Lemma block_no_save (a : Action) (evs : list Event) (c : Cause) :
  block a evs -> cause_action c <> a -> saved c evs = [].
Proof.
  intros Hb Ha. induction Hb as [| e l He Hb IH]; [reflexivity |].
  destruct e as [c' b | q | q b | | | q sn]; simpl; try exact IH.
  destruct c', c; simpl in *; try exact IH; congruence.
Qed.

(** Without optimizer steps in between, the save points of a stretch are
    its saved checkpoints, all at the same count. *)
Lemma save_points_still (c : Cause) (evs : list Event) (d : nat) :
  optimizer_steps evs = 0%nat ->
  save_points c d evs = map (pair d) (saved c evs).
Proof.
  induction evs as [| e evs IH]; intros H0; [reflexivity |].
  destruct e as [c' b | q | q b | | | q sn]; simpl in *;
    try (apply IH; exact H0); try discriminate H0.
  destruct c', c; simpl; rewrite (IH H0); reflexivity.
Qed.

(** ** The training iterator outside the draw *)

Lemma validation_loop_train_iter (n : nat) :
  forall s s' : State,
    validation_loop data n s = Ok s' -> train_iter s' = train_iter s.
Proof.
  induction n as [| n IH]; intros s s' H; simpl in H.
  - inversion H; reflexivity.
  - inv_bind H. rewrite (IH _ _ H).
    unfold validation_step in E. inv_bind E. destruct x0 as [[b f] r].
    inversion E; subst; clear E. destruct r; reflexivity.
Qed.

Lemma evaluation_train_iter (step : Z) (s s' : State) :
  evaluation cfg data step s = Ok s' -> train_iter s' = train_iter s.
Proof.
  intros H. apply evaluation_inv in H.
  destruct (py_in (step + 1) (evaluation_interval cfg) && negb (step =? 0));
    [| subst; reflexivity].
  destruct H as (s1 & H1 & H2).
  apply best_eval_inv in H2. destruct H2 as (lm & _ & ->).
  assert (K : train_iter s1 = train_iter s).
  { unfold evaluate in H1. inv_bind H1.
    apply validation_loop_train_iter in E. cbn in E.
    inv_bind H1. cbn in H1. inv_bind H1. inversion H1; subst; clear H1.
    cbn. exact E. }
  destruct (Qgtb (psnr lm) (best_eval_psnr s1)); cbn; exact K.
Qed.

Lemma test_loop_train_iter (l : list Batch) :
  forall s : State, train_iter (fold_left test_step l s) = train_iter s.
Proof.
  induction l as [| b l IH]; intros s; simpl; [reflexivity |].
  rewrite IH. reflexivity.
Qed.

Lemma test_train_iter (step : Z) (s s' : State) :
  test cfg data step s = Ok s' -> train_iter s' = train_iter s.
Proof.
  intros H. apply test_inv in H.
  destruct (py_in (step + 1) (test_intervals cfg) && negb (step =? 0));
    [| subst; reflexivity].
  destruct H as (s1 & H1 & H2).
  apply best_test_inv in H2. destruct H2 as (lm & _ & ->).
  assert (K : train_iter s1 = train_iter s).
  { unfold run_test in H1. inv_bind H1. cbn in H1. inv_bind H1.
    inversion H1; subst; clear H1. cbn. apply test_loop_train_iter. }
  destruct (Qgtb (psnr lm) (best_test_psnr s1)); cbn; exact K.
Qed.

(** ** The exact log of each operation *)

Lemma report_shape (step : Z) (s s' : State) :
  report cfg step s = Ok s' ->
  train_iter s' = train_iter s /\
  exists rp,
    log s' = log s ++ rp /\
    if report_due cfg step
    then exists snap, rp = [EvFlush Train snap]
    else rp = [].
Proof.
  unfold report, report_due. intros H. inv_bind H.
  apply py_mod_Ok in E. destruct E as [Hnz ->].
  destruct (((step + 1) mod report_interval cfg =? 0) && negb (step =? 0)).
  - inv_bind H. cbn in H. inv_bind H. inversion H; subst; clear H. cbn.
    split; [reflexivity |]. eexists. split; [reflexivity |].
    eexists; reflexivity.
  - inversion H; subst. split; [reflexivity |].
    exists []. rewrite app_nil_r. split; reflexivity.
Qed.

Lemma evaluation_shape (step : Z) (s s' : State) :
  evaluation cfg data step s = Ok s' ->
  exists ev et,
    log s' = log s ++ ev ++ et /\
    block Evaluate ev /\
    (forall c, saved c ev = []) /\
    ((et = [] /\ best_eval_psnr s' = best_eval_psnr s) \/
     (exists bd,
         et = [EvSave BestEval bd] /\
         step_of bd = Some step /\
         last_psnr "val_metrics" bd = Some (best_eval_psnr s') /\
         (best_eval_psnr s < best_eval_psnr s')%Q)).
Proof.
  intros H. apply evaluation_inv in H.
  destruct (py_in (step + 1) (evaluation_interval cfg) && negb (step =? 0)).
  - destruct H as (s1 & H1 & H2).
    apply evaluate_effect in H1.
    destruct H1 as (_ & _ & a3 & _ & _ & _ & _ & _ & snap & evs & f' & Hv
                    & Hlog & Hb & Hsv & _).
    apply best_eval_inv in H2. destruct H2 as (lm & Hl & ->).
    rewrite Hv, py_last_snoc in Hl. inversion Hl; subst lm; clear Hl.
    exists (evs ++ [EvFlush Validation snap]).
    assert (Hb' : block Evaluate (evs ++ [EvFlush Validation snap]))
      by (apply block_app; [exact Hb | repeat constructor]).
    assert (Hs' : forall c, saved c (evs ++ [EvFlush Validation snap]) = []).
    { intros c. rewrite saved_app, app_nil_r.
      destruct c; [| exact Hsv |];
        apply (block_no_save _ Hb); discriminate. }
    destruct (Qgtb (psnr snap) (best_eval_psnr s1)) eqn:Hg.
    + eexists [_]. cbn. rewrite Hlog, <- !app_assoc.
      split; [reflexivity |]. split; [exact Hb' |]. split; [exact Hs' |].
      right. eexists. split; [reflexivity |]. split; [reflexivity |].
      split.
      * unfold last_psnr. cbn. rewrite Hv, rev_app_distr. reflexivity.
      * rewrite <- a3. apply Qgtb_true. exact Hg.
    + exists []. rewrite app_nil_r, Hlog.
      split; [reflexivity |]. split; [exact Hb' |]. split; [exact Hs' |].
      left. split; [reflexivity | exact a3].
  - subst s'. exists [], []. simpl. rewrite app_nil_r.
    split; [reflexivity |]. split; [constructor |].
    split; [reflexivity |]. left. split; reflexivity.
Qed.

Lemma saved_draws (c : Cause) (p : Phase) (l : list Batch) :
  saved c (map (EvDraw p) l) = [].
Proof. induction l as [| b l IH]; [reflexivity | exact IH]. Qed.

Lemma test_shape (step : Z) (s s' : State) :
  test cfg data step s = Ok s' ->
  exists tv tt,
    log s' = log s ++ tv ++ tt /\
    block TestModel tv /\
    (forall c, saved c tv = []) /\
    ((tt = [] /\ best_test_psnr s' = best_test_psnr s) \/
     (exists bd,
         tt = [EvSave BestTest bd] /\
         step_of bd = Some step /\
         last_psnr "test_metrics" bd = Some (best_test_psnr s') /\
         (best_test_psnr s < best_test_psnr s')%Q)).
Proof.
  intros H. apply test_inv in H.
  destruct (py_in (step + 1) (test_intervals cfg) && negb (step =? 0)).
  - destruct H as (s1 & H1 & H2).
    apply run_test_effect in H1.
    destruct H1 as (_ & _ & _ & a4 & _ & _ & _ & snap & Hv & Hlog & _).
    apply best_test_inv in H2. destruct H2 as (lm & Hl & ->).
    rewrite Hv, py_last_snoc in Hl. inversion Hl; subst lm; clear Hl.
    exists (map (EvDraw Test) (test_loader data) ++ [EvFlush Test snap]).
    assert (Hb' : block TestModel
                    (map (EvDraw Test) (test_loader data)
                         ++ [EvFlush Test snap])).
    { apply block_app; [| repeat constructor].
      apply Forall_map, Forall_forall. reflexivity. }
    assert (Hs' : forall c,
               saved c (map (EvDraw Test) (test_loader data)
                            ++ [EvFlush Test snap]) = []).
    { intros c. rewrite saved_app, saved_draws. reflexivity. }
    destruct (Qgtb (psnr snap) (best_test_psnr s1)) eqn:Hg.
    + eexists [_]. cbn. rewrite Hlog, <- !app_assoc.
      split; [reflexivity |]. split; [exact Hb' |]. split; [exact Hs' |].
      right. eexists. split; [reflexivity |]. split; [reflexivity |].
      split.
      * unfold last_psnr. cbn. rewrite Hv, rev_app_distr. reflexivity.
      * rewrite <- a4. apply Qgtb_true. exact Hg.
    + exists []. rewrite app_nil_r, Hlog.
      split; [reflexivity |]. split; [exact Hb' |]. split; [exact Hs' |].
      left. split; [reflexivity | exact a4].
  - subst s'. exists [], []. simpl. rewrite app_nil_r.
    split; [reflexivity |]. split; [constructor |].
    split; [reflexivity |]. left. split; reflexivity.
Qed.

(** ** The exact log of one iteration *)

Lemma iteration_shape (step : Z) (s s' : State) :
  iteration cfg data step s = Ok s' ->
  exists b r dc rp ev et tv tt,
    feeder_next (train_loader data) (train_iter s) = Ok (b, train_iter s', r) /\
    log s'
    = log s
          ++ (if checkpoint_due cfg step
              then [EvSave Periodic (full_bundle step s)] else [])
          ++ ((if r then [EvRestart Train] else [])
                ++ [EvDraw Train b; EvOptimizerStep])
          ++ dc ++ rp ++ (ev ++ et) ++ (tv ++ tt) /\
    block Decay dc /\
    (if report_due cfg step
     then exists snap, rp = [EvFlush Train snap] else rp = []) /\
    (block Evaluate ev /\ (forall c, saved c ev = [])) /\
    ((et = [] /\ best_eval_psnr s' = best_eval_psnr s) \/
     (exists bd,
         et = [EvSave BestEval bd] /\
         step_of bd = Some step /\
         last_psnr "val_metrics" bd = Some (best_eval_psnr s') /\
         (best_eval_psnr s < best_eval_psnr s')%Q)) /\
    (block TestModel tv /\ (forall c, saved c tv = [])) /\
    ((tt = [] /\ best_test_psnr s' = best_test_psnr s) \/
     (exists bd,
         tt = [EvSave BestTest bd] /\
         step_of bd = Some step /\
         last_psnr "test_metrics" bd = Some (best_test_psnr s') /\
         (best_test_psnr s < best_test_psnr s')%Q)).
Proof.
  intros H. apply iteration_inv in H.
  destruct H as (s1 & b & s2 & s4 & s5 & s6 & H1 & H2 & H4 & H5 & H6 & H7).
  pose proof H1 as K1. apply periodic_checkpoint_events in K1.
  destruct K1 as ((_ & _ & a3 & a4 & _) & _).
  apply periodic_checkpoint_inv in H1. destruct H1 as [_ E1].
  pose proof H2 as K2. apply next_train_batch_events in K2.
  destruct K2 as ((_ & _ & b3 & b4 & _) & _).
  apply next_train_batch_inv in H2. destruct H2 as (f & r & Hf & E2).
  destruct (gradient_step_effect b s2) as ((_ & _ & c3 & c4 & _) & _ & L3 & _).
  assert (T3 : train_iter (gradient_step b s2) = train_iter s2).
  { unfold gradient_step.
    destruct (backward_step _ _ _) as [m o]. reflexivity. }
  pose proof H4 as K4. apply lr_decay_events in K4.
  destruct K4 as ((_ & _ & d3 & d4 & _) & _ & _ & _ & dc & L4 & B4 & _).
  apply lr_decay_inv in H4. destruct H4 as [_ E4].
  assert (T4 : train_iter s4 = train_iter (gradient_step b s2)).
  { rewrite E4.
    destruct ((step mod lr_decay_intervals cfg =? 0) && negb (step =? 0));
      reflexivity. }
  pose proof H5 as K5. apply report_events in K5.
  destruct K5 as ((_ & _ & e3 & e4 & _) & _).
  apply report_shape in H5. destruct H5 as (T5 & rp & L5 & R5).
  pose proof H6 as T6. apply evaluation_train_iter in T6.
  pose proof H6 as K6. apply evaluation_events in K6.
  destruct K6 as (_ & _ & f4 & _).
  apply evaluation_shape in H6.
  destruct H6 as (ev & et & L6 & B6 & S6 & P6).
  pose proof H7 as T7. apply test_train_iter in T7.
  pose proof H7 as K7. apply test_events in K7.
  destruct K7 as (_ & _ & g3 & _).
  apply test_shape in H7.
  destruct H7 as (tv & tt & L7 & B7 & S7 & P7).
  assert (T1 : train_iter s1 = train_iter s).
  { rewrite E1.
    destruct ((step mod save_interval cfg =? 0) && negb (step =? 0));
      reflexivity. }
  assert (T2 : train_iter s2 = f) by (rewrite E2; destruct r; reflexivity).
  assert (L1 : log s1 = log s ++ (if checkpoint_due cfg step
                                  then [EvSave Periodic (full_bundle step s)]
                                  else [])).
  { rewrite E1. unfold checkpoint_due.
    destruct ((step mod save_interval cfg =? 0) && negb (step =? 0));
      [reflexivity | rewrite app_nil_r; reflexivity]. }
  assert (L2 : log s2 = log s1 ++ (if r then [EvRestart Train] else [])
                              ++ [EvDraw Train b]).
  { rewrite E2. destruct r; cbn; rewrite <- ?app_assoc; reflexivity. }
  exists b, r, dc, rp, ev, et, tv, tt.
  split; [rewrite <- T1, Hf; do 3 f_equal; congruence |].
  split.
  { rewrite L7, L6, L5, L4, L3, L2, L1. rewrite <- !app_assoc. reflexivity. }
  split; [exact B4 |]. split; [exact R5 |].
  split; [split; assumption |].
  split.
  { assert (Q5 : best_eval_psnr s5 = best_eval_psnr s) by congruence.
    rewrite g3. rewrite Q5 in P6. exact P6. }
  split; [split; assumption |].
  assert (Q6 : best_test_psnr s6 = best_test_psnr s) by congruence.
  rewrite Q6 in P7. exact P7.
Qed.

(** ** The steps of a run *)

Lemma firstn_seq (n a m : nat) : firstn n (seq a m) = seq a (Nat.min n m).
Proof.
  revert a m. induction n as [| n IH]; intros a m; [reflexivity |].
  destruct m as [| m]; [reflexivity |]. simpl. rewrite IH. reflexivity.
Qed.

Lemma steps_done_seq (n : nat) :
  steps_done cfg n
  = map Z.of_nat (seq 0 (Nat.min n (Z.to_nat (steps cfg)))).
Proof. unfold steps_done, range. rewrite firstn_map, firstn_seq. reflexivity. Qed.

Lemma steps_done_length (n : nat) :
  length (steps_done cfg n) = Nat.min n (Z.to_nat (steps cfg)).
Proof. rewrite steps_done_seq, length_map, length_seq. reflexivity. Qed.

Lemma steps_done_bound (n : nat) (k : Z) :
  In k (steps_done cfg n) -> 0 <= k < steps cfg.
Proof.
  rewrite steps_done_seq, in_map_iff. intros (i & <- & Hi).
  apply in_seq in Hi. lia.
Qed.

(** The pieces of an iteration's log other than the draw and the optimizer
    step, as blocks. *)
Ltac shape_blocks Rp Pe Pt :=
  let snap := fresh "snap" in
  let bd := fresh "bd" in
  let bd' := fresh "bd" in
  match type of Rp with
  | if ?c then _ else _ =>
      destruct c; [destruct Rp as [snap ->] | subst]
  end;
  destruct Pe as [[-> _] | (bd & -> & _)];
  destruct Pt as [[-> _] | (bd' & -> & _)].

(** ** Training batches over a run *)

Lemma iteration_training (step : Z) (s s' : State) :
  iteration cfg data step s = Ok s' ->
  exists b r evs,
    feeder_next (train_loader data) (train_iter s) = Ok (b, train_iter s', r) /\
    log s' = log s ++ evs /\
    drawn Train evs = [b] /\
    restarts Train evs = (if r then 1 else 0)%nat /\
    optimizer_steps evs = 1%nat.
Proof.
  intros H. apply iteration_shape in H.
  destruct H as (b & r & dc & rp & ev & et & tv & tt & Hf & Hlog & Bd & Rp
                 & [Be _] & Pe & [Bt _] & Pt).
  destruct (block_no_training Bd ltac:(discriminate)) as (d1 & d2 & d3).
  destruct (block_no_training Be ltac:(discriminate)) as (e1 & e2 & e3).
  destruct (block_no_training Bt ltac:(discriminate)) as (t1 & t2 & t3).
  exists b, r. eexists. split; [exact Hf |]. split; [exact Hlog |].
  shape_blocks Rp Pe Pt; destruct (checkpoint_due cfg step), r;
    rewrite ?drawn_app, ?restarts_app, ?optimizer_steps_app,
      ?d1, ?d2, ?d3, ?e1, ?e2, ?e3, ?t1, ?t2, ?t3;
    repeat split.
Qed.

Lemma loop_training (l : list Z) :
  forall s s' : State,
    loop cfg data l s = Ok s' ->
    exists evs,
      log s' = log s ++ evs /\
      feeder_draw (train_loader data) (length l) (train_iter s)
      = Ok (drawn Train evs, train_iter s', restarts Train evs) /\
      optimizer_steps evs = length l.
Proof.
  induction l as [| step l IH]; intros s s' H; simpl in H.
  - inversion H; subst. exists []. rewrite app_nil_r. repeat split.
  - inv_bind H. rename x into s1.
    apply iteration_training in E.
    destruct E as (b & r & evs1 & Hf & L1 & D1 & R1 & O1).
    destruct (IH _ _ H) as (evs2 & L2 & D2 & O2).
    exists (evs1 ++ evs2).
    split; [rewrite L2, L1, <- app_assoc; reflexivity |].
    split.
    + cbn [length feeder_draw]. rewrite Hf; simpl. rewrite D2; simpl.
      rewrite drawn_app, restarts_app, D1, R1. reflexivity.
    + rewrite optimizer_steps_app, O1, O2. reflexivity.
Qed.

(** X1: after the first [n] iterations of a run, [k = min n steps]
    training batches were drawn and [k] optimizer steps taken, one of each
    per iteration; the batches are the passes of the training loader laid
    end to end, cut after [k], and the loader was restarted
    [(k - 1) / len(train_loader)] times. *)
Theorem run_draws_whole_passes (n : nat) (s : State) :
  (0 < loader_len (train_loader data))%nat ->
  run_upto cfg data n = Ok s ->
  drawn Train (log s)
  = firstn (Nat.min n (Z.to_nat (steps cfg)))
           (passes_from (train_loader data) 0
                        (S (Nat.min n (Z.to_nat (steps cfg))))) /\
  restarts Train (log s)
  = ((Nat.min n (Z.to_nat (steps cfg)) - 1)
     / loader_len (train_loader data))%nat /\
  optimizer_steps (log s) = Nat.min n (Z.to_nat (steps cfg)).
Proof.
  intros HL H. unfold run_upto in H. fold (steps_done cfg n) in H.
  apply loop_training in H. destruct H as (evs & Hlog & Hd & Ho).
  rewrite steps_done_length in Hd, Ho.
  set (k := Nat.min n (Z.to_nat (steps cfg))) in *.
  simpl in Hlog. subst evs.
  destruct (feeder_draw_spec (train_loader data) HL
              (train_iter (initial_state cfg data)) (Nat.le_refl k))
    as (f' & Hs).
  rewrite Hs in Hd. inversion Hd as [[Hb Hf Hr]].
  split; [| split; [| exact Ho]].
  - simpl. rewrite passes_from_S. reflexivity.
  - simpl. rewrite loader_pass_length.
    set (L := loader_len (train_loader data)) in *.
    destruct (Nat.le_gt_cases L k) as [Hge | Hlt].
    + replace (k - L + L - 1)%nat with (k - 1)%nat by lia. reflexivity.
    + replace (k - L + L - 1)%nat with (L - 1)%nat by lia.
      rewrite !Nat.div_small by lia. reflexivity.
Qed.

(** ** Checkpoints and report windows over a run *)

Lemma windows_skip (a : Action) (l : list Event) :
  block a l -> a <> GradientStep -> a <> Report ->
  forall p rest, windows p (l ++ rest) = windows p rest.
Proof.
  intros Hb Ha Hr p rest. rewrite windows_app.
  rewrite (block_no_window Hb Ha Hr). simpl.
  destruct (windows p rest); reflexivity.
Qed.

Lemma save_points_skip (a : Action) (l : list Event) (c : Cause) :
  block a l -> a <> GradientStep -> saved c l = [] ->
  forall d rest, save_points c d (l ++ rest) = save_points c d rest.
Proof.
  intros Hb Ha Hs d rest.
  destruct (block_no_training Hb Ha) as (Ho & _).
  rewrite save_points_app, (save_points_still c l d Ho), Hs, Ho.
  simpl. rewrite Nat.add_0_r. reflexivity.
Qed.

Lemma saved_skip (l : list Event) (c : Cause) :
  saved c l = [] -> forall rest, saved c (l ++ rest) = saved c rest.
Proof. intros Hs rest. rewrite saved_app, Hs. reflexivity. Qed.

(** What one iteration adds to the report windows and to the checkpoints. *)
Lemma iteration_saves (step : Z) (s s' : State) :
  iteration cfg data step s = Ok s' ->
  exists evs et tt,
    log s' = log s ++ evs /\
    optimizer_steps evs = 1%nat /\
    (forall p, windows p evs
               = if report_due cfg step then ([S p], 0%nat) else ([], S p)) /\
    (forall d, save_points Periodic d evs
               = if checkpoint_due cfg step
                 then [(d, full_bundle step s)] else []) /\
    (forall d, save_points BestEval d evs = map (pair (S d)) et) /\
    (forall d, save_points BestTest d evs = map (pair (S d)) tt) /\
    saved Periodic evs
    = (if checkpoint_due cfg step then [full_bundle step s] else []) /\
    saved BestEval evs = et /\
    saved BestTest evs = tt /\
    ((et = [] /\ best_eval_psnr s' = best_eval_psnr s) \/
     (exists bd,
         et = [bd] /\
         step_of bd = Some step /\
         last_psnr "val_metrics" bd = Some (best_eval_psnr s') /\
         (best_eval_psnr s < best_eval_psnr s')%Q)) /\
    ((tt = [] /\ best_test_psnr s' = best_test_psnr s) \/
     (exists bd,
         tt = [bd] /\
         step_of bd = Some step /\
         last_psnr "test_metrics" bd = Some (best_test_psnr s') /\
         (best_test_psnr s < best_test_psnr s')%Q)).
Proof.
  intros H. pose proof H as Ht. apply iteration_training in Ht.
  destruct Ht as (_ & _ & evs0 & _ & L0 & _ & _ & O0).
  apply iteration_shape in H.
  destruct H as (b & r & dc & rp & ev & et & tv & tt & _ & Hlog & Bd & Rp
                 & [Be Se] & Pe & [Bt St] & Pt).
  rewrite Hlog in L0. apply app_inv_head in L0. subst evs0.
  rewrite <- !app_assoc in Hlog, O0.
  pose proof (windows_skip Bd ltac:(discriminate) ltac:(discriminate)) as Wd.
  pose proof (windows_skip Be ltac:(discriminate) ltac:(discriminate)) as We.
  pose proof (windows_skip Bt ltac:(discriminate) ltac:(discriminate)) as Wt.
  assert (Sd : forall c, saved c dc = []).
  { intros c. destruct c; apply (block_no_save _ Bd); discriminate. }
  pose proof (fun c => save_points_skip c Bd ltac:(discriminate) (Sd c)) as Pd.
  pose proof (fun c => save_points_skip c Be ltac:(discriminate) (Se c)) as Pev.
  pose proof (fun c => save_points_skip c Bt ltac:(discriminate) (St c)) as Ptv.
  pose proof (fun c => saved_skip dc c (Sd c)) as Kd.
  pose proof (fun c => saved_skip ev c (Se c)) as Ke.
  pose proof (fun c => saved_skip tv c (St c)) as Kt.
  eexists. exists (saved BestEval et), (saved BestTest tt).
  split; [exact Hlog |]. split; [exact O0 |].
  assert (Pe' : (saved BestEval et = [] /\
                 best_eval_psnr s' = best_eval_psnr s) \/
                (exists bd,
                    saved BestEval et = [bd] /\
                    step_of bd = Some step /\
                    last_psnr "val_metrics" bd = Some (best_eval_psnr s') /\
                    (best_eval_psnr s < best_eval_psnr s')%Q)).
  { destruct Pe as [[-> Hb] | (bd & -> & Hb)];
      [left; split; [reflexivity | exact Hb] |].
    right. exists bd. split; [reflexivity | exact Hb]. }
  assert (Pt' : (saved BestTest tt = [] /\
                 best_test_psnr s' = best_test_psnr s) \/
                (exists bd,
                    saved BestTest tt = [bd] /\
                    step_of bd = Some step /\
                    last_psnr "test_metrics" bd = Some (best_test_psnr s') /\
                    (best_test_psnr s < best_test_psnr s')%Q)).
  { destruct Pt as [[-> Hb] | (bd & -> & Hb)];
      [left; split; [reflexivity | exact Hb] |].
    right. exists bd. split; [reflexivity | exact Hb]. }
  clear Hlog O0.
  do 7 (split;
        [ try (intros p); clear Pe' Pt';
          shape_blocks Rp Pe Pt; destruct (checkpoint_due cfg step), r;
          simpl;
          rewrite ?Wd, ?Pd, ?Kd; simpl;
          rewrite ?We, ?Pev, ?Ke; simpl;
          rewrite ?Wt, ?Ptv, ?Kt; simpl;
          reflexivity |]).
  split; [exact Pe' | exact Pt'].
Qed.

Lemma loop_periodic (l : list Z) :
  forall s s' : State,
    loop cfg data l s = Ok s' ->
    exists evs,
      log s' = log s ++ evs /\
      map step_of (saved Periodic evs)
      = map Some (filter (checkpoint_due cfg) l).
Proof.
  induction l as [| step l IH]; intros s s' H; simpl in H.
  - inversion H; subst. exists []. rewrite app_nil_r. split; reflexivity.
  - inv_bind H. rename x into s1.
    apply iteration_saves in E.
    destruct E as (evs1 & et & tt & L1 & _ & _ & _ & _ & _ & K1 & _).
    destruct (IH _ _ H) as (evs2 & L2 & K2).
    exists (evs1 ++ evs2).
    split; [rewrite L2, L1, <- app_assoc; reflexivity |].
    rewrite saved_app, map_app, K1, K2. simpl.
    destruct (checkpoint_due cfg step); reflexivity.
Qed.

Lemma labelled (A : Type) (f : A -> option Z) (P : Z -> Prop) (l : list A) :
  forall ks,
    map f l = map Some ks ->
    Forall P ks ->
    Forall (fun b => exists k, f b = Some k /\ P k) l.
Proof.
  induction l as [| b l IH]; intros ks Hm HP; [constructor |].
  destruct ks as [| k ks]; [discriminate Hm |].
  inversion Hm as [[Hb Hl]]. inversion HP; subst.
  constructor; [exists k; split; assumption | eapply IH; eassumption].
Qed.

(** X2: the periodic checkpoints that the first [n] iterations of a run
    save are, in order, those of the steps [k] among them with
    [k % save_interval == 0] and [k != 0], each labelled with its step; so
    every periodic checkpoint carries a step strictly between 0 and [steps],
    and none is labelled [steps]: the state after the last iteration is
    never saved periodically. *)
Theorem periodic_checkpoint_steps (n : nat) (s : State) :
  run_upto cfg data n = Ok s ->
  map step_of (saved Periodic (log s))
  = map Some (filter (checkpoint_due cfg) (steps_done cfg n)) /\
  Forall (fun b => exists k,
              step_of b = Some k /\
              (0 < k < steps cfg /\ k mod save_interval cfg = 0))
         (saved Periodic (log s)).
Proof.
  intros H. unfold run_upto in H. fold (steps_done cfg n) in H.
  apply loop_periodic in H. destruct H as (evs & Hlog & Hm).
  simpl in Hlog. subst evs. split; [exact Hm |].
  eapply labelled; [exact Hm |].
  apply Forall_forall. intros k Hk. apply filter_In in Hk.
  destruct Hk as [Hin Hdue]. apply steps_done_bound in Hin.
  apply modulus_due in Hdue. lia.
Qed.

Lemma loop_save_points (m : nat) :
  forall (a : nat) (s s' : State),
    loop cfg data (map Z.of_nat (seq a m)) s = Ok s' ->
    exists evs,
      log s' = log s ++ evs /\
      Forall (fun p => step_of (snd p) = Some (Z.of_nat (fst p)))
             (save_points Periodic a evs) /\
      Forall (fun p => step_of (snd p) = Some (Z.of_nat (fst p) - 1))
             (save_points BestEval a evs) /\
      Forall (fun p => step_of (snd p) = Some (Z.of_nat (fst p) - 1))
             (save_points BestTest a evs).
Proof.
  induction m as [| m IH]; intros a s s' H; simpl in H.
  - inversion H; subst. exists []. rewrite app_nil_r.
    repeat split; constructor.
  - inv_bind H. rename x into s1.
    apply iteration_saves in E.
    destruct E as (evs1 & et & tt & L1 & O1 & _ & P1 & E1 & T1 & _ & _ & _
                   & Pe & Pt).
    destruct (IH _ _ _ H) as (evs2 & L2 & F1 & F2 & F3).
    exists (evs1 ++ evs2).
    split; [rewrite L2, L1, <- app_assoc; reflexivity |].
    rewrite !save_points_app, O1, Nat.add_1_r, P1, E1, T1.
    assert (Hs : Z.of_nat (S a) - 1 = Z.of_nat a) by lia.
    repeat split; apply Forall_app; split; try assumption.
    + destruct (checkpoint_due cfg (Z.of_nat a)); repeat constructor.
    + destruct Pe as [[-> _] | (bd & -> & Hb & _)]; [constructor |].
      repeat constructor. cbn [fst snd]. rewrite Hs. exact Hb.
    + destruct Pt as [[-> _] | (bd & -> & Hb & _)]; [constructor |].
      repeat constructor. cbn [fst snd]. rewrite Hs. exact Hb.
Qed.

(** X12: in a run, the periodic checkpoint labelled [step = k] is saved
    after exactly [k] optimizer steps, while a best-eval or best-test
    checkpoint labelled [step = k] is saved after [k + 1] of them: the
    label of a best checkpoint is one behind the number of updates its
    model has received. *)
Theorem checkpoint_step_labels (n : nat) (s : State) :
  run_upto cfg data n = Ok s ->
  Forall (fun p => step_of (snd p) = Some (Z.of_nat (fst p)))
         (save_points Periodic 0 (log s)) /\
  Forall (fun p => step_of (snd p) = Some (Z.of_nat (fst p) - 1))
         (save_points BestEval 0 (log s)) /\
  Forall (fun p => step_of (snd p) = Some (Z.of_nat (fst p) - 1))
         (save_points BestTest 0 (log s)).
Proof.
  intros H. unfold run_upto in H. fold (steps_done cfg n) in H.
  rewrite steps_done_seq in H.
  apply loop_save_points in H. destruct H as (evs & Hlog & F).
  simpl in Hlog. subst evs. exact F.
Qed.

(** ** Report windows *)

Lemma succ_mod_cases (a r : nat) :
  (1 <= r)%nat ->
  ((S a mod r = 0 /\ a mod r = r - 1 /\ S a / r = S (a / r)) \/
   (S a mod r = S (a mod r) /\ S a / r = a / r))%nat.
Proof.
  intros Hr.
  pose proof (Nat.div_mod_eq a r) as Hd.
  pose proof (Nat.mod_upper_bound a r ltac:(lia)) as Hb.
  destruct (Nat.eq_dec (a mod r) (r - 1)) as [He | Hne].
  - left.
    assert (E : S a = (r * S (a / r) + 0)%nat) by nia.
    split; [symmetry; apply (Nat.mod_unique _ _ (S (a / r))); [lia | exact E] |].
    split; [exact He |].
    symmetry; apply (Nat.div_unique _ _ _ 0%nat); [lia | exact E].
  - right.
    assert (E : S a = (r * (a / r) + S (a mod r))%nat) by lia.
    split; [symmetry; apply (Nat.mod_unique _ _ (a / r)); [lia | exact E] |].
    symmetry; apply (Nat.div_unique _ _ _ (S (a mod r))); [lia | exact E].
Qed.

Lemma report_due_nat (a r : nat) :
  report_interval cfg = Z.of_nat r ->
  (2 <= r)%nat ->
  report_due cfg (Z.of_nat a) = (S a mod r =? 0)%nat.
Proof.
  intros Hr H2. unfold report_due. rewrite Hr.
  replace (Z.of_nat a + 1) with (Z.of_nat (S a)) by lia.
  rewrite <- Nat2Z.inj_mod.
  destruct (Nat.eqb_spec (S a mod r) 0) as [E | E].
  - rewrite E. simpl.
    destruct a as [| a]; [| reflexivity].
    rewrite Nat.mod_small in E by lia. discriminate E.
  - destruct (Z.eqb_spec (Z.of_nat (S a mod r)) 0) as [E' | E']; [lia |].
    reflexivity.
Qed.

Lemma loop_windows (r m : nat) :
  report_interval cfg = Z.of_nat r ->
  (2 <= r)%nat ->
  forall (a : nat) (s s' : State),
    loop cfg data (map Z.of_nat (seq a m)) s = Ok s' ->
    exists evs,
      log s' = log s ++ evs /\
      windows (a mod r) evs
      = (repeat r ((a + m) / r - a / r), ((a + m) mod r)%nat).
Proof.
  intros Hr H2. induction m as [| m IH]; intros a s s' H; simpl in H.
  - inversion H; subst. exists []. rewrite app_nil_r, Nat.add_0_r, Nat.sub_diag.
    split; reflexivity.
  - inv_bind H. rename x into s1.
    apply iteration_saves in E.
    destruct E as (evs1 & et & tt & L1 & _ & W1 & _).
    destruct (IH _ _ _ H) as (evs2 & L2 & W2).
    exists (evs1 ++ evs2).
    split; [rewrite L2, L1, <- app_assoc; reflexivity |].
    rewrite windows_app, W1, (report_due_nat a Hr H2).
    replace (a + S m)%nat with (S a + m)%nat by lia.
    assert (Hmono : (S a / r <= (S a + m) / r)%nat)
      by (apply Nat.Div0.div_le_mono; lia).
    assert (H1 : (1 <= r)%nat) by lia.
    destruct (succ_mod_cases a H1) as [(M0 & M1 & D1) | (M1 & D1)].
    + rewrite M0 in *. cbn [Nat.eqb fst snd app]. rewrite W2.
      cbn [fst snd app]. rewrite M1, D1 in *.
      replace (S (r - 1)) with r by lia.
      replace ((S a + m) / r - a / r)%nat
        with (S ((S a + m) / r - S (a / r)))%nat by lia.
      reflexivity.
    + rewrite M1 in *. cbn [Nat.eqb fst snd app]. rewrite W2.
      cbn [fst snd app]. rewrite D1. reflexivity.
Qed.

(** X3: with [report_interval = r >= 2], every training flush of a run
    closes a window of exactly [r] optimizer steps: after the first [n]
    iterations ([k = min n steps]) there were [k / r] flushes, each over [r]
    steps, and [k % r] steps are pending. *)
Theorem report_windows (r n : nat) (s : State) :
  report_interval cfg = Z.of_nat r ->
  (2 <= r)%nat ->
  run_upto cfg data n = Ok s ->
  windows 0 (log s)
  = (repeat r (Nat.min n (Z.to_nat (steps cfg)) / r),
     (Nat.min n (Z.to_nat (steps cfg)) mod r)%nat).
Proof.
  intros Hr H2 H. unfold run_upto in H. fold (steps_done cfg n) in H.
  rewrite steps_done_seq in H.
  apply (loop_windows _ Hr H2) in H. destruct H as (evs & Hlog & W).
  simpl in Hlog. subst evs.
  rewrite Nat.Div0.mod_0_l, Nat.Div0.div_0_l, Nat.sub_0_r in W. exact W.
Qed.

(** ** Best checkpoints *)

Lemma last_in (l : list Q) (x d : Q) : In (last (x :: l) d) (x :: l).
Proof.
  revert x. induction l as [| y l IH]; intros x; [left; reflexivity |].
  right. apply IH.
Qed.

Lemma sorted_below_last (l : list Q) (d : Q) :
  StronglySorted Qlt l -> Forall (fun q => (q <= last l d)%Q) l.
Proof.
  intros Hs. induction Hs as [| a l Hs IH Hall]; [constructor |].
  destruct l as [| b l].
  - constructor; [apply Qle_refl | constructor].
  - change (last (a :: b :: l) d) with (last (b :: l) d).
    constructor; [| exact IH].
    apply Qlt_le_weak. rewrite Forall_forall in Hall.
    apply Hall, last_in.
Qed.

Lemma sorted_snoc (l : list Q) (x : Q) :
  StronglySorted Qlt l ->
  Forall (fun q => (q < x)%Q) l ->
  StronglySorted Qlt (l ++ [x]).
Proof.
  intros Hs Hx. induction Hs as [| a l Hs IH Hall]; simpl.
  - repeat constructor.
  - inversion Hx; subst. constructor; [apply IH; assumption |].
    apply Forall_app. split; [exact Hall | repeat constructor; assumption].
Qed.

(** One iteration's best checkpoints of a phase continue an increasing
    list of scores that ends in the best score. *)
Lemma best_list_step (key : string) (old new : list Bundle)
      (qs : list Q) (best best' : Q) :
  map (last_psnr key) old = map Some qs ->
  StronglySorted Qlt (0%Q :: qs) ->
  last (0%Q :: qs) 0%Q = best ->
  ((new = [] /\ best' = best) \/
   (exists bd,
       new = [bd] /\ last_psnr key bd = Some best' /\ (best < best')%Q)) ->
  exists qs',
    map (last_psnr key) (old ++ new) = map Some qs' /\
    StronglySorted Qlt (0%Q :: qs') /\
    last (0%Q :: qs') 0%Q = best'.
Proof.
  intros Hm Hs Hl [[-> ->] | (bd & -> & Hp & Hlt)].
  - exists qs. rewrite app_nil_r. repeat split; assumption.
  - exists (qs ++ [best']).
    split; [rewrite !map_app, Hm; simpl; rewrite Hp; reflexivity |].
    change (0%Q :: qs ++ [best']) with ((0%Q :: qs) ++ [best']).
    split; [| apply last_last].
    apply sorted_snoc; [exact Hs |].
    pose proof (sorted_below_last 0%Q Hs) as Hb. rewrite Hl in Hb.
    eapply Forall_impl; [| exact Hb]. simpl. intros q Hq.
    eapply Qle_lt_trans; eassumption.
Qed.

Lemma loop_best_checkpoints (l : list Z) :
  forall (s s' : State) (qe qt : list Q),
    loop cfg data l s = Ok s' ->
    map (last_psnr "val_metrics") (saved BestEval (log s)) = map Some qe ->
    StronglySorted Qlt (0%Q :: qe) ->
    last (0%Q :: qe) 0%Q = best_eval_psnr s ->
    map (last_psnr "test_metrics") (saved BestTest (log s)) = map Some qt ->
    StronglySorted Qlt (0%Q :: qt) ->
    last (0%Q :: qt) 0%Q = best_test_psnr s ->
    (exists qs,
        map (last_psnr "val_metrics") (saved BestEval (log s')) = map Some qs /\
        StronglySorted Qlt (0%Q :: qs) /\
        last (0%Q :: qs) 0%Q = best_eval_psnr s') /\
    (exists qs,
        map (last_psnr "test_metrics") (saved BestTest (log s')) = map Some qs /\
        StronglySorted Qlt (0%Q :: qs) /\
        last (0%Q :: qs) 0%Q = best_test_psnr s').
Proof.
  induction l as [| step l IH]; intros s s' qe qt H E1 E2 E3 T1 T2 T3;
    simpl in H.
  - inversion H; subst. split; [exists qe | exists qt]; repeat split; assumption.
  - inv_bind H. rename x into s1.
    apply iteration_saves in E.
    destruct E as (evs1 & et & tt & L1 & _ & _ & _ & _ & _ & _ & Ke & Kt
                   & Pe & Pt).
    assert (Pe' : (et = [] /\ best_eval_psnr s1 = best_eval_psnr s) \/
                  (exists bd, et = [bd] /\
                              last_psnr "val_metrics" bd
                              = Some (best_eval_psnr s1) /\
                              (best_eval_psnr s < best_eval_psnr s1)%Q))
      by (destruct Pe as [? | (bd & ? & _ & ? & ?)]; [left | right]; eauto).
    assert (Pt' : (tt = [] /\ best_test_psnr s1 = best_test_psnr s) \/
                  (exists bd, tt = [bd] /\
                              last_psnr "test_metrics" bd
                              = Some (best_test_psnr s1) /\
                              (best_test_psnr s < best_test_psnr s1)%Q))
      by (destruct Pt as [? | (bd & ? & _ & ? & ?)]; [left | right]; eauto).
    destruct (best_list_step _ _ E1 E2 E3 Pe') as (qe' & A1 & A2 & A3).
    destruct (best_list_step _ _ T1 T2 T3 Pt') as (qt' & B1 & B2 & B3).
    eapply (IH _ _ qe' qt'); [exact H | ..]; try assumption;
      rewrite L1, saved_app, ?Ke, ?Kt; assumption.
Qed.

(** X11: in a run, the PSNRs under which the best-eval checkpoints were
    saved (the last entry of the validation history each one holds) are
    positive and strictly increasing, and the latest equals
    [best_eval_psnr]; with no such checkpoint [best_eval_psnr] is still 0.
    The same holds for the best-test checkpoints, the test history and
    [best_test_psnr]. *)
Theorem best_checkpoints_increase (n : nat) (s : State) :
  run_upto cfg data n = Ok s ->
  (exists qs,
      map (last_psnr "val_metrics") (saved BestEval (log s)) = map Some qs /\
      StronglySorted Qlt (0%Q :: qs) /\
      last (0%Q :: qs) 0%Q = best_eval_psnr s) /\
  (exists qs,
      map (last_psnr "test_metrics") (saved BestTest (log s)) = map Some qs /\
      StronglySorted Qlt (0%Q :: qs) /\
      last (0%Q :: qs) 0%Q = best_test_psnr s).
Proof.
  intros H. unfold run_upto in H.
  eapply (@loop_best_checkpoints _ _ _ [] []); [exact H | ..];
    solve [reflexivity | repeat constructor].
Qed.

(** ** The validation accumulator between iterations *)

Lemma test_loop_val_loss (l : list Batch) :
  forall s : State,
    val_report_loss (fold_left test_step l s) = val_report_loss s.
Proof.
  induction l as [| b l IH]; intros s; simpl; [reflexivity |].
  rewrite IH. reflexivity.
Qed.

Lemma test_val_loss (step : Z) (s s' : State) :
  test cfg data step s = Ok s' -> val_report_loss s' = val_report_loss s.
Proof.
  intros H. apply test_inv in H.
  destruct (py_in (step + 1) (test_intervals cfg) && negb (step =? 0));
    [| subst; reflexivity].
  destruct H as (s1 & H1 & H2).
  apply best_test_inv in H2. destruct H2 as (lm & _ & ->).
  assert (K : val_report_loss s1 = val_report_loss s).
  { unfold run_test in H1. inv_bind H1. cbn in H1. inv_bind H1.
    inversion H1; subst; clear H1. cbn. apply test_loop_val_loss. }
  destruct (Qgtb (psnr lm) (best_test_psnr s1)); cbn; exact K.
Qed.

Lemma iteration_resets_val_loss (step : Z) (s s' : State) :
  iteration cfg data step s = Ok s' ->
  val_report_loss s = PyInt 0 ->
  val_report_loss s' = PyInt 0.
Proof.
  intros H H0. apply iteration_inv in H.
  destruct H as (s1 & b & s2 & s4 & s5 & s6 & H1 & H2 & H4 & H5 & H6 & H7).
  apply periodic_checkpoint_inv in H1. destruct H1 as [_ E1].
  apply next_train_batch_inv in H2. destruct H2 as (f & r & _ & E2).
  apply lr_decay_inv in H4. destruct H4 as [_ E4].
  assert (K1 : val_report_loss s1 = PyInt 0).
  { rewrite E1.
    destruct ((step mod save_interval cfg =? 0) && negb (step =? 0)); exact H0. }
  assert (K2 : val_report_loss s2 = PyInt 0)
    by (rewrite E2; destruct r; exact K1).
  assert (K3 : val_report_loss (gradient_step b s2) = PyInt 0).
  { unfold gradient_step. destruct (backward_step _ _ _) as [m o]. exact K2. }
  assert (K4 : val_report_loss s4 = PyInt 0).
  { rewrite E4.
    destruct ((step mod lr_decay_intervals cfg =? 0) && negb (step =? 0));
      exact K3. }
  assert (K5 : val_report_loss s5 = PyInt 0).
  { unfold report in H5. inv_bind H5.
    destruct (py_mod_Ok _ _ E) as [_ ->].
    destruct (((step + 1) mod report_interval cfg =? 0) && negb (step =? 0)).
    - inv_bind H5. cbn in H5. inv_bind H5.
      inversion H5 as [Heq]. cbn. exact K4.
    - inversion H5 as [Heq]. rewrite <- Heq. exact K4. }
  assert (K6 : val_report_loss s6 = PyInt 0).
  { apply evaluation_inv in H6.
    destruct (py_in (step + 1) (evaluation_interval cfg) && negb (step =? 0));
      [| subst; exact K5].
    destruct H6 as (s7 & H6 & H8).
    apply evaluate_effect in H6.
    destruct H6 as (_ & _ & _ & _ & _ & _ & _ & R & _).
    apply best_eval_inv in H8. destruct H8 as (lm & _ & ->).
    destruct (Qgtb (psnr lm) (best_eval_psnr s7)); exact R. }
  apply test_val_loss in H7. congruence.
Qed.

Lemma run_resets_val_loss (n : nat) (s : State) :
  run_upto cfg data n = Ok s -> val_report_loss s = PyInt 0.
Proof.
  unfold run_upto. generalize (firstn n (range (steps cfg))) as l.
  assert (G : forall l s0, val_report_loss s0 = PyInt 0 ->
                           loop cfg data l s0 = Ok s ->
                           val_report_loss s = PyInt 0).
  { induction l as [| step l IH]; intros s0 H0 H; simpl in H.
    - inversion H; subst; exact H0.
    - inv_bind H. eapply IH; [| exact H].
      eapply iteration_resets_val_loss; eassumption. }
  intros l. apply G. reflexivity.
Qed.

(** ** One evaluation *)

(** X4: every evaluation starts a pass of the validation loader from its
    beginning, whatever the previous evaluation left in its iterator: with
    [v] the number of rounds ([val_steps], or [len(validation_loader)] when
    [val_steps] is 0), it draws the first [v] batches of the passes that
    follow laid end to end, restarts the loader [(v - 1) / len] times and
    then flushes one snapshot. *)
Theorem evaluation_draws_fresh_passes (s s' : State) :
  (0 < loader_len (validation_loader data))%nat ->
  evaluate data s = Ok s' ->
  exists evs snap,
    log s' = log s ++ evs ++ [EvFlush Validation snap] /\
    val_metrics s' = val_metrics s ++ [snap] /\
    drawn Validation evs
    = firstn (Z.to_nat (rounds data s))
             (passes_from (validation_loader data) (feeder_epoch (val_iter s))
                          (S (Z.to_nat (rounds data s)))) /\
    restarts Validation evs
    = ((Z.to_nat (rounds data s) - 1)
       / loader_len (validation_loader data))%nat.
Proof.
  intros HL H. apply evaluate_effect in H.
  destruct H as (_ & _ & _ & _ & _ & _ & _ & _ & snap & evs & f' & Hv & Hlog
                 & _ & _ & Hd & _).
  exists evs, snap. split; [exact Hlog |]. split; [exact Hv |].
  set (v := Z.to_nat (rounds data s)) in *.
  destruct (feeder_draw_spec (validation_loader data) HL
              (py_iter (validation_loader data) (val_iter s))
              (Nat.le_refl v)) as (f0 & Hs).
  rewrite Hs in Hd. inversion Hd as [[Hb Hf Hr]].
  split; [simpl; rewrite passes_from_S; reflexivity |].
  simpl. rewrite loader_pass_length.
  set (L := loader_len (validation_loader data)) in *.
  destruct (Nat.le_gt_cases L v) as [Hge | Hlt].
  - replace (v - L + L - 1)%nat with (v - 1)%nat by lia. reflexivity.
  - replace (v - L + L - 1)%nat with (L - 1)%nat by lia.
    rewrite !Nat.div_small by lia. reflexivity.
Qed.

(** X5: with [val_steps = 0] line 156 falls back on the length of the
    validation loader: the evaluation completes, sets [val_steps] to that
    length for the rest of the run, draws exactly one whole pass without a
    restart, and the loss it flushes is the mean over the batches it drew. *)
Theorem fallback_evaluates_one_pass (s : State) :
  val_steps s = 0 ->
  (0 < loader_len (validation_loader data))%nat ->
  val_report_loss s = PyInt 0 ->
  exists s' evs snap,
    evaluate data s = Ok s' /\
    val_steps s' = Z.of_nat (loader_len (validation_loader data)) /\
    log s' = log s ++ evs ++ [EvFlush Validation snap] /\
    val_metrics s' = val_metrics s ++ [snap] /\
    drawn Validation evs
    = loader_pass (validation_loader data) (feeder_epoch (val_iter s)) /\
    restarts Validation evs = 0%nat /\
    loss snap
    = (fold_left Qplus (map (eval_loss (model s)) (drawn Validation evs)) 0
       / inject_Z (Z.of_nat (length (drawn Validation evs))))%Q.
Proof.
  intros Hv0 HL H0.
  assert (Hvs : 0 <= val_steps s) by lia.
  destruct (evaluate_total data s HL Hvs) as (s' & H).
  exists s'. pose proof H as H'. apply evaluate_effect in H'.
  destruct H' as (_ & _ & _ & _ & Hr & _ & _ & _ & snap & evs & f' & Hv & Hlog
                  & _ & _ & Hd & Hloss).
  assert (Hrounds : rounds data s
                    = Z.of_nat (loader_len (validation_loader data)))
    by (unfold rounds; rewrite Hv0; reflexivity).
  rewrite Hrounds, ?Nat2Z.id in *.
  set (L := loader_len (validation_loader data)) in *.
  destruct (feeder_draw_spec (validation_loader data) HL
              (py_iter (validation_loader data) (val_iter s))
              (Nat.le_refl L)) as (f0 & Hs).
  rewrite Hs in Hd. inversion Hd as [[Hb Hf Hrs]]. clear Hd Hs.
  simpl in Hb, Hrs.
  pose proof (loader_pass_length (validation_loader data)
                                 (feeder_epoch (val_iter s))) as Hlen.
  fold L in Hlen.
  rewrite firstn_app, Hlen, Nat.sub_diag in Hb. simpl in Hb.
  rewrite app_nil_r, <- Hlen, firstn_all in Hb.
  exists evs, snap. split; [exact H |]. split; [exact Hr |].
  split; [exact Hlog |]. split; [exact Hv |]. split; [symmetry; exact Hb |].
  split.
  - rewrite <- Hrs, Hlen. replace (L - L + L - 1)%nat with (L - 1)%nat by lia.
    apply Nat.div_small. lia.
  - rewrite Hloss, H0, <- Hb, Hlen. reflexivity.
Qed.

(** ** How an evaluation, a test and a run fail *)

Lemma empty_pass (ld : Loader Batch) (k : nat) :
  loader_len ld = 0%nat -> loader_pass ld k = [].
Proof.
  intros H0. apply length_zero_iff_nil. rewrite loader_pass_length. exact H0.
Qed.

(** X6: over a validation loader that is not empty, an evaluation entered
    with the accumulator at the integer 0 completes exactly when [val_steps]
    is not negative.  With a negative [val_steps] no round runs, the
    accumulator becomes the float [0 / len(validation_loader)], and the flush
    raises [AttributeError] from [.item()] on that float. *)
Theorem evaluation_failure_modes (s : State) :
  (0 < loader_len (validation_loader data))%nat ->
  val_report_loss s = PyInt 0 ->
  (0 <= val_steps s <-> exists s', evaluate data s = Ok s') /\
  (val_steps s < 0 <-> evaluate data s = Raise AttributeError).
Proof.
  intros HL H0.
  assert (Hneg : val_steps s < 0 -> evaluate data s = Raise AttributeError).
  { intros Hneg. unfold evaluate. cbn.
    destruct (Z.eqb_spec (val_steps s) 0) as [Hz | Hz]; [lia |].
    replace (Z.to_nat (val_steps s)) with 0%nat by lia.
    simpl. rewrite H0. simpl.
    destruct (Z.eqb_spec (Z.of_nat (loader_len (validation_loader data))) 0)
      as [Hz' | Hz']; [lia | reflexivity]. }
  split; split.
  - intros Hpos. exact (evaluate_total data s HL Hpos).
  - intros (s' & E).
    destruct (Z.leb_spec 0 (val_steps s)) as [Hpos | Hlt]; [exact Hpos |].
    rewrite (Hneg Hlt) in E. discriminate E.
  - exact Hneg.
  - intros E.
    destruct (Z.leb_spec 0 (val_steps s)) as [Hpos | Hlt]; [| exact Hlt].
    destruct (evaluate_total data s HL Hpos) as (s' & E').
    rewrite E' in E. discriminate E.
Qed.

(** X10: a test that is due over an empty test loader, entered with the
    accumulator at the integer 0, runs no round and raises
    [ZeroDivisionError] from [0 / len(test_loader)]; nothing is appended to
    the test history. *)
Theorem empty_test_loader_raises (step : Z) (s : State) :
  test_loader data = [] ->
  test_report_loss s = PyInt 0 ->
  In (step + 1) (test_intervals cfg) ->
  step <> 0 ->
  test cfg data step s = Raise ZeroDivisionError.
Proof.
  intros HL H0 Hin Hnz. unfold test.
  rewrite (proj2 (membership_due _ _ _) (conj Hin Hnz)).
  unfold run_test. rewrite HL. simpl. rewrite H0. reflexivity.
Qed.

Lemma range_head (z : Z) : 0 < z -> exists l, range z = 0 :: l.
Proof.
  intros Hz. unfold range.
  destruct (Z.to_nat z) as [| n] eqn:Hn; [lia |].
  simpl. eauto.
Qed.

Lemma iteration_zero_interval (step : Z) (s : State) :
  (0 < loader_len (train_loader data))%nat ->
  save_interval cfg = 0 \/ report_interval cfg = 0
  \/ lr_decay_intervals cfg = 0 ->
  iteration cfg data step s = Raise ZeroDivisionError.
Proof.
  intros HL Hz. unfold iteration.
  destruct (Z.eq_dec (save_interval cfg) 0) as [Hs | Hs].
  { unfold periodic_checkpoint, py_mod. rewrite Hs. reflexivity. }
  destruct (periodic_checkpoint_total cfg step s Hs) as (s1 & H1).
  rewrite H1; simpl.
  destruct (next_train_batch_total data s1 HL) as (b & s2 & H2).
  rewrite H2; simpl.
  destruct (Z.eq_dec (lr_decay_intervals cfg) 0) as [Hd | Hd].
  { unfold lr_decay, py_mod. rewrite Hd. reflexivity. }
  destruct (lr_decay_total cfg step (gradient_step b s2) Hd) as (s4 & H4).
  rewrite H4; simpl.
  assert (Hr : report_interval cfg = 0) by tauto.
  unfold report, py_mod. rewrite Hr. reflexivity.
Qed.

(** X7: a run of at least one step over a training loader that is not
    empty, with [save_interval], [report_interval] or [lr_decay_intervals]
    set to 0, raises [ZeroDivisionError] in its first iteration: the modulus
    is taken before the [step != 0] guard is looked at. *)
Theorem zero_interval_raises :
  0 < steps cfg ->
  (0 < loader_len (train_loader data))%nat ->
  save_interval cfg = 0 \/ report_interval cfg = 0
  \/ lr_decay_intervals cfg = 0 ->
  main cfg data = Raise ZeroDivisionError.
Proof.
  intros Hs HL Hz. unfold main.
  destruct (range_head Hs) as (l & ->). simpl.
  rewrite (iteration_zero_interval 0 _ HL Hz). reflexivity.
Qed.

(** X8: a run of at least one step over an empty training loader (fewer
    items than one batch under [drop_last=True]) raises [StopIteration] in
    its first iteration, from the [next] inside the handler of line 105. *)
Theorem empty_train_loader_raises :
  0 < steps cfg ->
  save_interval cfg <> 0 ->
  loader_len (train_loader data) = 0%nat ->
  main cfg data = Raise StopIteration.
Proof.
  intros Hs Hsv HL. unfold main.
  destruct (range_head Hs) as (l & ->). simpl.
  unfold iteration, periodic_checkpoint.
  rewrite (py_mod_nonzero _ Hsv). simpl.
  unfold next_train_batch. cbn. unfold py_iter. cbn.
  rewrite (empty_pass _ 0 HL).
  rewrite (feeder_next_empty_loader _ 1 HL). reflexivity.
Qed.

(** X9: a well-formed run (no zero interval, no empty loader, no negative
    [val_steps]) raises nothing: [main] returns, after exactly [steps]
    optimizer steps, with both sub-loop accumulators back at the
    integer 0. *)
Theorem main_completes :
  well_formed cfg data (initial_state cfg data) ->
  exists s,
    main cfg data = Ok s /\
    optimizer_steps (log s) = Z.to_nat (steps cfg) /\
    val_report_loss s = PyInt 0 /\
    test_report_loss s = PyInt 0.
Proof.
  intros Hwf. unfold main.
  destruct (loop_total (range (steps cfg)) Hwf) as (s & H).
  exists s. split; [exact H |].
  assert (Hrun : run_upto cfg data (Z.to_nat (steps cfg)) = Ok s).
  { unfold run_upto. rewrite firstn_all2; [exact H |].
    unfold range. rewrite length_map, length_seq. lia. }
  split.
  - apply loop_training in H. destruct H as (evs & Hlog & _ & Ho).
    simpl in Hlog. subst evs. rewrite Ho.
    unfold range. rewrite length_map, length_seq. reflexivity.
  - split; [eapply run_resets_val_loss | eapply run_resets_test_loss];
      exact Hrun.
Qed.

(** ** Reporting at every step *)

Lemma loop_windows_one (m : nat) :
  report_interval cfg = 1 ->
  forall (a : nat) (s s' : State),
    (1 <= a)%nat ->
    loop cfg data (map Z.of_nat (seq a m)) s = Ok s' ->
    exists evs,
      log s' = log s ++ evs /\
      forall p, windows p evs
                = match m with
                  | O => ([], p)
                  | S m' => (S p :: repeat 1%nat m', 0%nat)
                  end.
Proof.
  intros Hr. induction m as [| m IH]; intros a s s' Ha H; simpl in H.
  - inversion H; subst. exists []. rewrite app_nil_r. split; reflexivity.
  - inv_bind H. rename x into s1.
    apply iteration_saves in E.
    destruct E as (evs1 & et & tt & L1 & _ & W1 & _).
    destruct (IH (S a) _ _ ltac:(lia) H) as (evs2 & L2 & W2).
    exists (evs1 ++ evs2).
    split; [rewrite L2, L1, <- app_assoc; reflexivity |].
    intros p. rewrite windows_app, W1.
    assert (Hdue : report_due cfg (Z.of_nat a) = true).
    { unfold report_due. rewrite Hr, Z.mod_1_r. simpl.
      destruct (Z.eqb_spec (Z.of_nat a) 0); [lia | reflexivity]. }
    rewrite Hdue. cbn [fst snd]. rewrite W2.
    destruct m; reflexivity.
Qed.

(** X13: with [report_interval = 1] the report is skipped at step 0 by the
    [step != 0] guard, so in a run of at least two iterations the first
    training flush closes a window of two optimizer steps (its accumulator
    holds the losses of steps 0 and 1, divided by 1), and every later flush
    a window of one. *)
Theorem first_window_of_every_step_report (n : nat) (s : State) :
  report_interval cfg = 1 ->
  (2 <= Nat.min n (Z.to_nat (steps cfg)))%nat ->
  run_upto cfg data n = Ok s ->
  windows 0 (log s)
  = (2%nat :: repeat 1%nat (Nat.min n (Z.to_nat (steps cfg)) - 2), 0%nat).
Proof.
  intros Hr Hk H. unfold run_upto in H. fold (steps_done cfg n) in H.
  rewrite steps_done_seq in H.
  destruct (Nat.min n (Z.to_nat (steps cfg))) as [| [| k]]; try lia.
  rewrite <- cons_seq, map_cons in H. cbn [loop] in H.
  inv_bind H. rename x into s1.
  apply iteration_saves in E.
  destruct E as (evs1 & et & tt & L1 & _ & W1 & _).
  apply (loop_windows_one (S k) Hr) in H; [| lia].
  destruct H as (evs2 & L2 & W2).
  rewrite L2, L1. simpl log. simpl app.
  rewrite windows_app, W1.
  assert (Hdue : report_due cfg (Z.of_nat 0) = false)
    by (unfold report_due; rewrite andb_comm; reflexivity).
  change 0 with (Z.of_nat 0) in W1 |- *. rewrite Hdue. cbn [fst snd].
  rewrite W2. simpl. rewrite Nat.sub_0_r. reflexivity.
Qed.

(** ** The lengths of the histories *)

Lemma report_history_length (step : Z) (s s' : State) :
  report cfg step s = Ok s' ->
  length (tr_metrics s')
  = (length (tr_metrics s) + if report_due cfg step then 1 else 0)%nat.
Proof.
  unfold report, report_due. intros H. inv_bind H.
  destruct (py_mod_Ok _ _ E) as [_ ->].
  destruct (((step + 1) mod report_interval cfg =? 0) && negb (step =? 0)).
  - inv_bind H. cbn in H. inv_bind H. inversion H as [Heq]. cbn.
    rewrite length_app. reflexivity.
  - inversion H; subst. lia.
Qed.

Lemma evaluation_history_length (step : Z) (s s' : State) :
  evaluation cfg data step s = Ok s' ->
  length (val_metrics s')
  = (length (val_metrics s) + if evaluation_due cfg step then 1 else 0)%nat.
Proof.
  intros H. apply evaluation_inv in H. unfold evaluation_due.
  destruct (py_in (step + 1) (evaluation_interval cfg) && negb (step =? 0)).
  - destruct H as (s1 & H1 & H2).
    apply evaluate_effect in H1. apply best_eval_events in H2.
    destruct H1 as (_ & _ & _ & _ & _ & _ & _ & _ & snap & evs & f' & Hv & _).
    destruct H2 as (_ & b2 & _). rewrite b2, Hv, length_app. reflexivity.
  - subst. lia.
Qed.

Lemma test_history_length (step : Z) (s s' : State) :
  test cfg data step s = Ok s' ->
  length (test_metrics s')
  = (length (test_metrics s) + if test_due cfg step then 1 else 0)%nat.
Proof.
  intros H. apply test_inv in H. unfold test_due.
  destruct (py_in (step + 1) (test_intervals cfg) && negb (step =? 0)).
  - destruct H as (s1 & H1 & H2).
    apply run_test_effect in H1. apply best_test_events in H2.
    destruct H1 as (_ & _ & _ & _ & _ & _ & _ & snap & Hv & _).
    destruct H2 as (_ & _ & b3 & _). rewrite b3, Hv, length_app. reflexivity.
  - subst. lia.
Qed.

Lemma iteration_history_lengths (step : Z) (s s' : State) :
  iteration cfg data step s = Ok s' ->
  length (tr_metrics s')
  = (length (tr_metrics s) + if report_due cfg step then 1 else 0)%nat /\
  length (val_metrics s')
  = (length (val_metrics s) + if evaluation_due cfg step then 1 else 0)%nat /\
  length (test_metrics s')
  = (length (test_metrics s) + if test_due cfg step then 1 else 0)%nat.
Proof.
  intros H. apply iteration_inv in H.
  destruct H as (s1 & b & s2 & s4 & s5 & s6 & H1 & H2 & H4 & H5 & H6 & H7).
  apply periodic_checkpoint_events in H1.
  destruct H1 as ((a1 & a2 & _) & a0 & _).
  apply next_train_batch_events in H2.
  destruct H2 as ((b1 & b2 & _) & b0 & _).
  destruct (gradient_step_effect b s2) as ((c1 & c2 & _) & c0 & _).
  apply lr_decay_events in H4. destruct H4 as ((d1 & d2 & _) & d0 & _).
  pose proof H5 as R5. apply report_history_length in R5.
  apply report_events in H5. destruct H5 as ((e1 & e2 & _) & _).
  pose proof H6 as R6. apply evaluation_history_length in R6.
  apply evaluation_events in H6. destruct H6 as (f0 & f2 & _).
  pose proof H7 as R7. apply test_history_length in R7.
  apply test_events in H7. destruct H7 as (g0 & g1 & _).
  rewrite g0, f0, g1, R7, f2, e2, d2, c2, b2, a2.
  rewrite R5, d0, c0, b0, a0, R6, e1, d1, c1, b1, a1.
  repeat split.
Qed.

Lemma loop_history_lengths (l : list Z) :
  forall s s' : State,
    loop cfg data l s = Ok s' ->
    length (tr_metrics s')
    = (length (tr_metrics s) + length (filter (report_due cfg) l))%nat /\
    length (val_metrics s')
    = (length (val_metrics s) + length (filter (evaluation_due cfg) l))%nat /\
    length (test_metrics s')
    = (length (test_metrics s) + length (filter (test_due cfg) l))%nat.
Proof.
  induction l as [| step l IH]; intros s s' H; simpl in H.
  - inversion H; subst. simpl. lia.
  - inv_bind H. rename x into s1.
    apply iteration_history_lengths in E. destruct E as (E1 & E2 & E3).
    destruct (IH _ _ H) as (F1 & F2 & F3).
    rewrite F1, F2, F3, E1, E2, E3. simpl.
    destruct (report_due cfg step), (evaluation_due cfg step),
      (test_due cfg step); simpl; lia.
Qed.

(** X14: after the first [n] iterations of a run each history holds exactly
    one snapshot per step at which its action was due: the training history
    one per report step, the validation history one per evaluation step,
    the test history one per test step. *)
Theorem history_lengths (n : nat) (s : State) :
  run_upto cfg data n = Ok s ->
  length (tr_metrics s)
  = length (filter (report_due cfg) (steps_done cfg n)) /\
  length (val_metrics s)
  = length (filter (evaluation_due cfg) (steps_done cfg n)) /\
  length (test_metrics s)
  = length (filter (test_due cfg) (steps_done cfg n)).
Proof.
  intros H. unfold run_upto in H. fold (steps_done cfg n) in H.
  apply loop_history_lengths in H. exact H.
Qed.

End RunFacts.

(** ** Witnesses on the small inputs *)

(** X1, witness: the five iterations of the small run. *)
Lemma run_draws_whole_passes_witness :
  (0 < loader_len (train_loader Demo.data))%nat /\
  run_upto Demo.config Demo.data 5 = Ok (Demo.after 5) /\
  drawn Train (log (Demo.after 5))
  = firstn (Nat.min 5 (Z.to_nat (steps Demo.config)))
           (passes_from (train_loader Demo.data) 0
                        (S (Nat.min 5 (Z.to_nat (steps Demo.config))))) /\
  restarts Train (log (Demo.after 5))
  = ((Nat.min 5 (Z.to_nat (steps Demo.config)) - 1)
     / loader_len (train_loader Demo.data))%nat /\
  optimizer_steps (log (Demo.after 5))
  = Nat.min 5 (Z.to_nat (steps Demo.config)).
Proof.
  assert (HL : (0 < loader_len (train_loader Demo.data))%nat)
    by (simpl; lia).
  assert (H : run_upto Demo.config Demo.data 5 = Ok (Demo.after 5))
    by (vm_compute; reflexivity).
  split; [exact HL |]. split; [exact H |].
  exact (@run_draws_whole_passes Demo.collaborators Demo.config Demo.data 5
           (Demo.after 5) HL H).
Defined.

(** X2, witness *)
Lemma periodic_checkpoint_steps_witness :
  run_upto Demo.config Demo.data 5 = Ok (Demo.after 5) /\
  map step_of (saved Periodic (log (Demo.after 5)))
  = map Some (filter (checkpoint_due Demo.config) (steps_done Demo.config 5)) /\
  Forall (fun b => exists k,
              step_of b = Some k /\
              (0 < k < steps Demo.config /\
               k mod save_interval Demo.config = 0))
         (saved Periodic (log (Demo.after 5))).
Proof.
  assert (H : run_upto Demo.config Demo.data 5 = Ok (Demo.after 5))
    by (vm_compute; reflexivity).
  split; [exact H |].
  exact (@periodic_checkpoint_steps Demo.collaborators Demo.config Demo.data 5
           (Demo.after 5) H).
Defined.

(** X3, witness: [report_interval = 2] *)
Lemma report_windows_witness :
  report_interval Demo.config = Z.of_nat 2 /\
  (2 <= 2)%nat /\
  run_upto Demo.config Demo.data 5 = Ok (Demo.after 5) /\
  windows 0 (log (Demo.after 5))
  = (repeat 2%nat (Nat.min 5 (Z.to_nat (steps Demo.config)) / 2),
     (Nat.min 5 (Z.to_nat (steps Demo.config)) mod 2)%nat).
Proof.
  assert (Hr : report_interval Demo.config = Z.of_nat 2) by reflexivity.
  assert (H2 : (2 <= 2)%nat) by lia.
  assert (H : run_upto Demo.config Demo.data 5 = Ok (Demo.after 5))
    by (vm_compute; reflexivity).
  split; [exact Hr |]. split; [exact H2 |]. split; [exact H |].
  exact (@report_windows Demo.collaborators Demo.config Demo.data 2 5
           (Demo.after 5) Hr H2 H).
Defined.

(** X4, witness: 100 rounds over two validation batches. *)
Lemma evaluation_draws_fresh_passes_witness :
  (0 < loader_len (validation_loader Demo.data))%nat /\
  evaluate Demo.data (initial_state source_config Demo.data)
  = Ok Demo.evaluated /\
  exists evs snap,
    log Demo.evaluated
    = log (initial_state source_config Demo.data)
          ++ evs ++ [EvFlush Validation snap] /\
    val_metrics Demo.evaluated
    = val_metrics (initial_state source_config Demo.data) ++ [snap] /\
    drawn Validation evs
    = firstn (Z.to_nat (rounds Demo.data
                               (initial_state source_config Demo.data)))
             (passes_from (validation_loader Demo.data)
                (feeder_epoch
                   (val_iter (initial_state source_config Demo.data)))
                (S (Z.to_nat (rounds Demo.data
                                     (initial_state source_config Demo.data))))) /\
    restarts Validation evs
    = ((Z.to_nat (rounds Demo.data (initial_state source_config Demo.data)) - 1)
       / loader_len (validation_loader Demo.data))%nat.
Proof.
  assert (HL : (0 < loader_len (validation_loader Demo.data))%nat)
    by (simpl; lia).
  assert (H : evaluate Demo.data (initial_state source_config Demo.data)
              = Ok Demo.evaluated) by (vm_compute; reflexivity).
  split; [exact HL |]. split; [exact H |].
  exact (@evaluation_draws_fresh_passes Demo.collaborators Demo.data
           (initial_state source_config Demo.data) Demo.evaluated HL H).
Defined.

(** X5, witness: [val_steps = 0] over two validation batches. *)
Lemma fallback_evaluates_one_pass_witness :
  val_steps (initial_state Cases.fallback_config Demo.data) = 0 /\
  (0 < loader_len (validation_loader Demo.data))%nat /\
  val_report_loss (initial_state Cases.fallback_config Demo.data) = PyInt 0 /\
  exists s' evs snap,
    evaluate Demo.data (initial_state Cases.fallback_config Demo.data)
    = Ok s' /\
    val_steps s' = Z.of_nat (loader_len (validation_loader Demo.data)) /\
    log s' = log (initial_state Cases.fallback_config Demo.data)
                 ++ evs ++ [EvFlush Validation snap] /\
    val_metrics s'
    = val_metrics (initial_state Cases.fallback_config Demo.data) ++ [snap] /\
    drawn Validation evs
    = loader_pass (validation_loader Demo.data)
        (feeder_epoch
           (val_iter (initial_state Cases.fallback_config Demo.data))) /\
    restarts Validation evs = 0%nat /\
    loss snap
    = (fold_left Qplus
                 (map (eval_loss
                         (model (initial_state Cases.fallback_config Demo.data)))
                      (drawn Validation evs)) 0
       / inject_Z (Z.of_nat (length (drawn Validation evs))))%Q.
Proof.
  assert (Hv : val_steps (initial_state Cases.fallback_config Demo.data) = 0)
    by reflexivity.
  assert (HL : (0 < loader_len (validation_loader Demo.data))%nat)
    by (simpl; lia).
  assert (H0 : val_report_loss (initial_state Cases.fallback_config Demo.data)
               = PyInt 0) by reflexivity.
  split; [exact Hv |]. split; [exact HL |]. split; [exact H0 |].
  exact (@fallback_evaluates_one_pass Demo.collaborators Demo.data
           (initial_state Cases.fallback_config Demo.data) Hv HL H0).
Defined.

(** X6, witness: [val_steps = -1] over the two validation batches. *)
Lemma evaluation_failure_modes_witness :
  (0 < loader_len (validation_loader Demo.data))%nat /\
  val_report_loss (initial_state Cases.negative_val_steps_config Demo.data)
  = PyInt 0 /\
  val_steps (initial_state Cases.negative_val_steps_config Demo.data) < 0 /\
  evaluate Demo.data (initial_state Cases.negative_val_steps_config Demo.data)
  = Raise AttributeError.
Proof.
  assert (HL : (0 < loader_len (validation_loader Demo.data))%nat)
    by (simpl; lia).
  assert (H0 : val_report_loss
                 (initial_state Cases.negative_val_steps_config Demo.data)
               = PyInt 0) by reflexivity.
  assert (Hn : val_steps
                 (initial_state Cases.negative_val_steps_config Demo.data) < 0)
    by (simpl; lia).
  split; [exact HL |]. split; [exact H0 |]. split; [exact Hn |].
  exact (proj1 (proj2 (@evaluation_failure_modes Demo.collaborators Demo.data
                         (initial_state Cases.negative_val_steps_config
                                        Demo.data) HL H0)) Hn).
Defined.

(** X7, witness: [save_interval = 0] *)
Lemma zero_interval_raises_witness :
  0 < steps Cases.zero_save_config /\
  (0 < loader_len (train_loader Demo.data))%nat /\
  (save_interval Cases.zero_save_config = 0 \/
   report_interval Cases.zero_save_config = 0 \/
   lr_decay_intervals Cases.zero_save_config = 0) /\
  main Cases.zero_save_config Demo.data = Raise ZeroDivisionError.
Proof.
  assert (Hs : 0 < steps Cases.zero_save_config) by (simpl; lia).
  assert (HL : (0 < loader_len (train_loader Demo.data))%nat) by (simpl; lia).
  assert (Hz : save_interval Cases.zero_save_config = 0 \/
               report_interval Cases.zero_save_config = 0 \/
               lr_decay_intervals Cases.zero_save_config = 0)
    by (left; reflexivity).
  split; [exact Hs |]. split; [exact HL |]. split; [exact Hz |].
  exact (@zero_interval_raises Demo.collaborators Cases.zero_save_config
           Demo.data Hs HL Hz).
Defined.

(** X8, witness: the empty training loader. *)
Lemma empty_train_loader_raises_witness :
  0 < steps Demo.config /\
  save_interval Demo.config <> 0 /\
  loader_len (train_loader Demo.empty_data) = 0%nat /\
  main Demo.config Demo.empty_data = Raise StopIteration.
Proof.
  assert (Hs : 0 < steps Demo.config) by (simpl; lia).
  assert (Hsv : save_interval Demo.config <> 0) by (simpl; lia).
  assert (HL : loader_len (train_loader Demo.empty_data) = 0%nat)
    by reflexivity.
  split; [exact Hs |]. split; [exact Hsv |]. split; [exact HL |].
  exact (@empty_train_loader_raises Demo.collaborators Demo.config
           Demo.empty_data Hs Hsv HL).
Defined.

(** X9, witness: the small run is well formed. *)
Lemma main_completes_witness :
  well_formed Demo.config Demo.data (initial_state Demo.config Demo.data) /\
  exists s,
    main Demo.config Demo.data = Ok s /\
    optimizer_steps (log s) = Z.to_nat (steps Demo.config) /\
    val_report_loss s = PyInt 0 /\
    test_report_loss s = PyInt 0.
Proof.
  assert (Hwf : well_formed Demo.config Demo.data
                            (initial_state Demo.config Demo.data)).
  { unfold well_formed. simpl.
    repeat split; try lia; discriminate. }
  split; [exact Hwf |].
  exact (@main_completes Demo.collaborators Demo.config Demo.data Hwf).
Defined.

(** X10, witness: a test due at step 2 over the empty test set. *)
Lemma empty_test_loader_raises_witness :
  test_loader Cases.no_test_data = [] /\
  test_report_loss (initial_state Demo.config Cases.no_test_data) = PyInt 0 /\
  In (2 + 1) (test_intervals Demo.config) /\
  2 <> 0 /\
  test Demo.config Cases.no_test_data 2
       (initial_state Demo.config Cases.no_test_data)
  = Raise ZeroDivisionError.
Proof.
  assert (HL : test_loader Cases.no_test_data = []) by reflexivity.
  assert (H0 : test_report_loss (initial_state Demo.config Cases.no_test_data)
               = PyInt 0) by reflexivity.
  assert (Hin : In (2 + 1) (test_intervals Demo.config))
    by (simpl; left; reflexivity).
  assert (Hnz : 2 <> 0) by lia.
  repeat (split; [assumption |]).
  exact (@empty_test_loader_raises Demo.collaborators Demo.config
           Cases.no_test_data 2
           (initial_state Demo.config Cases.no_test_data) HL H0 Hin Hnz).
Defined.

(** X11, witness *)
Lemma best_checkpoints_increase_witness :
  run_upto Demo.config Demo.data 5 = Ok (Demo.after 5) /\
  (exists qs,
      map (last_psnr "val_metrics") (saved BestEval (log (Demo.after 5)))
      = map Some qs /\
      StronglySorted Qlt (0%Q :: qs) /\
      last (0%Q :: qs) 0%Q = best_eval_psnr (Demo.after 5)) /\
  (exists qs,
      map (last_psnr "test_metrics") (saved BestTest (log (Demo.after 5)))
      = map Some qs /\
      StronglySorted Qlt (0%Q :: qs) /\
      last (0%Q :: qs) 0%Q = best_test_psnr (Demo.after 5)).
Proof.
  assert (H : run_upto Demo.config Demo.data 5 = Ok (Demo.after 5))
    by (vm_compute; reflexivity).
  split; [exact H |].
  exact (@best_checkpoints_increase Demo.collaborators Demo.config Demo.data 5
           (Demo.after 5) H).
Defined.

(** X12, witness *)
Lemma checkpoint_step_labels_witness :
  run_upto Demo.config Demo.data 5 = Ok (Demo.after 5) /\
  Forall (fun p => step_of (snd p) = Some (Z.of_nat (fst p)))
         (save_points Periodic 0 (log (Demo.after 5))) /\
  Forall (fun p => step_of (snd p) = Some (Z.of_nat (fst p) - 1))
         (save_points BestEval 0 (log (Demo.after 5))) /\
  Forall (fun p => step_of (snd p) = Some (Z.of_nat (fst p) - 1))
         (save_points BestTest 0 (log (Demo.after 5))).
Proof.
  assert (H : run_upto Demo.config Demo.data 5 = Ok (Demo.after 5))
    by (vm_compute; reflexivity).
  split; [exact H |].
  exact (@checkpoint_step_labels Demo.collaborators Demo.config Demo.data 5
           (Demo.after 5) H).
Defined.

(** X13, witness: [report_interval = 1] over five iterations. *)
Lemma first_window_of_every_step_report_witness :
  report_interval Cases.every_step_config = 1 /\
  (2 <= Nat.min 5 (Z.to_nat (steps Cases.every_step_config)))%nat /\
  run_upto Cases.every_step_config Demo.data 5 = Ok Cases.after_every_step /\
  windows 0 (log Cases.after_every_step)
  = (2%nat
      :: repeat 1%nat
                (Nat.min 5 (Z.to_nat (steps Cases.every_step_config)) - 2),
     0%nat).
Proof.
  assert (Hr : report_interval Cases.every_step_config = 1) by reflexivity.
  assert (Hk : (2 <= Nat.min 5 (Z.to_nat (steps Cases.every_step_config)))%nat)
    by (simpl; lia).
  assert (H : run_upto Cases.every_step_config Demo.data 5
              = Ok Cases.after_every_step) by (vm_compute; reflexivity).
  split; [exact Hr |]. split; [exact Hk |]. split; [exact H |].
  exact (@first_window_of_every_step_report Demo.collaborators
           Cases.every_step_config Demo.data 5 Cases.after_every_step
           Hr Hk H).
Defined.

(** X14, witness *)
Lemma history_lengths_witness :
  run_upto Demo.config Demo.data 5 = Ok (Demo.after 5) /\
  length (tr_metrics (Demo.after 5))
  = length (filter (report_due Demo.config) (steps_done Demo.config 5)) /\
  length (val_metrics (Demo.after 5))
  = length (filter (evaluation_due Demo.config) (steps_done Demo.config 5)) /\
  length (test_metrics (Demo.after 5))
  = length (filter (test_due Demo.config) (steps_done Demo.config 5)).
Proof.
  assert (H : run_upto Demo.config Demo.data 5 = Ok (Demo.after 5))
    by (vm_compute; reflexivity).
  split; [exact H |].
  exact (@history_lengths Demo.collaborators Demo.config Demo.data 5
           (Demo.after 5) H).
Defined.
